(** * taskflows.service.service: unit synthesis and lifecycle orchestration

    A shallow embedding of [src/taskflows/service/service.py].  Python
    strings are Rocq strings, Python sets of directive lines are [gset
    string], the unit directory is a finite map from path to text, and the
    calls made to the systemd manager, to the container provider and to the
    logger are recorded in a trace carried by an exception/state monad.

    Conventions of the model:
    - a [pathlib.Path] is the string it prints as, and files are held by
      their path; whether the directory that is to hold a new file exists
      is answered by the host, so a write can end in [FileNotFoundError];
    - characters are the 8-bit characters of Rocq strings; the class
      [[\w-]] is the one Python has on ASCII text, and what is proved of
      container names is stated for ASCII text;
    - a set is iterated in the order of one interpreter process;
    - an exception of a manager call is a [dbus.exceptions.DBusException];
      what the manager, the container provider and the clock of the host
      answer is a parameter of every run;
    - the subclasses [DockerStartService] and [DockerRunService], which only
      prepare commands before calling [Service.create], are not modelled. *)

From Stdlib Require Import ZArith Ascii String.
From stdpp Require Import base tactics option list gmap strings pretty.

Local Open Scope string_scope.
Local Open Scope list_scope.
Local Open Scope Z_scope.

Set Warnings "-register-all".

(** ** The Python library functions the module calls *)

Module Py.

(** [sep.join(parts)] *)
Definition join (sep : string) (parts : list string) : string :=
  String.concat sep parts.

(** [s.startswith(p)] *)
Definition startswith (s p : string) : bool := String.prefix p s.

(** [s[len(p):]] when [s.startswith(p)] *)
Fixpoint strip_prefix (p s : string) : option string :=
  match p, s with
  | EmptyString, _ => Some s
  | String a p', String b s' =>
      if Ascii.eqb a b then strip_prefix p' s' else None
  | String _ _, EmptyString => None
  end.

(** [s.endswith(c)] for a one-character [c] *)
Fixpoint ends_with_char (c : ascii) (s : string) : bool :=
  match s with
  | EmptyString => false
  | String a EmptyString => Ascii.eqb a c
  | String _ s' => ends_with_char c s'
  end.

(** [c in s] for a one-character [c] *)
Fixpoint has_char (c : ascii) (s : string) : bool :=
  match s with
  | EmptyString => false
  | String a s' => Ascii.eqb a c || has_char c s'
  end.

(** [s.replace(old, new)] for a non-empty [old]: occurrences are replaced
    left to right and do not overlap.  [skip] counts the characters of an
    occurrence of [old] that remain to be dropped. *)
Fixpoint replace_go (old new : string) (skip : nat) (s : string) : string :=
  match s with
  | EmptyString => EmptyString
  | String c s' =>
      match skip with
      | S k => replace_go old new k s'
      | O =>
          if String.prefix old s
          then new +:+ replace_go old new (Nat.pred (String.length old)) s'
          else String c (replace_go old new 0 s')
      end
  end.

Definition replace (old new s : string) : string := replace_go old new 0 s.

(** A string with every space turned into an underscore, character by
    character: what [name.replace(' ', '_')] is meant to give. *)
Fixpoint underscored (s : string) : string :=
  match s with
  | EmptyString => EmptyString
  | String c s' =>
      String (if Ascii.eqb c " " then "_"%char else c) (underscored s')
  end.

(** [os.path.basename(p)]: what follows the last slash. *)
Fixpoint basename (p : string) : string :=
  match p with
  | EmptyString => EmptyString
  | String c p' => if has_char "/" p then basename p' else p
  end.

(** [os.path.join(a, b)] (posixpath, two arguments). *)
Definition path_join (a b : string) : string :=
  if startswith b "/" then b
  else if bool_decide (a = "") || ends_with_char "/" a then a +:+ b
  else a +:+ "/" +:+ b.

(** *** Regular expressions *)

Definition newline : ascii := "010"%char.

(** The tail [.*\.service$] of the pattern of [_start_service], tried at
    [s]: [.] takes any character but a newline, and [$] stands at the end
    of the text or before a newline that ends it. *)
Fixpoint dotstar_service_end (s : string) : bool :=
  bool_decide (s = ".service")
  || bool_decide (s = String.append ".service" (String newline ""))
  || match s with
     | EmptyString => false
     | String c s' =>
         if Ascii.eqb c newline then false else dotstar_service_end s'
     end.

(** [re.match(r"^stop-.*\.service$", s)] as a truth value. *)
Definition match_stop_service (s : string) : bool :=
  match strip_prefix "stop-" s with
  | Some r => dotstar_service_end r
  | None => false
  end.

(** The class [[\w-]] on the 7-bit characters: letters, digits, the
    underscore and the hyphen. *)
Definition is_name_char (c : ascii) : bool :=
  let n := nat_of_ascii c in
  ((48 <=? n)%nat && (n <=? 57)%nat)
  || ((65 <=? n)%nat && (n <=? 90)%nat)
  || ((97 <=? n)%nat && (n <=? 122)%nat)
  || Ascii.eqb c "_" || Ascii.eqb c "-".

(** The greedy group [([\w-]+)]: the longest run of name characters. *)
Fixpoint take_name (s : string) : string :=
  match s with
  | EmptyString => EmptyString
  | String c s' => if is_name_char c then String c (take_name s') else EmptyString
  end.

(** [docker (?:start|stop) ([\w-]+)] tried at the start of [s]; the result
    is group 1. *)
Definition match_docker_at (s : string) : option string :=
  r ← strip_prefix "docker " s;
  r ← match strip_prefix "start" r with
      | Some r' => Some r'
      | None => strip_prefix "stop" r
      end;
  r ← strip_prefix " " r;
  let name := take_name r in
  if bool_decide (name = "") then None else Some name.

(** [re.search(r"docker (?:start|stop) ([\w-]+)", s)]: the leftmost match,
    [None] when there is none. *)
Fixpoint search_docker (s : string) : option string :=
  match match_docker_at s with
  | Some name => Some name
  | None =>
      match s with
      | EmptyString => None
      | String _ s' => search_docker s'
      end
  end.

(** Truth value of an optional string: [None] and [""] are false. *)
Definition truthy_str (s : option string) : bool :=
  match s with
  | Some s => negb (bool_decide (s = ""))
  | None => false
  end.

End Py.

(** ** Restart policies *)

Module Restart.

(** The values the annotation of [RestartPolicy.policy] lists. *)
Definition policy_kinds : list string :=
  ["always"; "on-success"; "on-failure"; "on-abnormal"; "on-abort"; "on-watchdog"].

(** The three dataclasses [RestartPolicy], [DelayRestartPolicy] and
    [BurstRestartPolicy]; the last two inherit [policy]. *)
Inductive RestartPolicy : Type :=
| Simple (policy : string)
| Delay (policy : string) (restart_delay : Z)
| Burst (policy : string) (restarts_per_period : Z) (restart_period_sec : Z).

Definition policy (p : RestartPolicy) : string :=
  match p with
  | Simple k | Delay k _ | Burst k _ _ => k
  end.

(** [RestartPolicy.unit_entries] and its override in [BurstRestartPolicy]. *)
Definition base_unit_entries (p : RestartPolicy) : gset string := ∅.

Definition unit_entries (p : RestartPolicy) : gset string :=
  match p with
  | Simple _ | Delay _ _ => base_unit_entries p
  | Burst _ n period =>
      {[ "StartLimitIntervalSec=" +:+ pretty period;
         "StartLimitBurst=" +:+ pretty n ]} ∪ base_unit_entries p
  end.

(** [RestartPolicy.service_entries] and its override in
    [DelayRestartPolicy]. *)
Definition base_service_entries (p : RestartPolicy) : gset string :=
  {[ "Restart=" +:+ policy p ]}.

Definition service_entries (p : RestartPolicy) : gset string :=
  match p with
  | Simple _ | Burst _ _ _ => base_service_entries p
  | Delay _ d => {[ "RestartSec=" +:+ pretty d ]} ∪ base_service_entries p
  end.

End Restart.

(** ** What the module imports from the rest of the package

    [taskflows.utils] ([_SYSTEMD_FILE_PREFIX], [systemd_dir]) and the
    [schedule] and [constraints] modules are imported by [service.py]; they
    are taken here as parameters.  A schedule or a constraint is only asked
    for its [unit_entries].  [iter_set] is the order in which Python iterates
    a set of strings: all that is known of it is that it lists every element
    once.  It is the order of one interpreter process (the order changes
    with the hash seed of the process), so the text of a unit file is the
    text that one process writes.  [str_schedule] and [pformat] render
    values for log lines. *)

Class Package : Type := {
  Schedule : Type;
  schedule_unit_entries : Schedule → gset string;
  HardwareConstraint : Type;
  hardware_unit_entries : HardwareConstraint → gset string;
  SystemLoadConstraint : Type;
  system_load_unit_entries : SystemLoadConstraint → gset string;
  SYSTEMD_FILE_PREFIX : string;
  systemd_dir : string;
  iter_set : gset string → list string;
  iter_set_perm : ∀ X, iter_set X ≡ₚ elements X;
  str_schedule : Schedule → string;
  pformat : list string → string;
}.

(** A value that is either one object or a list (or tuple) of them. *)
Inductive OneOrMany (A : Type) : Type :=
| One (a : A)
| Many (l : list A).
Arguments One {A} a.
Arguments Many {A} l.

Definition to_list {A} (x : OneOrMany A) : list A :=
  match x with
  | One a => [a]
  | Many l => l
  end.

(** Truth value of an optional one-or-many field whose single objects are
    true: [None] and the empty list are false. *)
Definition truthy {A} (x : option (OneOrMany A)) : bool :=
  match x with
  | None => false
  | Some (One _) => true
  | Some (Many l) => negb (bool_decide (l = []))
  end.

(** [ServiceT = Union[str, "Service"]] *)
Inductive ServiceT (S : Type) : Type :=
| UnitName (u : string)
| ServiceObj (s : S).
Arguments UnitName {S} u.
Arguments ServiceObj {S} s.

Section DataModel.
Context `{Package}.

(** The dataclass [Service], with its fields as they are once
    [__post_init__] has run. *)
Inductive Service : Type := mkService {
  name : string;
  start_command : string;
  start_command_blocking : bool;
  stop_command : option string;
  start_schedule : option (OneOrMany Schedule);
  stop_schedule : option (OneOrMany Schedule);
  restart_command : option string;
  kill_signal : string;
  description : option string;
  restart_policy : option (string + Restart.RestartPolicy);
  hardware_constraints : option (OneOrMany HardwareConstraint);
  system_load_constraints : option (OneOrMany SystemLoadConstraint);
  start_before : option (OneOrMany (ServiceT Service));
  start_after : option (OneOrMany (ServiceT Service));
  wants : option (OneOrMany (ServiceT Service));
  upholds : option (OneOrMany (ServiceT Service));
  requires : option (OneOrMany (ServiceT Service));
  requisite : option (OneOrMany (ServiceT Service));
  binds_to : option (OneOrMany (ServiceT Service));
  on_failure : option (OneOrMany (ServiceT Service));
  on_success : option (OneOrMany (ServiceT Service));
  part_of : option (OneOrMany (ServiceT Service));
  propagate_stop_to : option (OneOrMany (ServiceT Service));
  propagate_stop_from : option (OneOrMany (ServiceT Service));
  conflicts : option (OneOrMany (ServiceT Service));
  timeout : option Z;
  env_file : option string;
  env : option (list (string * string));
  working_directory : option string;
}.

(** Truth value of a [ServicesT] field: a lone string is true when it is
    not empty, a lone [Service] is true. *)
Definition truthy_services (x : option (OneOrMany (ServiceT Service))) : bool :=
  match x with
  | Some (One (UnitName u)) => negb (bool_decide (u = ""))
  | _ => truthy x
  end.

(** [Service.base_file_stem] *)
Definition stem_of_name (n : string) : string :=
  SYSTEMD_FILE_PREFIX +:+ Py.replace " " "_" n.

Definition base_file_stem (self : Service) : string :=
  stem_of_name (name self).

(** [Service.timer_files] *)
Definition timer_files (self : Service) : list string :=
  let file_stem := base_file_stem self in
  let files := [] in
  let files :=
    if truthy (start_schedule self) then files ++ [file_stem +:+ ".timer"]
    else files in
  let files :=
    if truthy (stop_schedule self)
    then files ++ ["stop-" +:+ file_stem +:+ ".timer"]
    else files in
  Py.path_join systemd_dir <$> files.

(** [Service.service_files] *)
Definition service_files (self : Service) : list string :=
  let file_stem := base_file_stem self in
  let files := [file_stem +:+ ".service"] in
  let files :=
    if truthy (stop_schedule self)
    then files ++ ["stop-" +:+ file_stem +:+ ".service"]
    else files in
  Py.path_join systemd_dir <$> files.

(** [Service.unit_files] *)
Definition unit_files (self : Service) : list string :=
  service_files self ++ timer_files self.

(** [Service.__str__] *)
Definition str_schedules (x : OneOrMany Schedule) : string :=
  match x with
  | One s => str_schedule s
  | Many l => "[" +:+ Py.join ", " (str_schedule <$> l) +:+ "]"
  end.

Definition str_Service (self : Service) : string :=
  let meta := [("name", name self); ("command", start_command self)] in
  let meta :=
    if Py.truthy_str (description self)
    then meta ++ [("description", default "" (description self))]
    else meta in
  let meta :=
    if truthy (start_schedule self)
    then meta ++ [("schedule", from_option str_schedules "" (start_schedule self))]
    else meta in
  "Service(" +:+ Py.join ", " ((λ kv, kv.1 +:+ "=" +:+ kv.2) <$> meta) +:+ ")".

End DataModel.

(** ** Effects: the unit directory, the manager, the provider, the logger *)

(** A [dbus.exceptions.DBusException]: [type(err)] and [str(err)]. *)
Record DBusError : Type := { err_class : string; err_text : string }.

Inductive Exn : Type :=
| DBusException (err : DBusError)
| FileNotFoundError (path : string)
| ProviderError (text : string).

(** The methods of [org.freedesktop.systemd1.Manager] the lifecycle calls,
    with their arguments. *)
Inductive Call : Type :=
| Reload
| StartUnit (unit mode : string)
| StopUnit (unit mode : string)
| RestartUnit (unit mode : string)
| EnableUnitFiles (files : list string) (runtime force : bool)
| DisableUnitFiles (files : list string) (runtime : bool)
| CleanUnit (unit : string) (mask : list string).

Inductive Level : Type := INFO | WARNING | ERROR.

(** What a run does to the outside, in the order it does it.  A manager
    call is recorded with the exception it raised, if any. *)
Inductive Event : Type :=
| Log (level : Level) (fmt : string) (args : list string)
| IPC (c : Call) (raised : option DBusError)
| DeleteContainer (cname : string)
| Mkdir (path : string)
| Exists (path : string)
| WriteText (path content : string)
| ReadText (path : string)
| Unlink (path : string).

(** The unit directory (path to text) and the events so far. *)
Record World : Type := mkWorld {
  store : gmap string string;
  trace : list Event;
}.

(** The behaviour of the collaborators and of the file system, which may
    depend on everything that happened before: whether a manager call
    raises, the changes [DisableUnitFiles] reports, whether
    [delete_docker_container] raises, and whether the directory that is to
    hold the file at a path is missing (a name with a slash puts a unit file
    below the unit directory, in a directory that nothing creates). *)
Record Host : Type := {
  dbus_raises : World → Call → option DBusError;
  disable_changes : World → list string → list (string * string * string);
  delete_raises : World → string → option Exn;
  parent_missing : World → string → bool;
}.

Inductive Outcome (A : Type) : Type :=
| Return (a : A)
| Raise (e : Exn).
Arguments Return {A} a.
Arguments Raise {A} e.

Definition M (A : Type) : Type := World → Outcome A * World.

Definition ret {A} (a : A) : M A := λ w, (Return a, w).

Definition bind {A B} (m : M A) (k : A → M B) : M B :=
  λ w, match m w with
       | (Return a, w') => k a w'
       | (Raise e, w') => (Raise e, w')
       end.

Definition raise {A} (e : Exn) : M A := λ w, (Raise e, w).

Declare Scope eff_scope.
Delimit Scope eff_scope with eff.
Bind Scope eff_scope with M.
Notation "x ← c ; k" := (bind c (λ x, k))
  (at level 20, c at level 100, k at level 200, only parsing) : eff_scope.
Notation "c ;; k" := (bind c (λ _, k))
  (at level 100, k at level 200, only parsing, right associativity) : eff_scope.

(** [try: body  except dbus.exceptions.DBusException as err: handler(err)] *)
Definition try_dbus {A} (body : M A) (handler : DBusError → M A) : M A :=
  λ w, match body w with
       | (Raise (DBusException err), w') => handler err w'
       | r => r
       end.

(** [for x in l: body(x)] *)
Fixpoint for_each {A} (l : list A) (body : A → M unit) : M unit :=
  match l with
  | [] => ret tt
  | x :: l' => (body x ;; for_each l' body)%eff
  end.

Definition emit (e : Event) : M unit :=
  λ w, (Return tt, mkWorld (store w) (trace w ++ [e])).

Definition logger_info (fmt : string) (args : list string) : M unit :=
  emit (Log INFO fmt args).

Definition logger_warning (fmt : string) (args : list string) : M unit :=
  emit (Log WARNING fmt args).

Section Primitives.
Context (host : Host).

(** A method call on [systemd_manager()]. *)
Definition mgr (c : Call) : M unit :=
  λ w, let raised := dbus_raises host w c in
       let w' := mkWorld (store w) (trace w ++ [IPC c raised]) in
       match raised with
       | Some err => (Raise (DBusException err), w')
       | None => (Return tt, w')
       end.

(** [mgr.DisableUnitFiles(files, runtime)], which answers with the list of
    changes made. *)
Definition mgr_disable (files : list string) (runtime : bool)
  : M (list (string * string * string)) :=
  λ w, match mgr (DisableUnitFiles files runtime) w with
       | (Return _, w') => (Return (disable_changes host w files), w')
       | (Raise e, w') => (Raise e, w')
       end.

(** [delete_docker_container(cname)] of the [docker] module. *)
Definition delete_docker_container (cname : string) : M unit :=
  λ w, let w' := mkWorld (store w) (trace w ++ [DeleteContainer cname]) in
       match delete_raises host w cname with
       | Some e => (Raise e, w')
       | None => (Return tt, w')
       end.

(** [Path.read_text], [Path.unlink], [Path.exists], [Path.write_text] and
    [Path.mkdir(parents=True, exist_ok=True)] on the unit directory.
    [write_text] creates or replaces the file; with no directory to hold it,
    it raises [FileNotFoundError] and writes nothing. *)
Definition read_text (path : string) : M string :=
  λ w, let w' := mkWorld (store w) (trace w ++ [ReadText path]) in
       match store w !! path with
       | Some text => (Return text, w')
       | None => (Raise (FileNotFoundError path), w')
       end.

Definition unlink (path : string) : M unit :=
  λ w, match store w !! path with
       | Some _ => (Return tt, mkWorld (delete path (store w)) (trace w ++ [Unlink path]))
       | None => (Raise (FileNotFoundError path), mkWorld (store w) (trace w ++ [Unlink path]))
       end.

Definition exists_ (path : string) : M bool :=
  λ w, (Return (bool_decide (is_Some (store w !! path))),
        mkWorld (store w) (trace w ++ [Exists path])).

Definition write_text (path content : string) : M unit :=
  λ w, if parent_missing host w path
       then (Raise (FileNotFoundError path), w)
       else (Return tt, mkWorld (<[path := content]> (store w))
                          (trace w ++ [WriteText path content])).

Definition mkdir (path : string) : M unit := emit (Mkdir path).

End Primitives.

(** ** Unit synthesis *)

Section Synthesis.
Context `{Package} (host : Host).

Definition nl : string := String Py.newline "".

(** [Service._write_systemd_file]: the path written is returned. *)
Definition _write_systemd_file
    (self : Service) (unit_type content : string) (is_stop_unit : bool)
  : M string :=
  (mkdir systemd_dir ;;
   let file_stem := base_file_stem self in
   let file_stem := if is_stop_unit then "stop-" +:+ file_stem else file_stem in
   let file := Py.path_join systemd_dir (file_stem +:+ "." +:+ unit_type) in
   present ← exists_ file ;
   (if present : bool
    then logger_warning "Replacing existing unit: %s" [file]
    else logger_info "Creating new unit: %s" [file]) ;;
   write_text host file content ;;
   ret file)%eff.

(** [Service._write_service_file]; [unit] is the set of unit-level lines
    (empty when the argument is left out) and [service] the service-level
    lines in the order they are iterated. *)
Definition _write_service_file
    (self : Service) (unit : gset string) (service : list string)
    (is_stop_unit : bool) : M string :=
  let content := [] in
  let content :=
    if bool_decide (unit = ∅) then content
    else content ++ "[Unit]" :: iter_set unit in
  let content :=
    content ++ "[Service]" :: service ++ ["[Install]"; "WantedBy=default.target"] in
  _write_systemd_file self "service" (Py.join nl content) is_stop_unit.

(** The lines of a timer unit, as [_write_timer_units] builds them. *)
Definition timer_entries (schedule : OneOrMany Schedule) : gset string :=
  ⋃ (schedule_unit_entries <$> to_list schedule).

Definition timer_content
    (self : Service) (is_stop_timer : bool) (schedule : OneOrMany Schedule)
  : string :=
  Py.join nl
    ("[Unit]"
     :: ("Description=" +:+ (if is_stop_timer then "stop " else "")
         +:+ "timer for " +:+ name self)
     :: "[Timer]"
     :: iter_set (timer_entries schedule)
     ++ ["[Install]"; "WantedBy=timers.target"]).

(** [Service._write_timer_units] *)
Definition _write_timer_units (self : Service) : M unit :=
  for_each [(false, start_schedule self); (true, stop_schedule self)]
    (λ '(is_stop_timer, schedule),
       match schedule with
       | None => ret tt
       | Some schedule =>
           (_write_systemd_file self "timer"
              (timer_content self is_stop_timer schedule) is_stop_timer ;;
            ret tt)%eff
       end).

(** The local function [join] of [_write_service_units]. *)
Definition join_units (args : OneOrMany (ServiceT Service)) : string :=
  Py.join " "
    ((λ v, match v with
           | UnitName u => u
           | ServiceObj s => base_file_stem s +:+ ".service"
           end) <$> to_list args).

(** One [if field: entries.add(f"Key={...}")] step. *)
Definition add_if (cond : bool) (line : string) (entries : gset string)
  : gset string :=
  if cond then entries ∪ {[ line ]} else entries.

Definition add_units
    (key : string) (field : option (OneOrMany (ServiceT Service)))
    (entries : gset string) : gset string :=
  match field with
  | Some args =>
      add_if (truthy_services field) (key +:+ "=" +:+ join_units args) entries
  | None => entries
  end.

(** [restart_policy] once a bare string is wrapped in [RestartPolicy];
    an empty string and [None] are false. *)
Definition resolved_restart_policy (self : Service)
  : option Restart.RestartPolicy :=
  match restart_policy self with
  | Some (inl k) => if bool_decide (k = "") then None else Some (Restart.Simple k)
  | Some (inr p) => Some p
  | None => None
  end.

(** The set [service] that [_write_service_units] builds. *)
Definition service_section (self : Service) : gset string :=
  let service : gset string :=
    {[ "ExecStart=" +:+ start_command self;
       "KillSignal=" +:+ kill_signal self ]} in
  let service := add_if (negb (start_command_blocking self)) "RemainAfterExit=yes" service in
  let service :=
    add_if (Py.truthy_str (stop_command self))
      ("ExecStop=" +:+ default "" (stop_command self)) service in
  let service :=
    add_if (Py.truthy_str (restart_command self))
      ("ExecReload=" +:+ default "" (restart_command self)) service in
  let service :=
    add_if (Py.truthy_str (working_directory self))
      ("WorkingDirectory=" +:+ default "" (working_directory self)) service in
  let service :=
    match timeout self with
    | Some t => add_if (negb (bool_decide (t = 0))) ("RuntimeMaxSec=" +:+ pretty t) service
    | None => service
    end in
  let service :=
    add_if (Py.truthy_str (env_file self))
      ("EnvironmentFile=" +:+ default "" (env_file self)) service in
  let service :=
    match env self with
    | Some kvs =>
        add_if (negb (bool_decide (kvs = [])))
          ("Environment=" +:+ Py.join "," ((λ kv, kv.1 +:+ "=" +:+ kv.2) <$> kvs))
          service
    | None => service
    end in
  match resolved_restart_policy self with
  | Some p => service ∪ Restart.service_entries p
  | None => service
  end.

(** The set [unit] that [_write_service_units] builds. *)
Definition unit_section (self : Service) : gset string :=
  let unit : gset string := ∅ in
  let unit :=
    add_if (Py.truthy_str (description self))
      ("Description=" +:+ default "" (description self)) unit in
  let unit := add_units "After" (start_after self) unit in
  let unit := add_units "Before" (start_before self) unit in
  let unit := add_units "Conflicts" (conflicts self) unit in
  let unit := add_units "OnSuccess" (on_success self) unit in
  let unit := add_units "OnFailure" (on_failure self) unit in
  let unit := add_units "PartOf" (part_of self) unit in
  let unit := add_units "Wants" (wants self) unit in
  let unit := add_units "Upholds" (upholds self) unit in
  let unit := add_units "Requires" (requires self) unit in
  let unit := add_units "Requisite" (requisite self) unit in
  let unit := add_units "Conflicts" (conflicts self) unit in
  let unit := add_units "BindsTo" (binds_to self) unit in
  let unit := add_units "PropagatesStopTo" (propagate_stop_to self) unit in
  let unit := add_units "StopPropagatedFrom" (propagate_stop_from self) unit in
  let unit :=
    match resolved_restart_policy self with
    | Some p => unit ∪ Restart.unit_entries p
    | None => unit
    end in
  let unit :=
    if truthy (hardware_constraints self)
    then unit ∪ ⋃ (hardware_unit_entries <$> from_option to_list [] (hardware_constraints self))
    else unit in
  if truthy (system_load_constraints self)
  then unit ∪ ⋃ (system_load_unit_entries <$> from_option to_list [] (system_load_constraints self))
  else unit.

(** The one service-level line of the secondary "stop" unit. *)
Definition stop_unit_service (srv_file : string) : list string :=
  ["ExecStart=systemctl --user stop " +:+ Py.basename srv_file].

(** [Service._write_service_units] *)
Definition _write_service_units (self : Service) : M unit :=
  (srv_file ← _write_service_file self (unit_section self)
                (iter_set (service_section self)) false ;
   if truthy (stop_schedule self)
   then (_write_service_file self ∅ (stop_unit_service srv_file) true ;; ret tt)
   else ret tt)%eff.

End Synthesis.

(** ** Lifecycle orchestration *)

Section Lifecycle.
Context `{Package} (host : Host).

(** [reload_unit_files] *)
Definition reload_unit_files : M unit := mgr host Reload.

(** [_start_service]; [start_one] is the body of its loop. *)
Definition start_one (sf : string) : M unit :=
  let sf := Py.basename sf in
  if Py.match_stop_service sf then ret tt
  else (logger_info "Running: %s" [sf] ;;
        mgr host (StartUnit sf "replace"))%eff.

Definition _start_service (files : list string) : M unit :=
  for_each files start_one.

(** [_stop_service]; [stop_one] is the body of its loop. *)
Definition stop_one (sf : string) : M unit :=
  let sf := Py.basename sf in
  (logger_info "Stopping: %s" [sf] ;;
   try_dbus (mgr host (StopUnit sf "replace"))
     (λ err, logger_warning "Could not stop %s: (%s) %s"
               [sf; err_class err; err_text err]))%eff.

Definition _stop_service (files : list string) : M unit :=
  for_each files stop_one.

(** [_restart_service] *)
Definition _restart_service (files : list string) : M unit :=
  for_each files (λ sf,
    let sf := Py.basename sf in
    (logger_info "Restarting: %s" [sf] ;;
     mgr host (RestartUnit sf "replace"))%eff).

(** [_enable_service] *)
Definition _enable_service (files : list string) : M unit :=
  (logger_info "Enabling: %s" [pformat files] ;;
   mgr host (EnableUnitFiles files false true))%eff.

(** [_disable_service] *)
Definition _disable_service (files : list string) : M unit :=
  let files := Py.basename <$> files in
  (logger_info "Disabling: %s" [pformat files] ;;
   changes ← mgr_disable host files false ;
   for_each changes (λ '(kind, link, dest),
     logger_info "%s %s %s" [kind; link; dest]))%eff.

(** The first loop of [_remove_service]: clean each service unit and
    collect the container name its file mentions.  [clean_one] is the
    body of the loop, [clean_units] the loop; both return the set
    [container_names]. *)
Definition clean_one (srv_file : string) (container_names : gset string)
  : M (gset string) :=
  (logger_info "Cleaning cache and runtime directories: %s." [srv_file] ;;
   try_dbus (mgr host (CleanUnit (Py.basename srv_file) ["all"]))
     (λ err, logger_warning "Could not clean %s: (%s) %s"
               [srv_file; err_class err; err_text err]) ;;
   text ← read_text srv_file ;
   ret (match Py.search_docker text with
        | Some cname => container_names ∪ {[ cname ]}
        | None => container_names
        end))%eff.

Fixpoint clean_units (service_files : list string) (container_names : gset string)
  : M (gset string) :=
  match service_files with
  | [] => ret container_names
  | srv_file :: rest =>
      (container_names ← clean_one srv_file container_names ;
       clean_units rest container_names)%eff
  end.

(** The last loop of [_remove_service]. *)
Definition unlink_one (file : string) : M unit :=
  (logger_info "Deleting %s" [file] ;;
   unlink file)%eff.

(** [_remove_service] *)
Definition _remove_service (service_files timer_files : list string) : M unit :=
  let files := service_files ++ timer_files in
  (_stop_service files ;;
   _disable_service files ;;
   container_names ← clean_units service_files ∅ ;
   for_each (iter_set container_names) (delete_docker_container host) ;;
   for_each files unlink_one)%eff.

(** The methods of [Service]. *)
Definition remove (self : Service) : M unit :=
  _remove_service (service_files self) (timer_files self).

Definition create (self : Service) (defer_reload : bool) : M unit :=
  (logger_info "Creating service %s" [str_Service self] ;;
   remove self ;;
   _write_timer_units host self ;;
   _write_service_units host self ;;
   (if defer_reload then ret tt else reload_unit_files) ;;
   _enable_service (unit_files self))%eff.

Definition start (self : Service) : M unit := _start_service (unit_files self).
Definition stop (self : Service) : M unit := _stop_service (unit_files self).
Definition restart (self : Service) : M unit := _restart_service (service_files self).
Definition enable (self : Service) : M unit := _enable_service (unit_files self).
Definition disable (self : Service) : M unit := _disable_service (unit_files self).

End Lifecycle.

(** ** Schedule introspection *)

Module ScheduleInfo.

(** A naive [datetime.datetime]. *)
Record datetime : Type := mkDatetime {
  year : Z; month : Z; day : Z;
  hour : Z; minute : Z; second : Z; microsecond : Z;
}.

#[global] Instance datetime_eq_dec : EqDecision datetime.
Proof. solve_decision. Defined.

(** Order of naive datetimes: field by field, most significant first. *)
Definition fields (d : datetime) : list Z :=
  [year d; month d; day d; hour d; minute d; second d; microsecond d].

Fixpoint lex_ltb (a b : list Z) : bool :=
  match a, b with
  | x :: a', y :: b' => (x <? y) || ((x =? y) && lex_ltb a' b')
  | _, _ => false
  end.

Definition dt_ltb (a b : datetime) : bool := lex_ltb (fields a) (fields b).

(** [min(l)] for a non-empty list: the first of the least elements. *)
Definition dt_min (d : datetime) (l : list datetime) : datetime :=
  fold_left (λ m x, if dt_ltb x m then x else m) l d.

Inductive PyErr : Type :=
| ValueError (text : string)
| OverflowError (text : string).

(** Year, month and day of the proleptic Gregorian calendar, from the
    number of days since 1970-01-01. *)
Definition civil_from_days (days : Z) : Z * Z * Z :=
  let z := days + 719468 in
  let era := z / 146097 in
  let doe := z - era * 146097 in
  let yoe := (doe - doe / 1460 + doe / 36524 - doe / 146096) / 365 in
  let doy := doe - (365 * yoe + yoe / 4 - yoe / 100) in
  let mp := (5 * doy + 2) / 153 in
  let d := doy - (153 * mp + 2) / 5 + 1 in
  let m := if mp <? 10 then mp + 3 else mp - 9 in
  let y := yoe + era * 400 in
  (if m <=? 2 then y + 1 else y, m, d).

(** [datetime.fromtimestamp(usec / 1_000_000)], the argument given in
    microseconds.  The result is the platform's LOCAL time: [utcoffset s]
    is the offset in seconds of local time from UTC at the instant [s].
    The seconds and microseconds are those of the exact quotient; Python
    divides in binary64, which gives the same date at 0 and can give
    another microsecond from about [2^33] seconds on (and so another
    outcome within a second of the end of the year 9999).  Nothing proved
    below depends on the microseconds of a date or on the side of that
    boundary an instant falls on.  A second count that does not fit the
    platform's [time_t], or a year that does not fit its [int], is an
    [OverflowError]; a year outside [1..9999] is a [ValueError]. *)
Definition fromtimestamp (utcoffset : Z → Z) (usec : Z) : PyErr + datetime :=
  let secs := usec / 1000000 in
  if negb ((- 2 ^ 63 <=? secs) && (secs <? 2 ^ 63))
  then inl (OverflowError "timestamp out of range for platform time_t")
  else
    let loc := secs + utcoffset secs in
    let '(y, m, d) := civil_from_days (loc / 86400) in
    let sod := loc mod 86400 in
    if negb ((- 2 ^ 31 <=? y - 1900) && (y - 1900 <? 2 ^ 31))
    then inl (OverflowError "timestamp out of range for platform time_t")
    else if negb ((1 <=? y) && (y <=? 9999))
    then inl (ValueError ("year " +:+ pretty y +:+ " is out of range"))
    else inr (mkDatetime y m d (sod / 3600) (sod mod 3600 / 60) (sod mod 60)
                (usec mod 1000000)).

(** [missing_dt = datetime(1970, 1, 1, 0, 0, 0)] *)
Definition missing_dt : datetime := mkDatetime 1970 1 1 0 0 0 0.

(** The local function [timestamp_to_dt] of [get_schedule_info]: only
    [ValueError] is caught. *)
Definition timestamp_to_dt (utcoffset : Z → Z) (timestamp : Z)
  : PyErr + option datetime :=
  match fromtimestamp utcoffset timestamp with
  | inr dt => if bool_decide (dt = missing_dt) then inr None else inr (Some dt)
  | inl (ValueError _) => inr None
  | inl e => inl e
  end.

(** What the manager answers for the properties [get_schedule_info]
    reads, keyed by unit name. *)
Record ServiceProps : Type := {
  ActiveEnterTimestamp : Z;
  ActiveExitTimestamp : Z;
}.

Record TimerProps : Type := {
  NextElapseUSecRealtime : Z;
  TimersCalendar : list (string * string * Z);
  TimersMonotonic : list (string * Z * Z);
}.

Record Bus : Type := {
  service_props : string → ServiceProps;
  timer_props : string → TimerProps;
}.

(** The dictionary [get_schedule_info] returns. *)
Record Schedule_info : Type := {
  Last_Start : option datetime;
  Last_Finish : option datetime;
  Next_Start : option datetime;
  Timers_Calendar : list (string * string * option datetime);
  Timers_Monotonic : list (string * Z * option datetime);
}.

Definition ebind {A B} (m : PyErr + A) (k : A → PyErr + B) : PyErr + B :=
  match m with
  | inr a => k a
  | inl e => inl e
  end.

(** [[(a, b, timestamp_to_dt(t)) for a, b, t in timers]], stopping at the
    first exception. *)
Fixpoint decode_timers {A} (utcoffset : Z → Z) (timers : list (string * A * Z))
  : PyErr + list (string * A * option datetime) :=
  match timers with
  | [] => inr []
  | (base, x, next_start) :: rest =>
      ebind (timestamp_to_dt utcoffset next_start) (λ dt,
      ebind (decode_timers utcoffset rest) (λ rest',
      inr ((base, x, dt) :: rest')))
  end.

Section WithPrefix.
Context (SYSTEMD_FILE_PREFIX : string).

(** The stem both units are loaded under. *)
Definition unit_stem (unit : string) : string :=
  let unit_stem := Py.replace ".timer" "" (Py.replace ".service" "" unit) in
  if Py.startswith unit_stem SYSTEMD_FILE_PREFIX then unit_stem
  else SYSTEMD_FILE_PREFIX +:+ unit_stem.

(** [get_schedule_info]; manager calls that raise are not modelled, they
    are not caught by the function. *)
Definition get_schedule_info (utcoffset : Z → Z) (bus : Bus) (unit : string)
  : PyErr + Schedule_info :=
  let stem := unit_stem unit in
  let service := service_props bus (stem +:+ ".service") in
  let timer := timer_props bus (stem +:+ ".timer") in
  ebind (timestamp_to_dt utcoffset (ActiveEnterTimestamp service)) (λ last_start,
  ebind (timestamp_to_dt utcoffset (ActiveExitTimestamp service)) (λ last_finish,
  ebind (timestamp_to_dt utcoffset (NextElapseUSecRealtime timer)) (λ next_start,
  ebind (decode_timers utcoffset (TimersCalendar timer)) (λ timers_cal,
  let next_start :=
    match next_start, omap snd timers_cal with
    | None, d :: ds => Some (dt_min d ds)
    | _, _ => next_start
    end in
  ebind (decode_timers utcoffset (TimersMonotonic timer)) (λ timers_mono,
  inr {| Last_Start := last_start;
         Last_Finish := last_finish;
         Next_Start := next_start;
         Timers_Calendar := timers_cal;
         Timers_Monotonic := timers_mono |}))))).

End WithPrefix.

End ScheduleInfo.

(** ** Reading a run *)

(** [runs m w r st evs]: started in [w], [m] ends with outcome [r], leaves
    the unit directory [st] and adds the events [evs] to the trace. *)
Definition runs {A} (m : M A) (w : World) (r : Outcome A)
    (st : gmap string string) (evs : list Event) : Prop :=
  m w = (r, mkWorld st (trace w ++ evs)).

(** The manager calls, the container deletions and the files written in a
    list of events, in order. *)
Definition calls (evs : list Event) : list Call :=
  omap (λ e, match e with IPC c _ => Some c | _ => None end) evs.

Definition deletes (evs : list Event) : list string :=
  omap (λ e, match e with DeleteContainer n => Some n | _ => None end) evs.

Definition writes (evs : list Event) : list string :=
  omap (λ e, match e with WriteText p _ => Some p | _ => None end) evs.

(** The container names [_remove_service] collects from the service files
    it can read: the leftmost match in each text. *)
Definition container_names_of
    (st : gmap string string) (service_files : list string) : gset string :=
  list_to_set (omap (λ f, st !! f ≫= Py.search_docker) service_files).

(** The units [_start_service] is to start: every basename but those the
    pattern [^stop-.*\.service$] matches. *)
Definition start_targets (files : list string) : list Call :=
  (λ sf, StartUnit sf "replace")
    <$> filter (λ sf, Py.match_stop_service sf = false) (Py.basename <$> files).

(** The calls the first loop of [_remove_service] is to make. *)
Definition clean_calls (service_files : list string) : list Call :=
  (λ f, CleanUnit (Py.basename f) ["all"]) <$> service_files.

(** The set [container_names] once the text of one more file is scanned. *)
Definition collected (text : string) (names : gset string) : gset string :=
  match Py.search_docker text with
  | Some cname => names ∪ {[ cname ]}
  | None => names
  end.

(** [total m]: from every world, [m] ends and only adds to the trace. *)
Definition total {A} (m : M A) : Prop := ∀ w, ∃ r st evs, runs m w r st evs.

Section Artifacts.
Context `{Package}.

(** Where [_write_systemd_file] writes. *)
Definition unit_path (self : Service) (unit_type : string) (is_stop_unit : bool)
  : string :=
  Py.path_join systemd_dir
    ((if is_stop_unit then "stop-" +:+ base_file_stem self else base_file_stem self)
     +:+ "." +:+ unit_type).

(** The text of the secondary "stop" service unit. *)
Definition stop_unit_content (self : Service) : string :=
  Py.join nl
    ["[Service]";
     "ExecStart=systemctl --user stop "
       +:+ Py.basename (Py.path_join systemd_dir (base_file_stem self +:+ ".service"));
     "[Install]"; "WantedBy=default.target"].

(** What [_write_systemd_file] does before it writes to [path], and the
    world it writes in. *)
Definition before_write (w : World) (path : string) : list Event :=
  [Mkdir systemd_dir; Exists path;
   if bool_decide (is_Some (store w !! path))
   then Log WARNING "Replacing existing unit: %s" [path]
   else Log INFO "Creating new unit: %s" [path]].

Definition write_world (w : World) (path : string) : World :=
  mkWorld (store w) (trace w ++ before_write w path).

End Artifacts.

(** The files unlinked in a list of events, in order. *)
Definition unlinks (evs : list Event) : list string :=
  omap (λ e, match e with Unlink p => Some p | _ => None end) evs.

(** A host whose file system has every directory a file is written to. *)
Definition no_directory_missing (host : Host) : Prop :=
  ∀ w path, parent_missing host w path = false.

(** ** The words of the specification

    What the specification says of names and texts, written without the
    functions of the code, to compare the code with. *)

(** [u] stands somewhere in [s]. *)
Definition in_text (u s : string) : Prop := ∃ a b, s = a +:+ u +:+ b.

(** [n] is the last component of [path]: what follows its last slash, or
    all of it when it has none. *)
Definition last_component (path n : string) : Prop :=
  ¬ in_text "/" n ∧ (path = n ∨ ∃ d, path = d +:+ "/" +:+ n).

(** A unit name of the form [stop-*.service] on one line, a newline at its
    end or not: a name the pattern [^stop-.*\.service$] matches. *)
Definition stop_service_name (n : string) : Prop :=
  ∃ x, ¬ in_text nl x
       ∧ (n = "stop-" +:+ x +:+ ".service"
          ∨ n = "stop-" +:+ x +:+ ".service" +:+ nl).

(** The start calls due for a list of files: one for the last component of
    each file, in order, but for the names [stop-*.service]. *)
Inductive start_calls : list string → list Call → Prop :=
| start_calls_nil : start_calls [] []
| start_calls_skip path n files cs :
    last_component path n → stop_service_name n →
    start_calls files cs → start_calls (path :: files) cs
| start_calls_call path n files cs :
    last_component path n → ¬ stop_service_name n →
    start_calls files cs →
    start_calls (path :: files) (StartUnit n "replace" :: cs).

(** The characters of a container name in ASCII text: letters, digits, the
    underscore and the hyphen. *)
Definition name_chars : string :=
  "abcdefghijklmnopqrstuvwxyzABCDEFGHIJKLMNOPQRSTUVWXYZ0123456789_-".

Definition name_char (c : ascii) : Prop := in_text (String c "") name_chars.

Definition container_name (n : string) : Prop :=
  n ≠ "" ∧ ∀ c, in_text (String c "") n → name_char c.

(** [text] refers to the container [n] right after [before]: there stands
    [docker start <n>] or [docker stop <n>], and the name ends there. *)
Definition refers_at (text before n : string) : Prop :=
  ∃ verb after,
    (verb = "start" ∨ verb = "stop")
    ∧ text = before +:+ "docker " +:+ verb +:+ " " +:+ n +:+ after
    ∧ container_name n
    ∧ ∀ c rest, after = String c rest → ¬ name_char c.

(** The first reference of a text to a container: no reference begins
    before it. *)
Definition first_reference (text n : string) : Prop :=
  ∃ before,
    refers_at text before n
    ∧ ∀ before' n', refers_at text before' n' →
        (String.length before ≤ String.length before')%nat.

(** [s.isascii()] *)
Definition isascii (s : string) : bool :=
  forallb (λ c, (nat_of_ascii c <? 128)%nat) (list_ascii_of_string s).

(** ** An instance of the package, for the examples *)

Module Demo.

#[export] Instance package : Package := {|
  Schedule := string;
  schedule_unit_entries := λ s, {[ "OnCalendar=" +:+ s ]};
  HardwareConstraint := string;
  hardware_unit_entries := λ s, {[ s ]};
  SystemLoadConstraint := string;
  system_load_unit_entries := λ s, {[ s ]};
  SYSTEMD_FILE_PREFIX := "taskflow-";
  systemd_dir := "/home/u/.config/systemd/user";
  iter_set := elements;
  iter_set_perm := λ X, reflexivity _;
  str_schedule := λ s, s;
  pformat := λ l, "[" +:+ Py.join ", " l +:+ "]";
|}.

(** A manager, a provider and a file system that never fail. *)
Definition quiet : Host := {|
  dbus_raises := λ _ _, None;
  disable_changes := λ _ _, [];
  delete_raises := λ _ _, None;
  parent_missing := λ _ _, false;
|}.

Definition no_such_unit : DBusError :=
  {| err_class := "<class 'dbus.exceptions.DBusException'>";
     err_text := "org.freedesktop.systemd1.NoSuchUnit" |}.

(** A manager that fails every call. *)
Definition failing : Host := {|
  dbus_raises := λ _ _, Some no_such_unit;
  disable_changes := λ _ _, [];
  delete_raises := λ _ _, None;
  parent_missing := λ _ _, false;
|}.

(** A service with the defaults of the dataclass. *)
Definition svc (n cmd : string) (start_s stop_s : option (OneOrMany string))
  : Service := {|
  name := n; start_command := cmd; start_command_blocking := true;
  stop_command := None; start_schedule := start_s; stop_schedule := stop_s;
  restart_command := None; kill_signal := "SIGTERM"; description := None;
  restart_policy := None; hardware_constraints := None;
  system_load_constraints := None; start_before := None; start_after := None;
  wants := None; upholds := None; requires := None; requisite := None;
  binds_to := None; on_failure := None; on_success := None; part_of := None;
  propagate_stop_to := None; propagate_stop_from := None; conflicts := None;
  timeout := None; env_file := None; env := None; working_directory := None;
|}.

(** An empty unit directory and no history. *)
Definition w0 : World := mkWorld ∅ [].

(** A unit directory that holds one service file, with the text [text]. *)
Definition deployed (self : Service) (text : string) : World :=
  mkWorld {[ Py.path_join systemd_dir (base_file_stem self +:+ ".service") := text ]} [].

(** Local time five hours behind UTC, all year. *)
Definition utc_minus_5 : Z → Z := λ _, -18000.

(** The answers of the manager for a unit that never ran and has no timer
    armed: the timestamps of the service are 0, the next elapse of the timer
    is the largest 64-bit value. *)
Definition idle_bus : ScheduleInfo.Bus := {|
  ScheduleInfo.service_props := λ _,
    {| ScheduleInfo.ActiveEnterTimestamp := 0;
       ScheduleInfo.ActiveExitTimestamp := 0 |};
  ScheduleInfo.timer_props := λ _,
    {| ScheduleInfo.NextElapseUSecRealtime := 2 ^ 64 - 1;
       ScheduleInfo.TimersCalendar := [];
       ScheduleInfo.TimersMonotonic := [] |};
|}.

(** The text of a unit that starts and stops the container [c1]. *)
Definition c1_unit : string :=
  Py.join nl ["[Service]"; "ExecStart=docker start c1"; "ExecStop=docker stop c1";
              "ExecReload=docker restart c1"; "[Install]"; "WantedBy=default.target"].

End Demo.

(** ** Further parts of the module *)

(** *** More of the Python library *)

Module PyMore.

(** [needle in hay] *)
Fixpoint contains (needle hay : string) : bool :=
  String.prefix needle hay
  || match hay with
     | EmptyString => false
     | String _ hay' => contains needle hay'
     end.

(** [s.endswith(suffix)] *)
Fixpoint endswith (s suffix : string) : bool :=
  bool_decide (s = suffix)
  || match s with
     | EmptyString => false
     | String _ s' => endswith s' suffix
     end.

(** [re.sub(r"\*+", "*", s)]: every run of stars becomes one star. *)
Fixpoint collapse_stars (s : string) : string :=
  match s with
  | EmptyString => EmptyString
  | String c s' =>
      if Ascii.eqb c "*"
      then match s' with
           | String c' _ =>
               if Ascii.eqb c' "*" then collapse_stars s'
               else String "*" (collapse_stars s')
           | EmptyString => String "*" EmptyString
           end
      else String c (collapse_stars s')
  end.




End PyMore.

(** *** Listing the units of the package *)

(** What the manager answers to [ListUnitFilesByPatterns], the values
    already turned into strings. *)
Record Listings : Type := {
  ListUnitFilesByPatterns : list string → list string → list (string * string);
}.

Section Queries.
Context `{Package}.

(** [_make_unit_match_pattern] *)
Definition _make_unit_match_pattern (unit_type match_ : option string) : string :=
  let pattern := default "" match_ in
  let pattern :=
    match unit_type with
    | Some t =>
        if Py.truthy_str unit_type && negb (PyMore.endswith pattern ("." +:+ t))
        then pattern +:+ "." +:+ t
        else pattern
    | None => pattern
    end in
  let pattern :=
    if PyMore.contains SYSTEMD_FILE_PREFIX pattern then pattern
    else "*" +:+ SYSTEMD_FILE_PREFIX +:+ "*" +:+ pattern in
  let pattern := pattern +:+ "*" in
  PyMore.collapse_stars pattern.

Context (mgr_lists : Listings).



End Queries.

(** *** What a run of the lifecycle leaves *)

(** The events of the three parts of [_remove_service]: talking to the
    manager (and reading the service files), deleting containers, deleting
    files; and the events of writing unit files. *)
Definition manager_event (e : Event) : Prop :=
  match e with
  | Log _ _ _ | IPC _ _ | ReadText _ => True
  | _ => False
  end.

Definition container_event (e : Event) : Prop :=
  match e with
  | DeleteContainer _ => True
  | _ => False
  end.

Definition unlink_event (e : Event) : Prop :=
  match e with
  | Log _ _ _ | Unlink _ => True
  | _ => False
  end.

Definition write_event (e : Event) : Prop :=
  match e with
  | Log _ _ _ | Mkdir _ | Exists _ | WriteText _ _ => True
  | _ => False
  end.

(** [emits P m]: from every world [m] ends, adding only events of [P]. *)
Definition emits {A} (P : Event → Prop) (m : M A) : Prop :=
  ∀ w, ∃ r st evs, runs m w r st evs ∧ Forall P evs.

(** A unit directory without the files [files], and with the files
    [written] on top of it. *)
Definition without (files : list string) (st : gmap string string)
  : gmap string string :=
  fold_left (λ s f, delete f s) files st.

Definition write_all (written : list (string * string)) (st : gmap string string)
  : gmap string string :=
  fold_left (λ s pc, <[pc.1 := pc.2]> s) written st.

(** How far a run got through the files it was to write: the files
    [planned] are written in order, all of them when the run returns, those
    before the one whose directory is missing when it ends in
    [FileNotFoundError]. *)
Definition wrote (host : Host) (planned : list (string * string)) (w : World)
    (r : Outcome unit) (st : gmap string string) (evs : list Event) : Prop :=
  ∃ written rest,
    planned = written ++ rest
    ∧ st = write_all written (store w)
    ∧ writes evs = written.*1
    ∧ Forall write_event evs
    ∧ calls evs = []
    ∧ (r = Return tt ∧ rest = []
       ∨ ∃ p c rest' w',
           rest = (p, c) :: rest'
           ∧ r = Raise (FileNotFoundError p)
           ∧ parent_missing host w' p = true).

Section Synthesized.
Context `{Package}.

(** The text of the primary service unit. *)
Definition primary_content (self : Service) : string :=
  Py.join nl
    ((if bool_decide (unit_section self = ∅) then []
      else "[Unit]" :: iter_set (unit_section self))
     ++ "[Service]" :: iter_set (service_section self)
     ++ ["[Install]"; "WantedBy=default.target"]).

(** The unit files [_write_timer_units] and [_write_service_units] write,
    with their text, in the order they are written. *)
Definition synthesized_timers (self : Service) : list (string * string) :=
  match start_schedule self with
  | Some s => [(unit_path self "timer" false, timer_content self false s)]
  | None => []
  end
  ++ match stop_schedule self with
     | Some s => [(unit_path self "timer" true, timer_content self true s)]
     | None => []
     end.

Definition synthesized_services (self : Service) : list (string * string) :=
  (unit_path self "service" false, primary_content self)
  :: (if truthy (stop_schedule self)
      then [(unit_path self "service" true, stop_unit_content self)]
      else []).

Definition synthesized (self : Service) : list (string * string) :=
  synthesized_timers self ++ synthesized_services self.


(** The manager calls of a [create] that goes through. *)
Definition create_calls (self : Service) (defer_reload : bool) : list Call :=
  ((λ sf, StopUnit (Py.basename sf) "replace") <$> unit_files self)
  ++ DisableUnitFiles (Py.basename <$> unit_files self) false
  :: clean_calls (service_files self)
  ++ (if defer_reload then [] else [Reload])
  ++ [EnableUnitFiles (unit_files self) false true].

(** The four paths a service can have unit files at. *)
Definition spec_paths (self : Service) : list string :=
  [unit_path self "timer" false; unit_path self "timer" true;
   unit_path self "service" false; unit_path self "service" true].

End Synthesized.

(** *** The schedule of a unit *)

(** The properties [get_schedule_info] reads have the D-Bus type [t]: they
    are unsigned 64-bit integers. *)
Definition uint64 (t : Z) : Prop := 0 <= t < 2 ^ 64.

Definition uint64_props (bus : ScheduleInfo.Bus) : Prop :=
  ∀ u,
    uint64 (ScheduleInfo.ActiveEnterTimestamp (ScheduleInfo.service_props bus u))
    ∧ uint64 (ScheduleInfo.ActiveExitTimestamp (ScheduleInfo.service_props bus u))
    ∧ uint64 (ScheduleInfo.NextElapseUSecRealtime (ScheduleInfo.timer_props bus u))
    ∧ Forall (λ t, uint64 t.2)
        (ScheduleInfo.TimersCalendar (ScheduleInfo.timer_props bus u))
    ∧ Forall (λ t, uint64 t.2)
        (ScheduleInfo.TimersMonotonic (ScheduleInfo.timer_props bus u)).

(** Local time stays within a day of UTC. *)
Definition within_a_day (utcoffset : Z → Z) : Prop :=
  ∀ s, -86400 <= utcoffset s <= 86400.

(** The answers of the manager for a unit that ran once and has two
    calendar timers; the next elapse of the timer unit is not set. *)
Definition nightly_bus : ScheduleInfo.Bus := {|
  ScheduleInfo.service_props := λ _,
    {| ScheduleInfo.ActiveEnterTimestamp := 1700000000000000;
       ScheduleInfo.ActiveExitTimestamp := 1700000060000000 |};
  ScheduleInfo.timer_props := λ _,
    {| ScheduleInfo.NextElapseUSecRealtime := 2 ^ 64 - 1;
       ScheduleInfo.TimersCalendar :=
         [("OnCalendar", "*-*-* 23:00:00", 1700089200000000);
          ("OnCalendar", "*-*-* 06:00:00", 1700028000000000)];
       ScheduleInfo.TimersMonotonic := [("OnBootUSec", 60000000, 2 ^ 64 - 1)] |};
|}.

(** The events of talking to the manager and of logging: no file is read,
    written or deleted and no container is deleted. *)
Definition talk_event (e : Event) : Prop :=
  match e with
  | Log _ _ _ | IPC _ _ => True
  | _ => False
  end.


(** A unit directory that holds the service file and the start timer of a
    service. *)
Definition deployed_with_timer (self : @Service Demo.package)
    (text timer_text : string) : World :=
  mkWorld
    (<[ Py.path_join (@systemd_dir Demo.package) (base_file_stem self +:+ ".timer")
        := timer_text ]>
       (store (Demo.deployed self text))) [].

(** A manager that refuses to enable units and fails no other call. *)
Definition refuses_enable : Host := {|
  dbus_raises := λ _ c,
    match c with
    | EnableUnitFiles _ _ _ => Some Demo.no_such_unit
    | _ => None
    end;
  disable_changes := λ _ _, [];
  delete_raises := λ _ _, None;
  parent_missing := λ _ _, false;
|}.

(** A host whose unit directory holds the directory [taskflow-a] and not
    the directory [stop-taskflow-a]; its manager fails no call. *)
Definition no_stop_directory : Host := {|
  dbus_raises := λ _ _, None;
  disable_changes := λ _ _, [];
  delete_raises := λ _ _, None;
  parent_missing := λ _ path, PyMore.contains "/stop-taskflow-a/" path;
|}.

(** * Properties *)

(** ** Strings and paths *)

Section Strings.

Lemma append_inj_r (p a b : string) : p +:+ a = p +:+ b → a = b.
Proof.
  induction p as [|c p IH]; [done|].
  intros Heq. apply IH. by injection Heq.
Qed.

Lemma replace_space (s : string) : Py.replace " " "_" s = Py.underscored s.
Proof.
  unfold Py.replace. induction s as [|c s IH]; [done|].
  cbn [Py.replace_go Py.underscored String.prefix].
  destruct (ascii_dec " " c) as [<-|Hne].
  - cbn. rewrite IH. by destruct s.
  - rewrite IH. f_equal.
    destruct (Ascii.eqb_spec c " ") as [->|]; done.
Qed.

Lemma underscored_no_space (s : string) :
  Py.has_char " " s = false → Py.underscored s = s.
Proof.
  induction s as [|c s IH]; [done|]. cbn.
  intros [Hc Hs]%orb_false_iff. by rewrite Hc, IH.
Qed.

End Strings.

(** ** The artifact-name stem *)

Section Stem.
Context `{Package}.

(** C9, as amended: the stem is the prefix followed by the name with every
    space turned into an underscore; two services have the same stem
    exactly when their names agree once spaces are underscores, so names
    without a space have different stems when they differ. *)
Theorem stem_of_names (s1 s2 : Service) :
  base_file_stem s1 = SYSTEMD_FILE_PREFIX +:+ Py.underscored (name s1)
  ∧ (base_file_stem s1 = base_file_stem s2
     ↔ Py.underscored (name s1) = Py.underscored (name s2))
  ∧ (Py.has_char " " (name s1) = false → Py.has_char " " (name s2) = false →
     name s1 ≠ name s2 → base_file_stem s1 ≠ base_file_stem s2).
Proof.
  unfold base_file_stem, stem_of_name. rewrite !replace_space.
  split; [done|]. split.
  - split; [apply append_inj_r | by intros ->].
  - intros H1 H2 Hne Heq%append_inj_r.
    by rewrite !underscored_no_space in Heq.
Qed.

End Stem.

(** C9 at two names without a space. *)
Lemma stem_of_names_witness :
  base_file_stem (Demo.svc "backup" "true" None None)
  ≠ base_file_stem (Demo.svc "report" "true" None None).
Proof.
  apply (stem_of_names (Demo.svc "backup" "true" None None)
           (Demo.svc "report" "true" None None));
    [reflexivity | reflexivity | vm_compute; discriminate].
Defined.

(** C9, as stated, fails: "a b" and "a_b" are different names with one
    stem. *)
Lemma stem_not_unique :
  ¬ (∀ (P : Package) (s1 s2 : Service),
       name s1 ≠ name s2 → base_file_stem s1 ≠ base_file_stem s2).
Proof.
  intros Huniq.
  apply (Huniq Demo.package (Demo.svc "a b" "true" None None)
           (Demo.svc "a_b" "true" None None)).
  - vm_compute. discriminate.
  - reflexivity.
Qed.

(** ** Restart policies *)

(** C7: every variant contributes the line [Restart=<policy>] to the
    service section; a burst policy of 5 restarts in 10 seconds contributes
    the two rate-limit lines to the unit section and nothing but the base
    line to the service section. *)
Theorem restart_policy_entries :
  (∀ p : Restart.RestartPolicy,
      "Restart=" +:+ Restart.policy p ∈ Restart.service_entries p)
  ∧ (∀ k : string,
      Restart.unit_entries (Restart.Burst k 5 10)
      = {[ "StartLimitIntervalSec=10"; "StartLimitBurst=5" ]}
      ∧ Restart.service_entries (Restart.Burst k 5 10) = {[ "Restart=" +:+ k ]}).
Proof.
  split.
  - intros [k|k d|k n period];
      unfold Restart.service_entries, Restart.base_service_entries;
      rewrite ?elem_of_union, !elem_of_singleton; auto.
  - intros k. split; [|done].
    unfold Restart.unit_entries, Restart.base_unit_entries.
    change (pretty 10) with "10". change (pretty 5) with "5".
    by rewrite (right_id_L ∅ (∪)).
Qed.

(** ** Runs of the lifecycle operations *)

Section Runs.

Lemma world_eta (w : World) : w = mkWorld (store w) (trace w ++ []).
Proof. destruct w. cbn. by rewrite app_nil_r. Qed.

Lemma runs_ret {A} (a : A) w : runs (ret a) w (Return a) (store w) [].
Proof. unfold runs, ret. by rewrite <- world_eta. Qed.

Lemma runs_emit e w : runs (emit e) w (Return tt) (store w) [e].
Proof. done. Qed.

Lemma runs_bind_return {A B} (m : M A) (k : A → M B) w a st1 e1 r st e2 :
  runs m w (Return a) st1 e1 →
  runs (k a) (mkWorld st1 (trace w ++ e1)) r st e2 →
  runs (bind m k) w r st (e1 ++ e2).
Proof.
  unfold runs, bind. intros -> Hk. cbn in Hk. by rewrite Hk, app_assoc.
Qed.

Lemma runs_bind_raise {A B} (m : M A) (k : A → M B) w e st evs :
  runs m w (Raise e) st evs → runs (bind m k) w (Raise e) st evs.
Proof. unfold runs, bind. by intros ->. Qed.

Lemma runs_mgr host c w :
  runs (mgr host c) w
    (match dbus_raises host w c with
     | Some err => Raise (DBusException err)
     | None => Return tt
     end)
    (store w) [IPC c (dbus_raises host w c)].
Proof. unfold runs, mgr. by destruct (dbus_raises host w c). Qed.

(** A caught manager call: it returns, and a failure leaves the warning
    of the handler right after the call. *)
Lemma runs_try_mgr host c w fmt (args : DBusError → list string) :
  runs (try_dbus (mgr host c) (λ err, logger_warning fmt (args err))) w
    (Return tt) (store w)
    (IPC c (dbus_raises host w c)
     :: match dbus_raises host w c with
        | Some err => [Log WARNING fmt (args err)]
        | None => []
        end).
Proof.
  unfold runs, try_dbus, mgr. destruct (dbus_raises host w c); cbn; [|done].
  unfold logger_warning, emit; cbn. by rewrite <- app_assoc.
Qed.

End Runs.

Section Stop.
Context (host : Host).

Lemma stop_one_runs sf w :
  ∃ raised,
    runs (stop_one host sf) w (Return tt) (store w)
      (Log INFO "Stopping: %s" [Py.basename sf]
       :: IPC (StopUnit (Py.basename sf) "replace") raised
       :: match raised with
          | Some err =>
              [Log WARNING "Could not stop %s: (%s) %s"
                 [Py.basename sf; err_class err; err_text err]]
          | None => []
          end).
Proof.
  eexists. unfold stop_one.
  eapply (runs_bind_return _ _ _ _ _ [_]); [apply runs_emit|].
  apply (runs_try_mgr host _ (mkWorld _ _) _
           (λ err, [_; err_class err; err_text err])).
Qed.

Lemma stop_service_runs files w :
  ∃ evs,
    runs (_stop_service host files) w (Return tt) (store w) evs
    ∧ calls evs = (λ sf, StopUnit (Py.basename sf) "replace") <$> files
    ∧ deletes evs = [] ∧ writes evs = []
    ∧ (∀ c err, IPC c (Some err) ∈ evs →
         ∃ u, c = StopUnit u "replace"
              ∧ Log WARNING "Could not stop %s: (%s) %s"
                  [u; err_class err; err_text err] ∈ evs).
Proof.
  revert w. induction files as [|sf files IH]; intros w.
  - exists []. split; [apply runs_ret|]. repeat split; try done.
    by intros c err ?%elem_of_nil.
  - destruct (stop_one_runs sf w) as [raised Hone].
    match type of Hone with
    | runs _ _ _ _ ?e1 =>
        destruct (IH (mkWorld (store w) (trace w ++ e1)))
          as (evs & Hrest & Hcalls & Hdel & Hwr & Hlog)
    end.
    cbn [store] in Hrest. eexists. split; [eapply runs_bind_return; [apply Hone | apply Hrest]|].
    unfold calls, deletes, writes in *.
    rewrite !omap_app, Hcalls, Hdel, Hwr.
    repeat split; try by destruct raised.
    intros c err [Hin|Hin]%elem_of_app.
    + exists (Py.basename sf).
      rewrite !elem_of_cons in Hin. destruct Hin as [|[Heq|Hin]]; [done| |].
      * injection Heq as -> <-. split; [done|].
        rewrite elem_of_app, !elem_of_cons. auto.
      * destruct raised; [|by apply elem_of_nil in Hin].
        by apply list_elem_of_singleton in Hin.
    + destruct (Hlog c err Hin) as (u & -> & Hw). exists u.
      rewrite elem_of_app. auto.
Qed.

End Stop.

Section Start.
Context (host : Host).

Lemma start_one_runs sf w :
  ∃ r evs,
    runs (start_one host sf) w r (store w) evs
    ∧ calls evs = start_targets [sf]
    ∧ deletes evs = [] ∧ writes evs = []
    ∧ (r = Return tt ∨ ∃ err, r = Raise (DBusException err)).
Proof.
  unfold start_one, start_targets. cbn [fmap list_fmap].
  destruct (Py.match_stop_service (Py.basename sf)) eqn:Hskip.
  - exists (Return tt), []. split; [apply runs_ret|].
    rewrite filter_cons_False by (by rewrite Hskip). auto.
  - rewrite filter_cons_True by done.
    eexists _, _. split.
    { eapply (runs_bind_return _ _ _ _ _ [_]); [apply runs_emit|].
      apply (runs_mgr host _ (mkWorld _ _)). }
    cbn. repeat split; try done.
    destruct (dbus_raises host _ _); eauto.
Qed.

Lemma start_targets_cons sf files :
  start_targets (sf :: files) = start_targets [sf] ++ start_targets files.
Proof.
  unfold start_targets. cbn [fmap list_fmap].
  by rewrite <- fmap_app, <- filter_app.
Qed.

Lemma start_service_runs files w :
  ∃ r evs,
    runs (_start_service host files) w r (store w) evs
    ∧ calls evs `prefix_of` start_targets files
    ∧ (r = Return tt → calls evs = start_targets files)
    ∧ (r = Return tt ∨ ∃ err, r = Raise (DBusException err))
    ∧ deletes evs = [] ∧ writes evs = [].
Proof.
  revert w. induction files as [|sf files IH]; intros w.
  - exists (Return tt), []. split; [apply runs_ret|]. repeat split; auto.
  - destruct (start_one_runs sf w) as (r1 & e1 & Hone & Hc1 & Hd1 & Hw1 & Hr1).
    rewrite start_targets_cons.
    destruct Hr1 as [->|[err ->]].
    + destruct (IH (mkWorld (store w) (trace w ++ e1)))
        as (r & e2 & Hrest & Hpre & Hall & Hr & Hd2 & Hw2).
      cbn [store] in Hrest. exists r, (e1 ++ e2).
      split; [eapply runs_bind_return; [apply Hone | apply Hrest]|].
      unfold calls, deletes, writes in *.
      rewrite !omap_app, Hc1, Hd1, Hw1, Hd2, Hw2.
      repeat split; auto.
      * by apply prefix_app.
      * intros Hret. by rewrite Hall.
    + exists (Raise (DBusException err)), e1.
      split; [by apply runs_bind_raise|].
      rewrite Hc1. repeat split; eauto.
      * by apply prefix_app_r.
      * discriminate.
Qed.

End Start.

Section Remove.
Context `{Package} (host : Host).

(** A loop that only writes log lines returns. *)
Lemma log_changes_runs (changes : list (string * string * string)) w :
  ∃ evs,
    runs (for_each changes (λ '(kind, link, dest),
            logger_info "%s %s %s" [kind; link; dest])) w
      (Return tt) (store w) evs
    ∧ calls evs = [] ∧ deletes evs = [] ∧ writes evs = [].
Proof.
  revert w. induction changes as [|[[kind link] dest] changes IH]; intros w.
  - exists []. split; [apply runs_ret | done].
  - destruct (IH (mkWorld (store w)
                    (trace w ++ [Log INFO "%s %s %s" [kind; link; dest]])))
      as (evs & Hrest & Hc & Hd & Hw).
    cbn [store] in Hrest. eexists. split.
    { eapply runs_bind_return; [apply runs_emit | apply Hrest]. }
    unfold calls, deletes, writes in *. rewrite !omap_app, Hc, Hd, Hw. done.
Qed.

(** [_disable_service] makes one call, for all the basenames at once, and
    an exception of that call is the outcome. *)
Lemma disable_service_runs files w :
  let c := DisableUnitFiles (Py.basename <$> files) false in
  ∃ raised evs,
    runs (_disable_service host files) w
      (match raised with
       | Some err => Raise (DBusException err)
       | None => Return tt
       end) (store w) evs
    ∧ IPC c raised ∈ evs
    ∧ calls evs = [c] ∧ deletes evs = [] ∧ writes evs = [].
Proof.
  intros c. unfold _disable_service.
  set (w1 := mkWorld (store w)
               (trace w ++ [Log INFO "Disabling: %s" [pformat (Py.basename <$> files)]])).
  exists (dbus_raises host w1 c).
  destruct (dbus_raises host w1 c) as [err|] eqn:Hraised.
  - exists [Log INFO "Disabling: %s" [pformat (Py.basename <$> files)];
            IPC c (Some err)].
    split.
    { eapply (runs_bind_return _ _ _ _ _ [_] _ _ [_]); [apply runs_emit|].
      apply runs_bind_raise. unfold runs, mgr_disable, mgr.
      fold w1. fold c. rewrite Hraised. reflexivity. }
    split; [|done]. rewrite !elem_of_cons. auto.
  - set (w2 := mkWorld (store w) (trace w1 ++ [IPC c None])).
    destruct (log_changes_runs (disable_changes host w1 (Py.basename <$> files)) w2)
      as (evs & Hlogs & Hc & Hd & Hw).
    exists ([Log INFO "Disabling: %s" [pformat (Py.basename <$> files)]]
            ++ [IPC c None] ++ evs).
    split.
    { eapply runs_bind_return; [apply runs_emit|].
      eapply runs_bind_return; [|apply Hlogs].
      unfold runs, mgr_disable, mgr. fold w1. fold c. rewrite Hraised. reflexivity. }
    split; [cbn [app]; rewrite !elem_of_cons; auto|].
    unfold calls, deletes, writes in *. rewrite !omap_app, Hc, Hd, Hw. done.
Qed.

Lemma runs_read_text path w :
  runs (read_text path) w
    (match store w !! path with
     | Some text => Return text
     | None => Raise (FileNotFoundError path)
     end) (store w) [ReadText path].
Proof. unfold runs, read_text. by destruct (store w !! path). Qed.

Lemma clean_one_runs f names w :
  ∃ raised,
    runs (clean_one host f names) w
      (match store w !! f with
       | Some text => Return (collected text names)
       | None => Raise (FileNotFoundError f)
       end) (store w)
      ((Log INFO "Cleaning cache and runtime directories: %s." [f]
        :: IPC (CleanUnit (Py.basename f) ["all"]) raised
        :: match raised with
           | Some err =>
               [Log WARNING "Could not clean %s: (%s) %s"
                  [f; err_class err; err_text err]]
           | None => []
           end) ++ [ReadText f]).
Proof.
  exists (dbus_raises host
            (mkWorld (store w)
               (trace w ++ [Log INFO "Cleaning cache and runtime directories: %s." [f]]))
            (CleanUnit (Py.basename f) ["all"])).
  unfold runs, clean_one, bind, logger_info, logger_warning, emit, try_dbus,
    mgr, read_text, ret.
  cbn. destruct (dbus_raises host _ _); cbn;
    destruct (store w !! f); cbn; by rewrite <- !app_assoc.
Qed.

Lemma container_names_of_cons st f rest :
  container_names_of st (f :: rest)
  = match st !! f with
    | Some text => collected text (container_names_of st rest)
    | None => container_names_of st rest
    end.
Proof.
  unfold container_names_of, collected. cbn [omap list_omap].
  destruct (st !! f) as [text|]; cbn; [|done].
  destruct (Py.search_docker text); cbn; [|done].
  apply (comm_L (∪)).
Qed.

Lemma clean_units_runs sfs names w :
  ∃ r evs,
    runs (clean_units host sfs names) w r (store w) evs
    ∧ deletes evs = [] ∧ writes evs = []
    ∧ calls evs `prefix_of` clean_calls sfs
    ∧ (∀ c err, IPC c (Some err) ∈ evs →
         ∃ f, f ∈ sfs ∧ c = CleanUnit (Py.basename f) ["all"]
              ∧ Log WARNING "Could not clean %s: (%s) %s"
                  [f; err_class err; err_text err] ∈ evs)
    ∧ match r with
      | Return names' =>
          Forall (λ f, is_Some (store w !! f)) sfs
          ∧ names' = names ∪ container_names_of (store w) sfs
          ∧ calls evs = clean_calls sfs
      | Raise e =>
          ∃ f, f ∈ sfs ∧ store w !! f = None ∧ e = FileNotFoundError f
      end.
Proof.
  revert names w. induction sfs as [|f sfs IH]; intros names w.
  - exists (Return names), []. split; [apply runs_ret|].
    repeat split; auto.
    + by intros c err ?%elem_of_nil.
    + unfold container_names_of. cbn. by rewrite (right_id_L ∅ (∪)).
  - destruct (clean_one_runs f names w) as [raised Hone].
    cbn [clean_units].
    assert (Hfail : ∀ evs' c err,
      IPC c (Some err)
        ∈ (Log INFO "Cleaning cache and runtime directories: %s." [f]
           :: IPC (CleanUnit (Py.basename f) ["all"]) raised
           :: match raised with
              | Some err =>
                  [Log WARNING "Could not clean %s: (%s) %s"
                     [f; err_class err; err_text err]]
              | None => []
              end) ++ [ReadText f] →
      c = CleanUnit (Py.basename f) ["all"]
      ∧ Log WARNING "Could not clean %s: (%s) %s"
          [f; err_class err; err_text err]
          ∈ ((Log INFO "Cleaning cache and runtime directories: %s." [f]
             :: IPC (CleanUnit (Py.basename f) ["all"]) raised
             :: match raised with
                | Some err =>
                    [Log WARNING "Could not clean %s: (%s) %s"
                       [f; err_class err; err_text err]]
                | None => []
                end) ++ [ReadText f]) ++ evs').
    { intros evs' c err Hin.
      apply elem_of_app in Hin as [Hin|Hin];
        [|by apply list_elem_of_singleton in Hin].
      apply elem_of_cons in Hin as [Heq|Hin]; [done|].
      apply elem_of_cons in Hin as [Heq|Hin].
      - injection Heq as -> <-. split; [done|].
        rewrite !elem_of_app, !elem_of_cons. auto 7.
      - destruct raised; [|by apply elem_of_nil in Hin].
        by apply list_elem_of_singleton in Hin. }
    destruct (store w !! f) as [text|] eqn:Hf.
    + match type of Hone with
      | runs _ _ _ _ ?e1 =>
          destruct (IH (collected text names) (mkWorld (store w) (trace w ++ e1)))
            as (r & e2 & Hrest & Hd & Hw & Hpre & Hlog & Hr);
          exists r, (e1 ++ e2)
      end.
      cbn [store] in *.
      split; [eapply runs_bind_return; [apply Hone | apply Hrest]|].
      unfold calls, deletes, writes in *.
      rewrite !omap_app, Hd, Hw.
      split; [by destruct raised|]. split; [by destruct raised|].
      split; [destruct raised; by apply (prefix_cons (CleanUnit _ _))|].
      split.
      { intros c err [Hin|Hin]%elem_of_app.
        - exists f. split; [apply elem_of_cons; auto|]. by apply Hfail.
        - destruct (Hlog c err Hin) as (f' & ? & ? & ?). exists f'.
          rewrite elem_of_cons, elem_of_app. auto. }
      destruct r as [names'|e].
      * destruct Hr as (Hall & -> & Hcalls). split; [|split].
        -- constructor; [by rewrite Hf | done].
        -- rewrite container_names_of_cons, Hf. unfold collected.
           destruct (Py.search_docker text); [|done].
           rewrite <- !(assoc_L (∪)). f_equal. apply (comm_L (∪)).
        -- rewrite Hcalls. by destruct raised.
      * destruct Hr as (f' & ? & ? & ?). exists f'.
        rewrite elem_of_cons. auto.
    + match type of Hone with
      | runs _ _ _ _ ?e1 =>
          exists (Raise (FileNotFoundError f)), e1
      end.
      split; [by apply runs_bind_raise|].
      unfold calls, deletes, writes. rewrite !omap_app.
      split; [by destruct raised|]. split; [by destruct raised|].
      split.
      { destruct raised; cbn; apply (prefix_cons (CleanUnit _ _)), prefix_nil. }
      split.
      { intros c err Hin. exists f. split; [apply elem_of_cons; auto|].
        destruct (Hfail [] c err Hin) as [-> Hw]. split; [done|].
        by rewrite app_nil_r in Hw. }
      exists f. rewrite elem_of_cons. auto.
Qed.

Lemma delete_loop_runs (cnames : list string) w :
  ∃ r evs,
    runs (for_each cnames (delete_docker_container host)) w r (store w) evs
    ∧ calls evs = [] ∧ writes evs = []
    ∧ deletes evs `prefix_of` cnames
    ∧ (r = Return tt → deletes evs = cnames).
Proof.
  revert w. induction cnames as [|cname cnames IH]; intros w.
  - exists (Return tt), []. split; [apply runs_ret | done].
  - cbn [for_each].
    destruct (delete_raises host w cname) as [e|] eqn:Hraised.
    + exists (Raise e), [DeleteContainer cname]. split.
      { apply runs_bind_raise. unfold runs, delete_docker_container.
        by rewrite Hraised. }
      repeat split; try done. apply prefix_cons, prefix_nil.
    + destruct (IH (mkWorld (store w) (trace w ++ [DeleteContainer cname])))
        as (r & evs & Hrest & Hc & Hw & Hpre & Hall).
      cbn [store] in Hrest.
      exists r, ([DeleteContainer cname] ++ evs). split.
      { eapply runs_bind_return; [|apply Hrest].
        unfold runs, delete_docker_container. by rewrite Hraised. }
      unfold calls, deletes, writes in *. rewrite !omap_app, Hc, Hw.
      repeat split; try done.
      * by apply prefix_cons.
      * intros Hret. cbn. by rewrite Hall.
Qed.

Lemma unlink_one_runs f w :
  runs (unlink_one f) w
    (match store w !! f with
     | Some _ => Return tt
     | None => Raise (FileNotFoundError f)
     end)
    (match store w !! f with
     | Some _ => delete f (store w)
     | None => store w
     end)
    [Log INFO "Deleting %s" [f]; Unlink f].
Proof.
  unfold runs, unlink_one, bind, logger_info, emit, unlink. cbn.
  destruct (store w !! f); by rewrite <- app_assoc.
Qed.

Lemma unlink_loop_runs (files : list string) w :
  ∃ r st evs,
    runs (for_each files unlink_one) w r st evs
    ∧ calls evs = [] ∧ writes evs = [] ∧ deletes evs = []
    ∧ (∀ e, r = Raise e → ∃ f, e = FileNotFoundError f).
Proof.
  revert w. induction files as [|f files IH]; intros w.
  - exists (Return tt), (store w), []. split; [apply runs_ret | done].
  - cbn [for_each]. pose proof (unlink_one_runs f w) as Hone.
    destruct (store w !! f) as [text|].
    + destruct (IH (mkWorld (delete f (store w))
                      (trace w ++ [Log INFO "Deleting %s" [f]; Unlink f])))
        as (r & st & evs & Hrest & Hc & Hw & Hd & Hr).
      exists r, st, ([Log INFO "Deleting %s" [f]; Unlink f] ++ evs).
      split; [eapply runs_bind_return; [apply Hone | apply Hrest]|].
      unfold calls, deletes, writes in *. rewrite !omap_app, Hc, Hw, Hd. done.
    + exists (Raise (FileNotFoundError f)), (store w),
        [Log INFO "Deleting %s" [f]; Unlink f].
      split; [by apply runs_bind_raise|].
      repeat split; try done. intros e [= <-]. eauto.
Qed.

Lemma NoDup_iter_set (X : gset string) : NoDup (iter_set X).
Proof. rewrite iter_set_perm. apply NoDup_elements. Qed.

Lemma elem_of_iter_set (X : gset string) n : n ∈ iter_set X ↔ n ∈ X.
Proof. rewrite iter_set_perm. apply elem_of_elements. Qed.

Lemma NoDup_prefix {A} (l k : list A) : l `prefix_of` k → NoDup k → NoDup l.
Proof. intros [k' ->] Hk. by apply NoDup_app in Hk as [? _]. Qed.

Lemma elem_of_prefix {A} (l k : list A) x : l `prefix_of` k → x ∈ l → x ∈ k.
Proof. intros [k' ->] Hx. apply elem_of_app. auto. Qed.

(** The run of [_remove_service]. *)
Lemma remove_service_runs sfs tfs w :
  ∃ r st evs,
    runs (_remove_service host sfs tfs) w r st evs
    ∧ writes evs = []
    ∧ (∃ later,
         calls evs
         = ((λ sf, StopUnit (Py.basename sf) "replace") <$> sfs ++ tfs) ++ later)
    ∧ NoDup (deletes evs)
    ∧ (∀ n, n ∈ deletes evs → n ∈ container_names_of (store w) sfs)
    ∧ (r = Return tt → deletes evs ≡ₚ elements (container_names_of (store w) sfs))
    ∧ (∀ f rest, sfs = f :: rest → store w !! f = None →
         (∃ e, r = Raise e) ∧ st = store w).
Proof.
  unfold _remove_service.
  destruct (stop_service_runs host (sfs ++ tfs) w)
    as (e1 & Hstop & Hc1 & Hd1 & Hw1 & _).
  set (w1 := mkWorld (store w) (trace w ++ e1)).
  destruct (disable_service_runs (sfs ++ tfs) w1)
    as (raised & e2 & Hdis & _ & Hc2 & Hd2 & Hw2).
  cbn [store w1] in Hdis.
  destruct raised as [err|].
  { exists (Raise (DBusException err)), (store w), (e1 ++ e2).
    split.
    { eapply runs_bind_return; [apply Hstop|]. by apply runs_bind_raise. }
    unfold calls, deletes, writes in *. rewrite !omap_app, Hc1, Hd1, Hw1, Hd2, Hw2.
    repeat split; eauto using NoDup_nil_2.
    - by intros n ?%elem_of_nil.
    - discriminate. }
  set (w2 := mkWorld (store w) (trace w1 ++ e2)).
  destruct (clean_units_runs sfs ∅ w2)
    as (r3 & e3 & Hclean & Hd3 & Hw3 & _ & _ & Hr3).
  cbn [store w2] in Hclean, Hr3.
  destruct r3 as [names|e].
  2:{ exists (Raise e), (store w), (e1 ++ e2 ++ e3).
      split.
      { eapply runs_bind_return; [apply Hstop|].
        eapply runs_bind_return; [apply Hdis|]. by apply runs_bind_raise. }
      unfold calls, deletes, writes in *.
      rewrite !omap_app, Hc1, Hd1, Hw1, Hd2, Hw2, Hd3, Hw3.
      repeat split; eauto using NoDup_nil_2.
      - by intros n ?%elem_of_nil.
      - discriminate. }
  destruct Hr3 as (Hall & -> & _).
  rewrite (left_id_L ∅ (∪)) in Hclean.
  set (names := container_names_of (store w) sfs) in *.
  set (w3 := mkWorld (store w) (trace w2 ++ e3)).
  destruct (delete_loop_runs (iter_set names) w3)
    as (r4 & e4 & Hdel & Hc4 & Hw4 & Hpre & Hall4).
  cbn [store w3] in Hdel.
  assert (Hnd : NoDup (deletes e4)) by eauto using NoDup_prefix, NoDup_iter_set.
  assert (Hin : ∀ n, n ∈ deletes e4 → n ∈ names).
  { intros n Hn. eapply elem_of_iter_set, elem_of_prefix; eauto. }
  assert (Hfirst : ∀ f rest, sfs = f :: rest → store w !! f = None → False).
  { intros f rest -> Hf. apply Forall_cons in Hall as [[? Hsome] _].
    congruence. }
  destruct r4 as [[]|e].
  2:{ exists (Raise e), (store w), (e1 ++ e2 ++ e3 ++ e4).
      split.
      { eapply runs_bind_return; [apply Hstop|].
        eapply runs_bind_return; [apply Hdis|].
        eapply runs_bind_return; [apply Hclean|]. by apply runs_bind_raise. }
      unfold calls, deletes, writes in *.
      rewrite !omap_app, Hc1, Hd1, Hw1, Hd2, Hw2, Hd3, Hw3, Hw4.
      cbn [app].
      repeat split; eauto; first [discriminate | intros; exfalso; by eauto]. }
  set (w4 := mkWorld (store w) (trace w3 ++ e4)).
  destruct (unlink_loop_runs (sfs ++ tfs) w4)
    as (r & st & e5 & Hunl & Hc5 & Hw5 & Hd5 & _).
  exists r, st, (e1 ++ e2 ++ e3 ++ e4 ++ e5).
  split.
  { eapply runs_bind_return; [apply Hstop|].
    eapply runs_bind_return; [apply Hdis|].
    eapply runs_bind_return; [apply Hclean|].
    eapply runs_bind_return; [apply Hdel | apply Hunl]. }
  unfold calls, deletes, writes in *.
  rewrite !omap_app, Hc1, Hd1, Hw1, Hd2, Hw2, Hd3, Hw3, Hw4, Hw5, Hd5.
  cbn [app]. rewrite !app_nil_r.
  repeat split; eauto; try (intros; exfalso; by eauto).
  intros _. rewrite Hall4 by done. apply iter_set_perm.
Qed.

End Remove.

Section Writes.
Context `{Package} (host : Host).

Lemma total_bind {A B} (m : M A) (k : A → M B) :
  total m → (∀ a, total (k a)) → total (bind m k).
Proof.
  intros Hm Hk w. destruct (Hm w) as (r & st & e1 & Hrun).
  destruct r as [a|e].
  - destruct (Hk a (mkWorld st (trace w ++ e1))) as (r & st' & e2 & Hrun').
    exists r, st', (e1 ++ e2). by eapply runs_bind_return.
  - exists (Raise e), st, e1. by apply runs_bind_raise.
Qed.

Lemma total_ret {A} (a : A) : total (ret a).
Proof. intros w. eexists _, _, _. apply runs_ret. Qed.

Lemma total_emit e : total (emit e).
Proof. intros w. eexists _, _, _. apply runs_emit. Qed.

Lemma total_mgr c : total (mgr host c).
Proof. intros w. eexists _, _, _. apply runs_mgr. Qed.

Lemma append_assoc (a b c : string) : (a +:+ b) +:+ c = a +:+ b +:+ c.
Proof.
  induction a as [|x a IH]; [done|].
  change (String x ((a +:+ b) +:+ c) = String x (a +:+ b +:+ c)).
  by rewrite IH.
Qed.

(** The run of [_write_systemd_file]: with no directory to hold the file
    it ends in [FileNotFoundError] at the write, nothing written. *)
Lemma write_systemd_file_runs self unit_type content is_stop_unit w :
  let path := unit_path self unit_type is_stop_unit in
  let missing := parent_missing host (write_world w path) path in
  runs (_write_systemd_file host self unit_type content is_stop_unit) w
    (if missing then Raise (FileNotFoundError path) else Return path)
    (if missing then store w else <[path := content]> (store w))
    (before_write w path ++ if missing then [] else [WriteText path content]).
Proof.
  intros path missing.
  unfold runs, _write_systemd_file, bind, mkdir, emit, exists_, logger_warning,
    logger_info, write_text, ret.
  cbn. fold (unit_path self unit_type is_stop_unit). fold path.
  assert (Hw : ∀ e : Event,
    mkWorld (store w) (((trace w ++ [Mkdir systemd_dir]) ++ [Exists path]) ++ [e])
    = mkWorld (store w) (trace w ++ [Mkdir systemd_dir; Exists path; e])).
  { intros e. by rewrite <- !app_assoc. }
  subst missing. unfold write_world, before_write.
  destruct (bool_decide (is_Some (store w !! path))); unfold emit; cbn;
    rewrite Hw; destruct (parent_missing host _ path); cbn;
    by rewrite <- ?app_assoc, ?app_nil_r.
Qed.

Lemma write_systemd_file_total self unit_type content is_stop_unit w :
  ∃ r st evs,
    runs (_write_systemd_file host self unit_type content is_stop_unit) w r st evs
    ∧ calls evs = [] ∧ deletes evs = []
    ∧ (r = Return (unit_path self unit_type is_stop_unit)
       ∧ st = <[unit_path self unit_type is_stop_unit := content]> (store w)
       ∨ r = Raise (FileNotFoundError (unit_path self unit_type is_stop_unit))
         ∧ st = store w)
    ∧ (no_directory_missing host →
       r = Return (unit_path self unit_type is_stop_unit)).
Proof.
  pose proof (write_systemd_file_runs self unit_type content is_stop_unit w) as Hrun.
  cbn zeta in Hrun.
  set (path := unit_path self unit_type is_stop_unit) in *.
  eexists _, _, _. split; [exact Hrun|].
  unfold before_write.
  destruct (parent_missing host (write_world w path) path) eqn:Hmissing.
  - repeat split; try by destruct (bool_decide _).
    + by right.
    + intros Hnone. by rewrite Hnone in Hmissing.
  - repeat split; try by destruct (bool_decide _).
    by left.
Qed.

Lemma total_write_timer_units self : total (_write_timer_units host self).
Proof.
  unfold _write_timer_units. cbn [for_each].
  assert (Hslot : ∀ is_stop (schedule : option (OneOrMany Schedule)),
    total (match schedule with
           | None => ret tt
           | Some schedule =>
               (_write_systemd_file host self "timer"
                  (timer_content self is_stop schedule) is_stop ;; ret tt)%eff
           end)).
  { intros is_stop [schedule|]; [|apply total_ret].
    apply total_bind; [|intros _; apply total_ret].
    intros w. destruct (write_systemd_file_total self "timer"
                          (timer_content self is_stop schedule) is_stop w)
      as (r & st & evs & Hrun & _). eauto. }
  apply total_bind; [apply Hslot|]. intros _.
  apply total_bind; [apply Hslot|]. intros _. apply total_ret.
Qed.

(** The run of [_write_service_units]: when it returns and there is a stop
    schedule, the "stop" unit holds its text; it returns when no directory
    is missing. *)
Lemma write_service_units_runs self w :
  ∃ r st evs,
    runs (_write_service_units host self) w r st evs
    ∧ calls evs = [] ∧ deletes evs = []
    ∧ (r = Return tt → truthy (stop_schedule self) = true →
       st !! Py.path_join systemd_dir ("stop-" +:+ base_file_stem self +:+ ".service")
       = Some (stop_unit_content self))
    ∧ (no_directory_missing host → r = Return tt).
Proof.
  unfold _write_service_units, _write_service_file.
  set (content := Py.join nl _).
  destruct (write_systemd_file_total self "service" content false w)
    as (r1 & st1 & e1 & H1 & Hc1 & Hd1 & Hr1 & Hok1).
  destruct Hr1 as [[-> ->]|[-> ->]].
  2:{ exists (Raise (FileNotFoundError (unit_path self "service" false))),
        (store w), e1.
      split; [by apply runs_bind_raise|].
      repeat split; try done. intros Hnone. by specialize (Hok1 Hnone). }
  set (w1 := mkWorld (<[unit_path self "service" false := content]> (store w))
               (trace w ++ e1)).
  destruct (truthy (stop_schedule self)).
  - rewrite bool_decide_eq_true_2 by done. cbn [app].
    destruct (write_systemd_file_total self "service"
                (Py.join nl ("[Service]"
                             :: stop_unit_service (unit_path self "service" false)
                             ++ ["[Install]"; "WantedBy=default.target"]))
                true w1)
      as (r2 & st2 & e2 & H2 & Hc2 & Hd2 & Hr2 & Hok2).
    destruct Hr2 as [[-> ->]|[-> ->]].
    + eexists (Return tt), _, (e1 ++ e2 ++ []). split.
      { eapply runs_bind_return; [apply H1|].
        eapply runs_bind_return; [apply H2 | apply runs_ret]. }
      unfold calls, deletes in *. rewrite !omap_app, Hc1, Hd1, Hc2, Hd2.
      repeat split; try done. intros _ _.
      unfold unit_path. rewrite append_assoc. apply lookup_insert_eq.
    + eexists (Raise (FileNotFoundError (unit_path self "service" true))), _,
        (e1 ++ e2). split.
      { eapply runs_bind_return; [apply H1|]. by apply runs_bind_raise. }
      unfold calls, deletes in *. rewrite !omap_app, Hc1, Hd1, Hc2, Hd2.
      repeat split; try done. intros Hnone. by specialize (Hok2 Hnone).
  - eexists (Return tt), _, (e1 ++ []). split.
    { eapply runs_bind_return; [apply H1 | apply runs_ret]. }
    unfold calls, deletes in *. rewrite !omap_app, Hc1, Hd1. done.
Qed.

Lemma total_write_service_units self : total (_write_service_units host self).
Proof.
  intros w. destruct (write_service_units_runs self w) as (r & st & evs & Hrun & _).
  eauto.
Qed.

End Writes.

Section Create.
Context `{Package} (host : Host).

Lemma total_enable_service files : total (_enable_service host files).
Proof. apply total_bind; [apply total_emit | intros _; apply total_mgr]. Qed.

Lemma service_files_primary self :
  ∃ rest,
    service_files self
    = Py.path_join systemd_dir (base_file_stem self +:+ ".service") :: rest.
Proof. unfold service_files. destruct (truthy (stop_schedule self)); cbn; eauto. Qed.

(** The run of [create]: the first manager call is [StopUnit] on the
    primary unit, and with no primary service file in the unit directory
    the run ends in an exception and leaves the directory as it was. *)
Lemma create_runs self defer_reload w :
  let primary := Py.path_join systemd_dir (base_file_stem self +:+ ".service") in
  ∃ r st evs,
    runs (create host self defer_reload) w r st evs
    ∧ (∃ later, calls evs = StopUnit (Py.basename primary) "replace" :: later)
    ∧ (store w !! primary = None →
         (∃ e, r = Raise e) ∧ st = store w ∧ writes evs = []).
Proof.
  intros primary. unfold create, remove.
  set (w1 := mkWorld (store w)
               (trace w ++ [Log INFO "Creating service %s" [str_Service self]])).
  destruct (remove_service_runs host (service_files self) (timer_files self) w1)
    as (r & st & evs & Hrun & Hw & [later Hcalls] & _ & _ & _ & Hmissing).
  destruct (service_files_primary self) as [rest Hsf]. fold primary in Hsf.
  rewrite Hsf in Hcalls. cbn in Hcalls.
  destruct r as [[]|e].
  - assert (Htotal : total
      (_write_timer_units host self ;;
       _write_service_units host self ;;
       (if defer_reload then ret tt else reload_unit_files host) ;;
       _enable_service host (unit_files self))%eff).
    { apply total_bind; [apply total_write_timer_units|]. intros _.
      apply total_bind; [apply total_write_service_units|]. intros _.
      apply total_bind; [|intros _; apply total_enable_service].
      destruct defer_reload; [apply total_ret | apply total_mgr]. }
    destruct (Htotal (mkWorld st (trace w1 ++ evs))) as (r' & st' & evs' & Hrest).
    exists r', st', ([Log INFO "Creating service %s" [str_Service self]]
                     ++ evs ++ evs').
    split.
    { eapply runs_bind_return; [apply runs_emit|].
      eapply runs_bind_return; [apply Hrun | apply Hrest]. }
    split.
    { unfold calls in *. rewrite !omap_app, Hcalls. cbn. eauto. }
    intros Hnone. destruct (Hmissing _ _ Hsf Hnone) as [[e [=]] _].
  - exists (Raise e), st, ([Log INFO "Creating service %s" [str_Service self]] ++ evs).
    split.
    { eapply runs_bind_return; [apply runs_emit|]. by apply runs_bind_raise. }
    split.
    { unfold calls in *. rewrite !omap_app, Hcalls. cbn. eauto. }
    intros Hnone. destruct (Hmissing _ _ Hsf Hnone) as [_ ->].
    unfold writes in *. rewrite omap_app, Hw. eauto.
Qed.

End Create.

Section Paths.

Lemma append_cons x (a b : string) : String x a +:+ b = String x (a +:+ b).
Proof. reflexivity. Qed.

Lemma has_char_app_here c (a b : string) :
  Py.has_char c (a +:+ String c b) = true.
Proof.
  induction a as [|x a IH].
  - change (Py.has_char c (String c b) = true). cbn.
    by rewrite Ascii.eqb_refl.
  - rewrite append_cons. cbn. rewrite IH. apply orb_true_r.
Qed.

Lemma basename_app_slash (a f : string) :
  Py.basename (a +:+ "/" +:+ f) = Py.basename f.
Proof.
  induction a as [|x a IH]; [done|].
  rewrite append_cons. cbn [Py.basename].
  change "/" with (String "/" "") at 2. rewrite append_cons.
  change ("" +:+ f) with f.
  change (Py.has_char "/" (String x (a +:+ String "/" f)))
    with (Ascii.eqb x "/" || Py.has_char "/" (a +:+ String "/" f)).
  by rewrite has_char_app_here, orb_true_r.
Qed.

Lemma ends_with_char_split c (a : string) :
  Py.ends_with_char c a = true → ∃ a', a = a' +:+ String c "".
Proof.
  induction a as [|x a IH]; [done|]. cbn.
  destruct a as [|y a].
  - intros ->%Ascii.eqb_eq. by exists "".
  - intros [a' ->]%IH. by exists (String x a').
Qed.

(** The basename of a joined path is the basename of what was joined. *)
Lemma basename_path_join (d f : string) :
  Py.basename (Py.path_join d f) = Py.basename f.
Proof.
  unfold Py.path_join. destruct (Py.startswith f "/"); [done|].
  case_bool_decide as Hd; cbn [orb].
  - by subst.
  - destruct (Py.ends_with_char "/" d) eqn:Hend.
    + apply ends_with_char_split in Hend as [a ->].
      rewrite append_assoc. apply basename_app_slash.
    + apply basename_app_slash.
Qed.

Lemma basename_no_slash (f : string) :
  Py.has_char "/" f = false → Py.basename f = f.
Proof. destruct f; [done|]. cbn [Py.basename]. by intros ->. Qed.

Lemma ends_with_char_basename c (p : string) :
  c ≠ "/"%char → Py.ends_with_char c (Py.basename p) = Py.ends_with_char c p.
Proof.
  intros Hc. induction p as [|x p IH]; [done|].
  cbn [Py.basename]. destruct (Py.has_char "/" (String x p)) eqn:Hslash; [|done].
  rewrite IH. destruct p as [|y p]; [|done]. cbn in *.
  rewrite orb_false_r in Hslash. apply Ascii.eqb_eq in Hslash as ->.
  symmetry. by apply Ascii.eqb_neq.
Qed.

Lemma ends_with_char_app c (a b : string) :
  b ≠ "" → Py.ends_with_char c (a +:+ b) = Py.ends_with_char c b.
Proof.
  intros Hb. induction a as [|x a IH]; [done|].
  rewrite append_cons. cbn. rewrite IH.
  destruct (a +:+ b) eqn:Hab; [|done].
  destruct a; [done | discriminate].
Qed.

Lemma dotstar_service_end_last (s : string) :
  Py.ends_with_char "r" s = true → Py.dotstar_service_end s = false.
Proof.
  induction s as [|x s IH]; [done|]. intros Hend.
  cbn [Py.dotstar_service_end].
  repeat case_bool_decide;
    try (match goal with
         | Heq : String x s = _ |- _ => by rewrite Heq in Hend
         end).
  cbn [orb]. destruct (Ascii.eqb x Py.newline); [done|].
  destruct s as [|y s]; [done|]. by apply IH.
Qed.

Lemma strip_prefix_last c (p s r : string) :
  Py.strip_prefix p s = Some r → Py.ends_with_char c s = true →
  r = "" ∨ Py.ends_with_char c r = true.
Proof.
  revert s. induction p as [|a p IH]; intros s.
  - cbn. intros [= ->]. auto.
  - destruct s as [|b s]; [done|]. cbn.
    destruct (Ascii.eqb a b); [|done]. intros Hstrip Hend.
    destruct s as [|y s].
    + destruct p; cbn in Hstrip; [injection Hstrip as <-; auto | done].
    + by apply (IH (String y s)).
Qed.

(** A basename that ends in [r] is not skipped by [_start_service]. *)
Lemma match_stop_service_last (s : string) :
  Py.ends_with_char "r" s = true → Py.match_stop_service s = false.
Proof.
  intros Hend. unfold Py.match_stop_service.
  destruct (Py.strip_prefix "stop-" s) as [r|] eqn:Hstrip; [|done].
  destruct (strip_prefix_last "r" _ _ _ Hstrip Hend) as [->|Hr]; [done|].
  by apply dotstar_service_end_last.
Qed.

End Paths.

Section MorePaths.

Lemma has_char_app c (a b : string) :
  Py.has_char c (a +:+ b) = Py.has_char c a || Py.has_char c b.
Proof.
  induction a as [|x a IH]; [done|].
  rewrite append_cons. cbn. by rewrite IH, orb_assoc.
Qed.

Lemma strip_prefix_Some (p s r : string) :
  Py.strip_prefix p s = Some r → s = p +:+ r.
Proof.
  revert s. induction p as [|a p IH]; intros s.
  - cbn. by intros [= ->].
  - destruct s as [|b s]; [done|]. cbn.
    destruct (Ascii.eqb_spec a b) as [->|]; [|done].
    intros ->%IH. done.
Qed.

Lemma dotstar_service_end_Some (s : string) :
  Py.dotstar_service_end s = true →
  ∃ x, s = x +:+ ".service" ∨ s = x +:+ ".service" +:+ nl.
Proof.
  induction s as [|c s IH].
  - cbn. repeat case_bool_decide; done.
  - cbn [Py.dotstar_service_end].
    intros [[Heq|Heq]%orb_true_iff|Hrest]%orb_true_iff.
    + apply bool_decide_eq_true in Heq. exists "". by left.
    + apply bool_decide_eq_true in Heq. exists "". by right.
    + destruct (Ascii.eqb c Py.newline); [done|].
      destruct (IH Hrest) as [x [->| ->]]; exists (String c x); auto.
Qed.

(** What [_start_service] skips has the form [stop-*.service], possibly
    with a newline at its end. *)
Lemma match_stop_service_form (sf : string) :
  Py.match_stop_service sf = true →
  ∃ x, sf = "stop-" +:+ x +:+ ".service"
       ∨ sf = "stop-" +:+ x +:+ ".service" +:+ nl.
Proof.
  unfold Py.match_stop_service.
  destruct (Py.strip_prefix "stop-" sf) as [r|] eqn:Hstrip; [|done].
  apply strip_prefix_Some in Hstrip as ->.
  intros [x [->| ->]]%dotstar_service_end_Some; exists x; auto.
Qed.

End MorePaths.

(** ** Timestamps *)

Section Timestamps.
Import ScheduleInfo.

Lemma civil_year_bounds (days : Z) :
  -1 <= days <= 2 ^ 28 →
  -1 <= (civil_from_days days).1.1 <= 1000000.
Proof.
  intros Hdays. unfold civil_from_days. cbn zeta.
  change (2 ^ 28) with 268435456 in Hdays.
  set (z := days + 719468).
  set (era := z / 146097).
  set (doe := z - era * 146097).
  set (yoe := (doe - doe / 1460 + doe / 36524 - doe / 146096) / 365).
  assert (Hera : 0 <= era <= 1843).
  { unfold era, z. Z.to_euclidean_division_equations. lia. }
  assert (Hdoe : 0 <= doe <= 146096).
  { unfold doe, era. Z.to_euclidean_division_equations. lia. }
  assert (Hyoe : -1 <= yoe <= 401).
  { unfold yoe. Z.to_euclidean_division_equations. lia. }
  destruct (_ <? 10); destruct (_ <=? 2); cbn [fst]; lia.
Qed.

(** Under UTC the sentinel 0 and the largest 64-bit value are both decoded
    to [None]. *)
Lemma sentinels_under_utc :
  timestamp_to_dt (λ _, 0) 0 = inr None
  ∧ timestamp_to_dt (λ _, 0) (2 ^ 64 - 1) = inr None.
Proof. split; reflexivity. Qed.

(** A 64-bit timestamp never makes [timestamp_to_dt] raise, whatever the
    time zone (offsets are within a day). *)
Lemma timestamp_to_dt_returns (utcoffset : Z → Z) (timestamp : Z) :
  0 <= timestamp < 2 ^ 64 →
  (∀ s, -86400 <= utcoffset s <= 86400) →
  ∃ dt, timestamp_to_dt utcoffset timestamp = inr dt.
Proof.
  intros Hts Hoff. unfold timestamp_to_dt, fromtimestamp. cbn zeta.
  change (2 ^ 64) with 18446744073709551616 in Hts.
  set (secs := timestamp / 1000000).
  assert (Hsecs : 0 <= secs < 18446744073710).
  { unfold secs. Z.to_euclidean_division_equations. lia. }
  pose proof (Hoff secs) as Hoff'.
  assert (Hrange : (- 2 ^ 63 <=? secs) && (secs <? 2 ^ 63) = true).
  { change (2 ^ 63) with 9223372036854775808.
    apply andb_true_intro. split; [apply Z.leb_le | apply Z.ltb_lt]; lia. }
  rewrite Hrange. cbn [negb].
  set (days := (secs + utcoffset secs) / 86400).
  assert (Hdays : -1 <= days <= 2 ^ 28).
  { change (2 ^ 28) with 268435456. unfold days.
    Z.to_euclidean_division_equations. lia. }
  pose proof (civil_year_bounds days Hdays) as Hyear.
  destruct (civil_from_days days) as [[y m] d]. cbn [fst] in Hyear.
  assert (Hint : (- 2 ^ 31 <=? y - 1900) && (y - 1900 <? 2 ^ 31) = true).
  { change (2 ^ 31) with 2147483648 in *.
    apply andb_true_intro. split; [apply Z.leb_le | apply Z.ltb_lt]; lia. }
  rewrite Hint. cbn [negb].
  destruct (negb _); [eauto|].
  case_bool_decide; eauto.
Qed.

(** In a zone that is not on UTC, the sentinel 0 is decoded to a date. *)
Lemma sentinel_outside_utc (off : Z) :
  off ≠ 0 → -86400 < off < 86400 →
  ∃ dt, timestamp_to_dt (λ _, off) 0 = inr (Some dt).
Proof.
  intros Hne Hoff. unfold timestamp_to_dt, fromtimestamp. cbn zeta.
  change (0 / 1000000) with 0. change (0 mod 1000000) with 0.
  change (negb ((- 2 ^ 63 <=? 0) && (0 <? 2 ^ 63))) with false. cbn iota.
  rewrite Z.add_0_l.
  destruct (Z.lt_ge_cases off 0) as [Hneg|Hpos].
  - replace (off / 86400) with (-1) by (Z.to_euclidean_division_equations; lia).
    change (civil_from_days (-1)) with (1969, 12, 31). cbn iota beta.
    change (negb ((- 2 ^ 31 <=? 1969 - 1900) && (1969 - 1900 <? 2 ^ 31))) with false.
    change (negb ((1 <=? 1969) && (1969 <=? 9999))) with false. cbn iota.
    rewrite bool_decide_eq_false_2 by (unfold missing_dt; congruence). eauto.
  - replace (off / 86400) with 0 by (Z.to_euclidean_division_equations; lia).
    change (civil_from_days 0) with (1970, 1, 1). cbn iota beta.
    change (negb ((- 2 ^ 31 <=? 1970 - 1900) && (1970 - 1900 <? 2 ^ 31))) with false.
    change (negb ((1 <=? 1970) && (1970 <=? 9999))) with false. cbn iota.
    rewrite bool_decide_eq_false_2; [eauto|].
    unfold missing_dt. intros [= H1 H2 H3].
    Z.to_euclidean_division_equations. lia.
Qed.

End Timestamps.

(** ** The code against the words of the specification *)

Section Words.

Lemma append_nil_l (s : string) : "" +:+ s = s.
Proof. reflexivity. Qed.

Lemma in_text_cons u c s : in_text u s → in_text u (String c s).
Proof. intros (a & b & ->). by exists (String c a), b. Qed.

Lemma in_text_nil_inv u : in_text u "" → u = "".
Proof.
  intros (a & b & Heq). destruct a; [|done]. rewrite append_nil_l in Heq.
  by destruct u.
Qed.

Lemma in_text_char_cons_inv c x s :
  in_text (String c "") (String x s) → x = c ∨ in_text (String c "") s.
Proof.
  intros (a & b & Heq). destruct a as [|y a].
  - injection Heq as -> _. by left.
  - rewrite append_cons in Heq. injection Heq as _ ->. right. by exists a, b.
Qed.

Lemma has_char_in_text c s :
  Py.has_char c s = true ↔ in_text (String c "") s.
Proof.
  split.
  - induction s as [|x s IH]; [done|]. cbn.
    intros [Heq|Hrest]%orb_true_iff.
    + apply Ascii.eqb_eq in Heq as ->. by exists "", s.
    + by apply in_text_cons, IH.
  - intros (a & b & ->). apply has_char_app_here.
Qed.

Lemma has_char_not_in_text c s :
  Py.has_char c s = false ↔ ¬ in_text (String c "") s.
Proof.
  rewrite <- has_char_in_text. by destruct (Py.has_char c s).
Qed.

(** [os.path.basename] gives the last component. *)
Lemma basename_last_component (path : string) :
  last_component path (Py.basename path).
Proof.
  induction path as [|c path [Hslash Hform]].
  - split; [|by left]. by intros ?%in_text_nil_inv.
  - cbn [Py.basename].
    destruct (Py.has_char "/" (String c path)) eqn:Hc.
    + split; [done|]. right. destruct Hform as [Heq|[d Heq]].
      * exists "". rewrite append_nil_l.
        change ("/" +:+ Py.basename path) with (String "/" (Py.basename path)).
        cbn in Hc. apply orb_true_iff in Hc as [Hc|Hc].
        -- apply Ascii.eqb_eq in Hc as ->. by rewrite <- Heq.
        -- rewrite Heq in Hc. by apply has_char_in_text in Hc.
      * exists (String c d). by rewrite append_cons, <- Heq.
    + split; [by apply has_char_not_in_text | by left].
Qed.

(** The pattern [^stop-.*\.service$] matches the names [stop-*.service]
    on one line, and no other. *)
Lemma dotstar_service_end_iff (s : string) :
  Py.dotstar_service_end s = true
  ↔ ∃ x, ¬ in_text nl x ∧ (s = x +:+ ".service" ∨ s = x +:+ ".service" +:+ nl).
Proof.
  split.
  - induction s as [|c s IH].
    + cbn. repeat case_bool_decide; done.
    + cbn [Py.dotstar_service_end].
      intros [[Heq|Heq]%orb_true_iff|Hrest]%orb_true_iff.
      * apply bool_decide_eq_true in Heq. exists "".
        split; [by intros ?%in_text_nil_inv | by left].
      * apply bool_decide_eq_true in Heq. exists "".
        split; [by intros ?%in_text_nil_inv | by right].
      * destruct (Ascii.eqb c Py.newline) eqn:Hc; [done|].
        apply Ascii.eqb_neq in Hc.
        destruct (IH Hrest) as (x & Hx & Hs). exists (String c x). split.
        -- intros [?|?]%in_text_char_cons_inv; done.
        -- destruct Hs as [-> | ->]; auto.
  - intros (x & Hx & Hs). revert s Hs. induction x as [|c x IH]; intros s Hs.
    + by destruct Hs as [-> | ->].
    + assert (Hc : Ascii.eqb c Py.newline = false).
      { apply Ascii.eqb_neq. intros ->. apply Hx. by exists "", x. }
      assert (Hrest : Py.dotstar_service_end
                        (match s with String _ s' => s' | "" => "" end) = true).
      { apply IH.
        - intros Hin. by apply Hx, in_text_cons.
        - destruct Hs as [-> | ->]; rewrite append_cons; auto. }
      destruct Hs as [-> | ->]; rewrite append_cons in *;
        cbn [Py.dotstar_service_end]; rewrite Hc, Hrest; apply orb_true_r.
Qed.

Lemma strip_prefix_app (p r : string) : Py.strip_prefix p (p +:+ r) = Some r.
Proof.
  induction p as [|a p IH]; [by destruct r|].
  rewrite append_cons. cbn. by rewrite Ascii.eqb_refl.
Qed.

Lemma match_stop_service_iff (n : string) :
  Py.match_stop_service n = true ↔ stop_service_name n.
Proof.
  unfold Py.match_stop_service, stop_service_name. split.
  - destruct (Py.strip_prefix "stop-" n) as [r|] eqn:Hstrip; [|done].
    apply strip_prefix_Some in Hstrip as ->.
    intros (x & Hx & [-> | ->])%dotstar_service_end_iff; exists x; auto.
  - intros (x & Hx & Hn).
    assert (∃ r, n = "stop-" +:+ r ∧ Py.dotstar_service_end r = true) as (r & -> & Hr).
    { destruct Hn as [-> | ->]; eexists; (split; [reflexivity|]);
        apply dotstar_service_end_iff; exists x; auto. }
    by rewrite strip_prefix_app.
Qed.

(** What [_start_service] is to start is what the words say. *)
Lemma start_targets_start_calls (files : list string) :
  start_calls files (start_targets files).
Proof.
  induction files as [|f files IH]; [constructor|].
  rewrite start_targets_cons. unfold start_targets at 1.
  cbn [fmap list_fmap]. rewrite filter_cons.
  destruct (decide (Py.match_stop_service (Py.basename f) = false)) as [Hno|Hyes].
  - cbn. eapply start_calls_call; [apply basename_last_component | | done].
    rewrite <- match_stop_service_iff. by rewrite Hno.
  - cbn. eapply start_calls_skip; [apply basename_last_component | | done].
    apply match_stop_service_iff. by destruct (Py.match_stop_service _).
Qed.

(** The class [[\w-]] on ASCII text. *)
Lemma is_name_char_has_char (c : ascii) :
  Py.is_name_char c = Py.has_char c name_chars.
Proof. destruct c as [[] [] [] [] [] [] [] []]; reflexivity. Qed.

Lemma name_char_iff (c : ascii) : Py.is_name_char c = true ↔ name_char c.
Proof. rewrite is_name_char_has_char. apply has_char_in_text. Qed.

Lemma take_name_idem (r : string) : Py.take_name (Py.take_name r) = Py.take_name r.
Proof.
  induction r as [|c r IH]; [done|]. cbn.
  destruct (Py.is_name_char c) eqn:Hc; [|done]. cbn. by rewrite Hc, IH.
Qed.

Lemma take_name_split (r : string) :
  ∃ b, r = Py.take_name r +:+ b
       ∧ ∀ c rest, b = String c rest → Py.is_name_char c = false.
Proof.
  induction r as [|c r (b & IH & Hb)].
  - exists "". by split.
  - cbn. destruct (Py.is_name_char c) eqn:Hc.
    + exists b. split; [by rewrite append_cons, <- IH | done].
    + exists (String c r). split; [done|]. by intros ? ? [= <- _].
Qed.

Lemma take_name_chars (n : string) :
  Py.take_name n = n ↔ ∀ c, in_text (String c "") n → Py.is_name_char c = true.
Proof.
  induction n as [|x n IH].
  - split; [|done]. by intros _ c ?%in_text_nil_inv.
  - cbn. destruct (Py.is_name_char x) eqn:Hx.
    + split.
      * intros [= Heq] c [-> | Hin]%in_text_char_cons_inv; [done|].
        by apply IH.
      * intros Hall. f_equal. apply IH. intros c Hin.
        by apply Hall, in_text_cons.
    + split; [done|]. intros Hall.
      rewrite Hall in Hx; [done|]. by exists "", n.
Qed.

Lemma take_name_app (n after : string) :
  Py.take_name n = n →
  (∀ c rest, after = String c rest → Py.is_name_char c = false) →
  Py.take_name (n +:+ after) = n.
Proof.
  intros Hn Hafter. induction n as [|x n IH].
  - rewrite append_nil_l. destruct after as [|c rest]; [done|].
    cbn. by rewrite (Hafter c rest).
  - rewrite append_cons. cbn in *. destruct (Py.is_name_char x); [|done].
    injection Hn as Hn. by rewrite IH.
Qed.

Lemma container_name_take_name (n : string) :
  container_name n ↔ n ≠ "" ∧ Py.take_name n = n.
Proof.
  unfold container_name. rewrite take_name_chars.
  split; intros [Hne Hall]; (split; [done|]); intros c Hc;
    by apply name_char_iff, Hall.
Qed.

(** The pattern [docker (?:start|stop) ([\w-]+)] tried at the start of a
    text. *)
Lemma match_docker_at_iff (s n : string) :
  Py.match_docker_at s = Some n ↔ refers_at s "" n.
Proof.
  unfold Py.match_docker_at, refers_at. split.
  - destruct (Py.strip_prefix "docker " s) as [r1|] eqn:H1; [|done].
    apply strip_prefix_Some in H1 as ->. cbn [mbind option_bind].
    assert ((∃ verb r2, (verb = "start" ∨ verb = "stop") ∧ r1 = verb +:+ r2
              ∧ match Py.strip_prefix "start" r1 with
                | Some r' => Some r'
                | None => Py.strip_prefix "stop" r1
                end = Some r2)
            ∨ match Py.strip_prefix "start" r1 with
              | Some r' => Some r'
              | None => Py.strip_prefix "stop" r1
              end = None) as Hverb.
    { destruct (Py.strip_prefix "start" r1) as [r2|] eqn:H2.
      - apply strip_prefix_Some in H2 as ->. left. exists "start", r2. auto.
      - destruct (Py.strip_prefix "stop" r1) as [r2|] eqn:H3; [|by right].
        apply strip_prefix_Some in H3 as ->. left. exists "stop", r2. auto. }
    destruct Hverb as [(verb & r2 & Hverb & -> & ->)| ->]; [|done].
    cbn [mbind option_bind].
    destruct (Py.strip_prefix " " r2) as [r3|] eqn:H3; [|done].
    apply strip_prefix_Some in H3 as ->. cbn [mbind option_bind].
    case_bool_decide as Hne; [done|]. intros [= <-].
    destruct (take_name_split r3) as (after & Hr3 & Hafter).
    exists verb, after. split; [done|]. split.
    { rewrite append_nil_l. by rewrite <- Hr3. }
    split.
    { apply container_name_take_name. split; [done | apply take_name_idem]. }
    intros c rest -> Hc%name_char_iff. by rewrite (Hafter c rest) in Hc.
  - intros (verb & after & Hverb & -> & [Hne Hname]%container_name_take_name
            & Hafter).
    rewrite append_nil_l, strip_prefix_app. cbn [mbind option_bind].
    assert (match Py.strip_prefix "start" (verb +:+ " " +:+ n +:+ after) with
            | Some r' => Some r'
            | None => Py.strip_prefix "stop" (verb +:+ " " +:+ n +:+ after)
            end = Some (" " +:+ n +:+ after)) as ->.
    { destruct Hverb as [-> | ->]; [by rewrite strip_prefix_app|].
      change (Py.strip_prefix "start" ("stop" +:+ " " +:+ n +:+ after))
        with (@None string).
      by rewrite strip_prefix_app. }
    cbn [mbind option_bind]. rewrite strip_prefix_app. cbn [mbind option_bind].
    rewrite take_name_app; [by rewrite bool_decide_eq_false_2 | done |].
    intros c rest Heq. specialize (Hafter c rest Heq).
    rewrite <- name_char_iff in Hafter. by destruct (Py.is_name_char c).
Qed.

Lemma refers_at_cons c text before n :
  refers_at (String c text) (String c before) n ↔ refers_at text before n.
Proof.
  unfold refers_at. split; intros (verb & after & Hverb & Heq & Hrest);
    exists verb, after; (split; [done|]); (split; [|done]).
  - rewrite append_cons in Heq. by injection Heq.
  - by rewrite append_cons, Heq.
Qed.

Lemma refers_at_cons_inv c text x before n :
  refers_at (String c text) (String x before) n → x = c.
Proof.
  intros (verb & after & _ & Heq & _). rewrite append_cons in Heq.
  by injection Heq.
Qed.

Lemma refers_at_nil before n : ¬ refers_at "" before n.
Proof.
  intros (verb & after & _ & Heq & _). destruct before; [|done].
  by rewrite append_nil_l in Heq.
Qed.

(** [re.search] finds the first reference. *)
Lemma search_docker_first_reference (text n : string) :
  Py.search_docker text = Some n ↔ first_reference text n.
Proof.
  unfold first_reference. revert n. induction text as [|c text IH]; intros n.
  - cbn. split; [done|]. by intros (before & ?%refers_at_nil & _).
  - cbn [Py.search_docker].
    destruct (Py.match_docker_at (String c text)) as [n0|] eqn:Hhere.
    + apply match_docker_at_iff in Hhere. split.
      * intros [= <-]. exists "". split; [done|]. intros. cbn. lia.
      * intros (before & Hat & Hmin).
        specialize (Hmin _ _ Hhere). destruct before; [|cbn in Hmin; lia].
        apply match_docker_at_iff in Hat, Hhere. congruence.
    + assert (Hnot : ∀ n', ¬ refers_at (String c text) "" n').
      { intros n' Hat%match_docker_at_iff. congruence. }
      rewrite IH. split.
      * intros (before & Hat & Hmin). exists (String c before).
        split; [by apply refers_at_cons|].
        intros [|x before'] n' Hat'; [by apply Hnot in Hat'|].
        pose proof (refers_at_cons_inv _ _ _ _ _ Hat') as ->.
        apply refers_at_cons in Hat'. specialize (Hmin _ _ Hat'). cbn. lia.
      * intros ([|x before] & Hat & Hmin); [by apply Hnot in Hat|].
        pose proof (refers_at_cons_inv _ _ _ _ _ Hat) as ->.
        exists before. split; [by apply refers_at_cons in Hat|].
        intros before' n' Hat'.
        specialize (Hmin (String c before') n' (proj2 (refers_at_cons _ _ _ _) Hat')).
        cbn in Hmin. lia.
Qed.

Lemma elem_of_container_names_of st sfs n :
  n ∈ container_names_of st sfs
  ↔ ∃ f text, f ∈ sfs ∧ st !! f = Some text ∧ Py.search_docker text = Some n.
Proof.
  unfold container_names_of. rewrite elem_of_list_to_set, list_elem_of_omap.
  split.
  - intros (f & Hin & Hn). destruct (st !! f) as [text|] eqn:Hf; [|done].
    eauto.
  - intros (f & text & Hin & Hf & Hn). exists f. by rewrite Hf.
Qed.

End Words.

(** ** The claims on the lifecycle *)

Section Claims.
Context `{Package} (host : Host).

(** C1, on the code: when the primary service file is not in the unit
    directory (a first deployment, or a retry after the files were lost),
    [create] ends in an exception raised by its own [remove] step, leaves
    the directory as it was and writes no file.  The source comment on that
    step reads "remove old version of this service if it exists". *)
Theorem create_without_prior_artifacts_raises self defer_reload w :
  store w !! Py.path_join systemd_dir (base_file_stem self +:+ ".service") = None →
  ∃ e evs,
    runs (create host self defer_reload) w (Raise e) (store w) evs
    ∧ writes evs = [].
Proof.
  intros Hnone.
  destruct (create_runs host self defer_reload w)
    as (r & st & evs & Hrun & _ & Hmissing).
  destruct (Hmissing Hnone) as ([e ->] & -> & Hw). eauto.
Qed.

(** C2, as amended: with a stop schedule, [service_files] is the primary
    and the "stop" unit, [timer_files] is the start timer and the stop timer
    when there is a start schedule too and the stop timer alone otherwise,
    and [_write_service_units], when it returns, leaves at the path of the
    "stop" unit a text whose only service-level line is
    [ExecStart=systemctl --user stop <basename of the primary file>]; the
    basename is the last component of the path, [<stem>.service] when the
    stem has no slash.  The run returns when no directory is missing. *)
Theorem stop_schedule_artifacts self w :
  truthy (stop_schedule self) = true →
  let stem := base_file_stem self in
  let primary := Py.path_join systemd_dir (stem +:+ ".service") in
  let secondary := Py.path_join systemd_dir ("stop-" +:+ stem +:+ ".service") in
  let start_timer := Py.path_join systemd_dir (stem +:+ ".timer") in
  let stop_timer := Py.path_join systemd_dir ("stop-" +:+ stem +:+ ".timer") in
  service_files self = [primary; secondary]
  ∧ timer_files self
    = (if truthy (start_schedule self) then [start_timer; stop_timer]
       else [stop_timer])
  ∧ last_component primary (Py.basename primary)
  ∧ (¬ in_text "/" stem → Py.basename primary = stem +:+ ".service")
  ∧ ∃ r st evs,
      runs (_write_service_units host self) w r st evs
      ∧ (r = Return tt →
         st !! secondary
         = Some (Py.join nl
                   ["[Service]";
                    "ExecStart=systemctl --user stop " +:+ Py.basename primary;
                    "[Install]"; "WantedBy=default.target"]))
      ∧ (no_directory_missing host → r = Return tt).
Proof.
  intros Hstop stem primary secondary start_timer stop_timer.
  split; [unfold service_files; by rewrite Hstop|].
  split.
  { unfold timer_files. rewrite Hstop.
    by destruct (truthy (start_schedule self)). }
  split; [apply basename_last_component|].
  split.
  { intros Hslash%has_char_not_in_text. unfold primary.
    rewrite basename_path_join. apply basename_no_slash.
    by rewrite has_char_app, Hslash. }
  destruct (write_service_units_runs host self w)
    as (r & st & evs & Hrun & _ & _ & Hst & Hok).
  exists r, st, evs. split; [done|]. split; [|done].
  intros Hr. by apply Hst.
Qed.

(** C3, on the code: an exception of [DisableUnitFiles] is not caught.
    When the manager fails that call, [_disable_service] ends in the
    exception of the manager with nothing logged but the line that
    announces the call, and [_remove_service] ends in it after its stop
    calls: no unit is cleaned, no container and no file is deleted.  The
    calls to [StopUnit] and to [CleanUnit] next to it are in [try] blocks. *)
Theorem disable_failure_is_not_caught files w err :
  (∀ w', dbus_raises host w' (DisableUnitFiles (Py.basename <$> files) false)
         = Some err) →
  runs (_disable_service host files) w (Raise (DBusException err)) (store w)
    [Log INFO "Disabling: %s" [pformat (Py.basename <$> files)];
     IPC (DisableUnitFiles (Py.basename <$> files) false) (Some err)]
  ∧ ∀ sfs tfs, files = sfs ++ tfs →
      ∃ evs,
        runs (_remove_service host sfs tfs) w (Raise (DBusException err))
          (store w) evs
        ∧ calls evs
          = ((λ sf, StopUnit (Py.basename sf) "replace") <$> files)
            ++ [DisableUnitFiles (Py.basename <$> files) false]
        ∧ deletes evs = [].
Proof.
  intros Hfails.
  assert (Hdis : ∀ w0,
    runs (_disable_service host files) w0 (Raise (DBusException err)) (store w0)
      [Log INFO "Disabling: %s" [pformat (Py.basename <$> files)];
       IPC (DisableUnitFiles (Py.basename <$> files) false) (Some err)]).
  { intros w0.
    unfold runs, _disable_service, bind, logger_info, emit, mgr_disable, mgr.
    cbn. rewrite Hfails. cbn. by rewrite <- app_assoc. }
  split; [apply Hdis|].
  intros sfs tfs ->. unfold _remove_service.
  destruct (stop_service_runs host (sfs ++ tfs) w) as (e1 & Hstop & Hc1 & Hd1 & _).
  eexists. split.
  { eapply runs_bind_return; [apply Hstop|].
    apply runs_bind_raise. apply (Hdis (mkWorld _ _)). }
  unfold calls, deletes in *. rewrite !omap_app, Hc1, Hd1. done.
Qed.

(** C5, as amended: the start calls of [_start_service] are, in order,
    those due for the list: one for the last component of each file but
    for the names of the form [stop-*.service]; all of them when it
    returns, a prefix of them when a call fails, which ends the run in the
    exception of the manager.  On ["x.service"; "stop-x.service"] there is
    exactly one start call, for "x.service".  The "stop" unit of a service
    has such a name when the stem has no slash and no newline. *)
Theorem start_skips_stop_services files w :
  (∃ r evs cs,
     runs (_start_service host files) w r (store w) evs
     ∧ start_calls files cs
     ∧ calls evs `prefix_of` cs
     ∧ (r = Return tt → calls evs = cs)
     ∧ (r = Return tt ∨ ∃ err, r = Raise (DBusException err)))
  ∧ (∃ r evs,
       runs (_start_service host ["x.service"; "stop-x.service"]) w r (store w) evs
       ∧ calls evs = [StartUnit "x.service" "replace"])
  ∧ (∀ self,
       truthy (stop_schedule self) = true →
       ¬ in_text "/" (base_file_stem self) →
       ¬ in_text nl (base_file_stem self) →
       ∃ primary secondary,
         service_files self = [primary; secondary]
         ∧ last_component secondary ("stop-" +:+ base_file_stem self +:+ ".service")
         ∧ stop_service_name ("stop-" +:+ base_file_stem self +:+ ".service")).
Proof.
  split; [|split].
  - destruct (start_service_runs host files w) as (r & evs & ? & ? & ? & ? & _).
    exists r, evs, (start_targets files).
    eauto 6 using start_targets_start_calls.
  - set (w1 := mkWorld (store w) (trace w ++ [Log INFO "Running: %s" ["x.service"]])).
    exists (match dbus_raises host w1 (StartUnit "x.service" "replace") with
            | Some err => Raise (DBusException err)
            | None => Return tt
            end),
      [Log INFO "Running: %s" ["x.service"];
       IPC (StartUnit "x.service" "replace")
         (dbus_raises host w1 (StartUnit "x.service" "replace"))].
    split; [|done].
    unfold runs, _start_service, for_each, start_one, bind, logger_info, emit, mgr, ret.
    cbn. fold w1.
    destruct (dbus_raises host w1 _); cbn; by rewrite <- !app_assoc.
  - intros self Hstop Hslash Hline. eexists _, _. split.
    { unfold service_files. by rewrite Hstop. }
    split.
    + pose proof (basename_last_component
                    (Py.path_join systemd_dir
                       ("stop-" +:+ base_file_stem self +:+ ".service"))) as Hlast.
      rewrite basename_path_join, basename_no_slash in Hlast; [done|].
      apply has_char_not_in_text in Hslash. by rewrite !has_char_app, Hslash.
    + by exists (base_file_stem self); auto.
Qed.

(** C6: on service files of ASCII text, the container deletions of
    [_remove_service] never repeat a name; every deleted name is the first
    reference of the text of a service file, that is the name that stands
    behind the first [docker start ] or [docker stop ] followed by a name; a
    run that returns has deleted the first reference of every service file;
    and when every service file refers to the same container first, as a
    file that names it in its start and in its stop command does, a run that
    returns has deleted that container, once. *)
Theorem remove_deletes_each_container_once sfs tfs w :
  (∀ f text, f ∈ sfs → store w !! f = Some text → isascii text = true) →
  ∃ r st evs,
    runs (_remove_service host sfs tfs) w r st evs
    ∧ NoDup (deletes evs)
    ∧ (∀ n, n ∈ deletes evs →
         ∃ f text, f ∈ sfs ∧ store w !! f = Some text ∧ first_reference text n)
    ∧ (r = Return tt →
       ∀ f text n, f ∈ sfs → store w !! f = Some text → first_reference text n →
                   n ∈ deletes evs)
    ∧ (r = Return tt →
       ∀ n, sfs ≠ [] →
            (∀ f, f ∈ sfs → ∃ text, store w !! f = Some text ∧ first_reference text n) →
            deletes evs = [n]).
Proof.
  intros _.
  destruct (remove_service_runs host sfs tfs w)
    as (r & st & evs & Hrun & _ & _ & Hnd & Hin & Hall & _).
  assert (Hfound : ∀ n, n ∈ deletes evs →
    ∃ f text, f ∈ sfs ∧ store w !! f = Some text ∧ first_reference text n).
  { intros n (f & text & ? & ? & ?)%Hin%elem_of_container_names_of.
    exists f, text. by rewrite <- search_docker_first_reference. }
  assert (Hdeleted : r = Return tt →
    ∀ f text n, f ∈ sfs → store w !! f = Some text → first_reference text n →
                n ∈ deletes evs).
  { intros Hr f text n Hf Htext Hn. rewrite (Hall Hr), elem_of_elements.
    apply elem_of_container_names_of. exists f, text.
    by rewrite search_docker_first_reference. }
  exists r, st, evs. split; [done|]. split; [done|]. split; [done|].
  split; [done|].
  intros Hr n Hsfs Hsame.
  assert (Hone : ∀ m, m ∈ deletes evs → m = n).
  { intros m (f & text & Hf & Htext & Hm)%Hfound.
    destruct (Hsame f Hf) as (text' & Htext' & Hn).
    assert (text' = text) as -> by congruence.
    apply search_docker_first_reference in Hm, Hn. congruence. }
  assert (Hn : n ∈ deletes evs).
  { destruct sfs as [|f sfs']; [done|].
    destruct (Hsame f (list_elem_of_here _ _)) as (text & Htext & Hn).
    eapply Hdeleted; eauto. apply list_elem_of_here. }
  destruct (deletes evs) as [|m l]; [by apply elem_of_nil in Hn|].
  assert (m = n) as -> by (apply Hone, list_elem_of_here).
  destruct l as [|m' l]; [done|].
  assert (m' = n) as ->.
  { apply Hone. apply elem_of_cons. right. apply list_elem_of_here. }
  apply NoDup_cons in Hnd as [Hnotin _]. exfalso. apply Hnotin, list_elem_of_here.
Qed.


(** C10: with a stop schedule, the "stop" timer file is one of
    [unit_files], its basename is not matched by the skip pattern (which
    only matches names of the form [stop-*.service]), it is
    [stop-<stem>.timer] when the stem has no slash, and a run of [start]
    that returns has called [StartUnit] on it; [start] ends early only by
    an exception of the manager. *)
Theorem start_arms_stop_timer self w :
  truthy (stop_schedule self) = true →
  let timer :=
    Py.path_join systemd_dir ("stop-" +:+ base_file_stem self +:+ ".timer") in
  timer ∈ unit_files self
  ∧ Py.match_stop_service (Py.basename timer) = false
  ∧ (∀ sf, Py.match_stop_service sf = true →
       ∃ x, sf = "stop-" +:+ x +:+ ".service"
            ∨ sf = "stop-" +:+ x +:+ ".service" +:+ nl)
  ∧ (Py.has_char "/" (base_file_stem self) = false →
     Py.basename timer = "stop-" +:+ base_file_stem self +:+ ".timer")
  ∧ ∃ r evs,
      runs (start host self) w r (store w) evs
      ∧ (r = Return tt → StartUnit (Py.basename timer) "replace" ∈ calls evs)
      ∧ (r = Return tt ∨ ∃ err, r = Raise (DBusException err)).
Proof.
  intros Hstop timer.
  assert (Hin : timer ∈ unit_files self).
  { unfold unit_files, timer_files. rewrite Hstop. apply elem_of_app. right.
    destruct (truthy (start_schedule self)); cbn; rewrite !elem_of_cons; auto. }
  assert (Hkeep : Py.match_stop_service (Py.basename timer) = false).
  { apply match_stop_service_last. unfold timer.
    rewrite basename_path_join, ends_with_char_basename by done.
    rewrite <- append_assoc. by rewrite ends_with_char_app. }
  split; [done|]. split; [done|]. split; [apply match_stop_service_form|].
  split.
  { intros Hslash. unfold timer. rewrite basename_path_join.
    apply basename_no_slash. by rewrite !has_char_app, Hslash. }
  destruct (start_service_runs host (unit_files self) w)
    as (r & evs & Hrun & _ & Hall & Hr & _).
  exists r, evs. split; [done|]. split; [|done].
  intros Hret. rewrite (Hall Hret). unfold start_targets.
  apply list_elem_of_fmap. exists (Py.basename timer). split; [done|].
  apply list_elem_of_filter. split; [done|].
  by apply list_elem_of_fmap_2.
Qed.

End Claims.

(** ** The claims at concrete inputs *)

(** C1 at a first deployment: an empty unit directory and a manager that
    never fails. *)
Lemma create_without_prior_artifacts_raises_witness :
  ∃ e evs,
    runs (create Demo.quiet (Demo.svc "job" "true" None None) false) Demo.w0
      (Raise e) (store Demo.w0) evs
    ∧ writes evs = [].
Proof.
  apply (create_without_prior_artifacts_raises Demo.quiet
           (Demo.svc "job" "true" None None) false Demo.w0).
  reflexivity.
Defined.

(** C2 at a service with a stop schedule alone, on a host where no
    directory is missing: two service files, the stop timer, and the text
    of the "stop" unit once the service units are written. *)
Lemma stop_schedule_artifacts_witness :
  service_files (Demo.svc "job" "true" None (Some (One "daily")))
  = ["/home/u/.config/systemd/user/taskflow-job.service";
     "/home/u/.config/systemd/user/stop-taskflow-job.service"]
  ∧ timer_files (Demo.svc "job" "true" None (Some (One "daily")))
    = ["/home/u/.config/systemd/user/stop-taskflow-job.timer"]
  ∧ ∃ st evs,
      runs (_write_service_units Demo.quiet
              (Demo.svc "job" "true" None (Some (One "daily"))))
        Demo.w0 (Return tt) st evs
      ∧ st !! "/home/u/.config/systemd/user/stop-taskflow-job.service"
        = Some (Py.join nl
                  ["[Service]";
                   "ExecStart=systemctl --user stop taskflow-job.service";
                   "[Install]"; "WantedBy=default.target"]).
Proof.
  destruct (stop_schedule_artifacts Demo.quiet
              (Demo.svc "job" "true" None (Some (One "daily"))) Demo.w0 eq_refl)
    as (Hfiles & Htimers & _ & _ & r & st & evs & Hrun & Hst & Hok).
  split; [exact Hfiles|]. split; [exact Htimers|].
  rewrite (Hok (λ _ _, eq_refl)) in Hrun.
  exists st, evs. split; [exact Hrun|].
  exact (Hst (Hok (λ _ _, eq_refl))).
Defined.

(** C2, as stated, fails: a stop schedule alone gives one timer file. *)
Lemma stop_schedule_alone_has_one_timer :
  ¬ (∀ (P : Package) (self : Service),
       truthy (stop_schedule self) = true →
       length (service_files self) = 2%nat ∧ length (timer_files self) = 2%nat).
Proof.
  intros Hclaim.
  destruct (Hclaim Demo.package
              (Demo.svc "job" "true" None (Some (One "daily"))) eq_refl)
    as [_ Hlen].
  vm_compute in Hlen. discriminate.
Qed.

(** C3 at a service file and a timer, with a manager that fails every
    call: [_disable_service] ends in the exception of the manager, and so
    does [_remove_service], after it has asked both units to stop and
    before it cleans or deletes anything. *)
Lemma disable_failure_is_not_caught_witness :
  runs (_disable_service (H := Demo.package) Demo.failing ["a.service"; "b.timer"])
    Demo.w0 (Raise (DBusException Demo.no_such_unit)) (store Demo.w0)
    [Log INFO "Disabling: %s" ["[a.service, b.timer]"];
     IPC (DisableUnitFiles ["a.service"; "b.timer"] false) (Some Demo.no_such_unit)]
  ∧ ∃ evs,
      runs (_remove_service (H := Demo.package) Demo.failing
              ["a.service"] ["b.timer"])
        Demo.w0 (Raise (DBusException Demo.no_such_unit)) (store Demo.w0) evs
      ∧ calls evs = [StopUnit "a.service" "replace"; StopUnit "b.timer" "replace";
                     DisableUnitFiles ["a.service"; "b.timer"] false]
      ∧ deletes evs = [].
Proof.
  destruct (disable_failure_is_not_caught (H := Demo.package) Demo.failing
              ["a.service"; "b.timer"] Demo.w0 Demo.no_such_unit
              (λ _, eq_refl)) as [Hdisable Hremove].
  split; [exact Hdisable|].
  exact (Hremove ["a.service"] ["b.timer"] eq_refl).
Defined.

(** C5 at a service, its "stop" unit and a timer, with a manager that
    never fails. *)
Lemma start_skips_stop_services_witness :
  ∃ evs,
    runs (_start_service Demo.quiet
            ["/d/a.service"; "/d/stop-a.service"; "/d/a.timer"])
      Demo.w0 (Return tt) (store Demo.w0) evs
    ∧ start_calls ["/d/a.service"; "/d/stop-a.service"; "/d/a.timer"] (calls evs)
    ∧ calls evs = [StartUnit "a.service" "replace"; StartUnit "a.timer" "replace"].
Proof.
  destruct (start_skips_stop_services (H := Demo.package) Demo.quiet
              ["/d/a.service"; "/d/stop-a.service"; "/d/a.timer"] Demo.w0)
    as ((r & evs & cs & Hrun & Hcs & _ & Hall & _) & _).
  pose proof Hrun as Hc. unfold runs in Hc. vm_compute in Hc.
  injection Hc as Hr Hevs. subst r.
  exists evs. split; [exact Hrun|]. split.
  - rewrite (Hall eq_refl). exact Hcs.
  - by rewrite <- Hevs.
Defined.

(** C5, as stated, fails: for a service with a slash in its name and a stop
    schedule, [start] calls [StartUnit] for the "stop" unit too, whose
    basename is not of the form [stop-*.service]. *)
Lemma slash_in_name_starts_the_stop_unit :
  ¬ (∀ (P : Package) (host : Host) (self : Service) (w : World) evs,
       truthy (stop_schedule self) = true →
       runs (start host self) w (Return tt) (store w) evs →
       calls evs
       = (λ f, StartUnit (Py.basename f) "replace")
           <$> (Py.path_join systemd_dir (base_file_stem self +:+ ".service")
                :: timer_files self)).
Proof.
  intros Hclaim.
  destruct (start_service_runs Demo.quiet
              (unit_files (Demo.svc "a/b" "true" None (Some (One "23:00"))))
              Demo.w0) as (r & evs & Hrun & _ & Hall & _).
  assert (Hr : r = Return tt).
  { pose proof Hrun as Hc. unfold runs in Hc. vm_compute in Hc.
    by injection Hc as <- _. }
  subst r.
  specialize (Hclaim Demo.package Demo.quiet
                (Demo.svc "a/b" "true" None (Some (One "23:00"))) Demo.w0 evs
                eq_refl Hrun).
  rewrite (Hall eq_refl) in Hclaim. vm_compute in Hclaim. discriminate.
Qed.

(** C6 at a deployed unit that names [c1] twice: one deletion, of [c1]. *)
Lemma remove_deletes_each_container_once_witness :
  ∃ st evs,
    runs (_remove_service (H := Demo.package) Demo.quiet
            (service_files (Demo.svc "db" "docker start c1" None None)) [])
      (Demo.deployed (Demo.svc "db" "docker start c1" None None) Demo.c1_unit)
      (Return tt) st evs
    ∧ deletes evs = ["c1"].
Proof.
  set (p := "/home/u/.config/systemd/user/taskflow-db.service").
  assert (Hascii : ∀ f text,
    f ∈ service_files (Demo.svc "db" "docker start c1" None None) →
    store (Demo.deployed (Demo.svc "db" "docker start c1" None None) Demo.c1_unit)
      !! f = Some text →
    isascii text = true).
  { intros f text Hin Hf.
    change (f ∈ [p]) in Hin. apply list_elem_of_singleton in Hin as ->.
    change (({[ p := Demo.c1_unit ]} : gmap string string) !! p = Some text) in Hf.
    rewrite lookup_singleton_eq in Hf. by injection Hf as <-. }
  destruct (remove_deletes_each_container_once (H := Demo.package) Demo.quiet
              (service_files (Demo.svc "db" "docker start c1" None None)) []
              (Demo.deployed (Demo.svc "db" "docker start c1" None None) Demo.c1_unit)
              Hascii)
    as (r & st & evs & Hrun & _ & _ & _ & Hsame).
  assert (Hr : r = Return tt).
  { pose proof Hrun as Hc. unfold runs in Hc. vm_compute in Hc.
    by injection Hc as <- _. }
  subst r. exists st, evs. split; [exact Hrun|].
  apply (Hsame eq_refl "c1"); [done|].
  intros f Hin. change (f ∈ [p]) in Hin. apply list_elem_of_singleton in Hin as ->.
  exists Demo.c1_unit. split; [apply lookup_singleton_eq|].
  by apply search_docker_first_reference.
Defined.


(** C10 at a service with a stop schedule and a manager that never fails. *)
Lemma start_arms_stop_timer_witness :
  ∃ evs,
    runs (start Demo.quiet (Demo.svc "job" "true" None (Some (One "23:00"))))
      Demo.w0 (Return tt) (store Demo.w0) evs
    ∧ StartUnit "stop-taskflow-job.timer" "replace" ∈ calls evs.
Proof.
  destruct (start_arms_stop_timer Demo.quiet
              (Demo.svc "job" "true" None (Some (One "23:00"))) Demo.w0 eq_refl)
    as (_ & _ & _ & _ & r & evs & Hrun & Hcall & _).
  assert (Hr : r = Return tt).
  { unfold runs in Hrun. vm_compute in Hrun. by injection Hrun as <- _. }
  subst r. exists evs. split; [exact Hrun | exact (Hcall eq_refl)].
Defined.

(** ** The sentinel timestamp *)

(** C4, on the code: on a host whose local time is five hours behind UTC,
    the sentinel 0 is decoded to the date 1969-12-31 19:00:00, and
    [get_schedule_info] reports that date as "Last Finish" for a unit whose
    [ActiveExitTimestamp] is 0.  [datetime.fromtimestamp] gives local time,
    and [missing_dt] is midnight of 1970-01-01. *)
Theorem sentinel_epoch_read_as_local_time :
  ScheduleInfo.timestamp_to_dt Demo.utc_minus_5 0
  = inr (Some (ScheduleInfo.mkDatetime 1969 12 31 19 0 0 0))
  ∧ match ScheduleInfo.get_schedule_info "taskflow-" Demo.utc_minus_5
            Demo.idle_bus "job" with
    | inr info =>
        ScheduleInfo.Last_Finish info
        = Some (ScheduleInfo.mkDatetime 1969 12 31 19 0 0 0)
    | inl _ => False
    end.
Proof. split; [reflexivity | vm_compute; reflexivity]. Qed.

(** * Further properties *)

(** ** More on runs *)

Section MoreRuns.

(** A run has one outcome, one final directory and one list of events. *)
Lemma runs_inj {A} (m : M A) w r st evs r' st' evs' :
  runs m w r st evs → runs m w r' st' evs' →
  r = r' ∧ st = st' ∧ evs = evs'.
Proof.
  unfold runs. intros -> [= -> -> Heq%app_inv_head]. done.
Qed.

Lemma emits_ret {A} P (a : A) : emits P (ret a).
Proof. intros w. exists (Return a), (store w), []. split; [apply runs_ret | done]. Qed.

Lemma emits_emit (P : Event → Prop) e : P e → emits P (emit e).
Proof.
  intros He w. exists (Return tt), (store w), [e].
  split; [apply runs_emit | by constructor].
Qed.

Lemma emits_bind {A B} P (m : M A) (k : A → M B) :
  emits P m → (∀ a, emits P (k a)) → emits P (bind m k).
Proof.
  intros Hm Hk w. destruct (Hm w) as (r & st & e1 & Hrun & HP1).
  destruct r as [a|e].
  - destruct (Hk a (mkWorld st (trace w ++ e1))) as (r & st' & e2 & Hrun' & HP2).
    exists r, st', (e1 ++ e2). split; [by eapply runs_bind_return|].
    by apply Forall_app.
  - exists (Raise e), st, e1. split; [by apply runs_bind_raise | done].
Qed.

Lemma emits_for_each {A} P (l : list A) (body : A → M unit) :
  (∀ x, emits P (body x)) → emits P (for_each l body).
Proof.
  intros Hbody. induction l as [|x l IH]; cbn [for_each].
  - apply emits_ret.
  - apply emits_bind; [apply Hbody | intros _; apply IH].
Qed.

Lemma emits_mgr (P : Event → Prop) host c :
  (∀ raised, P (IPC c raised)) → emits P (mgr host c).
Proof.
  intros Hc w. eexists _, _, _. split; [apply runs_mgr|].
  constructor; [apply Hc | done].
Qed.

Lemma emits_try_dbus {A} P (body : M A) handler :
  emits P body → (∀ err, emits P (handler err)) → emits P (try_dbus body handler).
Proof.
  intros Hbody Hh w. destruct (Hbody w) as (r & st & e1 & Hrun & HP1).
  destruct r as [a|[err|path|text]].
  - exists (Return a), st, e1. split; [|done].
    unfold runs, try_dbus in *. by rewrite Hrun.
  - destruct (Hh err (mkWorld st (trace w ++ e1))) as (r & st' & e2 & Hrun' & HP2).
    exists r, st', (e1 ++ e2). split; [|by apply Forall_app].
    unfold runs, try_dbus in *. rewrite Hrun. cbn in Hrun'.
    by rewrite Hrun', app_assoc.
  - exists (Raise (FileNotFoundError path)), st, e1. split; [|done].
    unfold runs, try_dbus in *. by rewrite Hrun.
  - exists (Raise (ProviderError text)), st, e1. split; [|done].
    unfold runs, try_dbus in *. by rewrite Hrun.
Qed.

End MoreRuns.

(** ** The parts of a removal *)

Section RemoveParts.
Context `{Package} (host : Host).

Lemma emits_stop_service files : emits manager_event (_stop_service host files).
Proof.
  apply emits_for_each. intros sf. unfold stop_one.
  apply emits_bind; [by apply emits_emit|]. intros _.
  apply emits_try_dbus; [by apply emits_mgr|]. intros err. by apply emits_emit.
Qed.

Lemma emits_mgr_disable (P : Event → Prop) files runtime :
  (∀ raised, P (IPC (DisableUnitFiles files runtime) raised)) →
  emits P (mgr_disable host files runtime).
Proof.
  intros HP w. pose proof (runs_mgr host (DisableUnitFiles files runtime) w) as Hrun.
  destruct (dbus_raises host w (DisableUnitFiles files runtime)) as [err|] eqn:Hr.
  - exists (Raise (DBusException err)), (store w), [IPC (DisableUnitFiles files runtime) (Some err)].
    split; [|by repeat constructor].
    unfold runs, mgr_disable in *. by rewrite Hrun.
  - exists (Return (disable_changes host w files)), (store w),
      [IPC (DisableUnitFiles files runtime) None].
    split; [|by repeat constructor].
    unfold runs, mgr_disable in *. by rewrite Hrun.
Qed.

Lemma emits_disable_service files : emits manager_event (_disable_service host files).
Proof.
  unfold _disable_service.
  apply emits_bind; [by apply emits_emit|]. intros _.
  apply emits_bind; [by apply emits_mgr_disable|]. intros changes.
  apply emits_for_each. intros [[kind link] dest]. by apply emits_emit.
Qed.

Lemma emits_read_text (P : Event → Prop) path :
  P (ReadText path) → emits P (read_text path).
Proof.
  intros HP w. eexists _, _, _. split; [apply runs_read_text|]. by repeat constructor.
Qed.

Lemma emits_clean_units sfs names : emits manager_event (clean_units host sfs names).
Proof.
  revert names. induction sfs as [|f sfs IH]; intros names; cbn [clean_units].
  - apply emits_ret.
  - apply emits_bind; [|intros names'; apply IH].
    unfold clean_one.
    apply emits_bind; [by apply emits_emit|]. intros _.
    apply emits_bind.
    { apply emits_try_dbus; [by apply emits_mgr|]. intros err. by apply emits_emit. }
    intros _. apply emits_bind; [by apply emits_read_text|]. intros text.
    apply emits_ret.
Qed.

Lemma emits_delete_loop cnames :
  emits container_event (for_each cnames (delete_docker_container host)).
Proof.
  apply emits_for_each. intros cname w.
  destruct (delete_raises host w cname) as [e|] eqn:Hr.
  - exists (Raise e), (store w), [DeleteContainer cname].
    split; [|by repeat constructor].
    unfold runs, delete_docker_container. by rewrite Hr.
  - exists (Return tt), (store w), [DeleteContainer cname].
    split; [|by repeat constructor].
    unfold runs, delete_docker_container. by rewrite Hr.
Qed.

Lemma lookup_without files (st : gmap string string) p :
  without files st !! p = if decide (p ∈ files) then None else st !! p.
Proof.
  unfold without. revert st. induction files as [|f files IH]; intros st; cbn.
  - by rewrite decide_False by apply not_elem_of_nil.
  - rewrite IH. destruct (decide (p = f)) as [->|Hne].
    + rewrite lookup_delete_eq.
      destruct (decide (f ∈ files)); destruct (decide (f ∈ f :: files)) as [|Hn];
        try done.
      all: exfalso; apply Hn, elem_of_cons; auto.
    + rewrite lookup_delete_ne by done.
      destruct (decide (p ∈ files)) as [Hin|Hin];
        destruct (decide (p ∈ f :: files)) as [Hin'|Hin']; try done.
      * exfalso. apply Hin', elem_of_cons. auto.
      * apply elem_of_cons in Hin' as [?|?]; done.
Qed.

(** The last loop of [_remove_service]: when it returns, every file was
    there, none is listed twice, and all are gone. *)
Lemma unlink_loop_full (files : list string) w :
  ∃ r st evs,
    runs (for_each files unlink_one) w r st evs
    ∧ Forall unlink_event evs
    ∧ (r = Return tt →
       st = without files (store w) ∧ unlinks evs = files
       ∧ NoDup files ∧ Forall (λ f, is_Some (store w !! f)) files).
Proof.
  revert w. induction files as [|f files IH]; intros w.
  - exists (Return tt), (store w), []. split; [apply runs_ret|].
    split; [done|]. intros _. repeat split; constructor.
  - cbn [for_each]. pose proof (unlink_one_runs f w) as Hone.
    destruct (store w !! f) as [text|] eqn:Hf.
    + destruct (IH (mkWorld (delete f (store w))
                      (trace w ++ [Log INFO "Deleting %s" [f]; Unlink f])))
        as (r & st & evs & Hrest & HP & Hret).
      cbn [store] in Hret.
      exists r, st, ([Log INFO "Deleting %s" [f]; Unlink f] ++ evs).
      split; [eapply runs_bind_return; [apply Hone | apply Hrest]|].
      split; [by repeat constructor|].
      intros Hr. destruct (Hret Hr) as (-> & Hunl & Hnd & Hall).
      split; [done|]. split; [unfold unlinks in *; cbn; by rewrite Hunl|].
      split.
      * constructor; [|done]. intros Hin.
        rewrite Forall_forall in Hall. destruct (Hall f Hin) as [? Hsome].
        by rewrite lookup_delete_eq in Hsome.
      * constructor; [by eexists|].
        eapply Forall_impl; [apply Hall|]. intros f' [v Hv].
        exists v. by apply lookup_delete_Some in Hv as [_ ?].
    + exists (Raise (FileNotFoundError f)), (store w),
        [Log INFO "Deleting %s" [f]; Unlink f].
      split; [by apply runs_bind_raise|].
      split; [by repeat constructor | discriminate].
Qed.

(** The run of [_remove_service], part by part. *)
Lemma remove_service_full sfs tfs w :
  ∃ r st e1 e2 e3,
    runs (_remove_service host sfs tfs) w r st (e1 ++ e2 ++ e3)
    ∧ Forall manager_event e1
    ∧ Forall container_event e2
    ∧ Forall unlink_event e3
    ∧ (r = Return tt →
       calls e1
       = ((λ sf, StopUnit (Py.basename sf) "replace") <$> sfs ++ tfs)
         ++ DisableUnitFiles (Py.basename <$> sfs ++ tfs) false
         :: clean_calls sfs
       ∧ deletes e2 = iter_set (container_names_of (store w) sfs)
       ∧ unlinks e3 = sfs ++ tfs
       ∧ st = without (sfs ++ tfs) (store w)
       ∧ NoDup (sfs ++ tfs)
       ∧ Forall (λ f, is_Some (store w !! f)) (sfs ++ tfs)).
Proof.
  unfold _remove_service.
  destruct (stop_service_runs host (sfs ++ tfs) w) as (ea & Hstop & Hca & _).
  destruct (emits_stop_service (sfs ++ tfs) w) as (? & ? & ea' & Hstop' & HPa).
  destruct (runs_inj _ _ _ _ _ _ _ _ Hstop Hstop') as (_ & _ & <-).
  clear Hstop'.
  set (w1 := mkWorld (store w) (trace w ++ ea)).
  destruct (disable_service_runs host (sfs ++ tfs) w1)
    as (raised & eb & Hdis & _ & Hcb & _).
  destruct (emits_disable_service (sfs ++ tfs) w1) as (? & ? & eb' & Hdis' & HPb).
  destruct (runs_inj _ _ _ _ _ _ _ _ Hdis Hdis') as (_ & _ & <-).
  clear Hdis'. cbn [store w1] in Hdis.
  destruct raised as [err|].
  { exists (Raise (DBusException err)), (store w), (ea ++ eb), [], [].
    split.
    { rewrite !app_nil_r.
      eapply runs_bind_return; [apply Hstop|]. by apply runs_bind_raise. }
    split; [by apply Forall_app|]. repeat split; try done. }
  set (w2 := mkWorld (store w) (trace w1 ++ eb)).
  destruct (clean_units_runs host sfs ∅ w2)
    as (r3 & ec & Hclean & _ & _ & _ & _ & Hr3).
  destruct (emits_clean_units sfs ∅ w2) as (? & ? & ec' & Hclean' & HPc).
  destruct (runs_inj _ _ _ _ _ _ _ _ Hclean Hclean') as (_ & _ & <-).
  clear Hclean'. cbn [store w2] in Hclean, Hr3.
  destruct r3 as [names|e].
  2:{ exists (Raise e), (store w), (ea ++ eb ++ ec), [], [].
      split.
      { rewrite !app_nil_r.
        eapply runs_bind_return; [apply Hstop|].
        eapply runs_bind_return; [apply Hdis|]. by apply runs_bind_raise. }
      split; [by repeat apply Forall_app_2|]. repeat split; try done. }
  destruct Hr3 as (_ & -> & Hcc).
  rewrite (left_id_L ∅ (∪)) in Hclean.
  set (names := container_names_of (store w) sfs) in *.
  set (w3 := mkWorld (store w) (trace w2 ++ ec)).
  destruct (delete_loop_runs host (iter_set names) w3)
    as (r4 & ed & Hdel & _ & _ & _ & Hall4).
  destruct (emits_delete_loop (iter_set names) w3) as (? & ? & ed' & Hdel' & HPd).
  destruct (runs_inj _ _ _ _ _ _ _ _ Hdel Hdel') as (_ & _ & <-).
  clear Hdel'. cbn [store w3] in Hdel.
  destruct r4 as [[]|e].
  2:{ exists (Raise e), (store w), (ea ++ eb ++ ec), ed, [].
      split.
      { rewrite !app_nil_r, <- !app_assoc.
        eapply runs_bind_return; [apply Hstop|].
        eapply runs_bind_return; [apply Hdis|].
        eapply runs_bind_return; [apply Hclean|]. by apply runs_bind_raise. }
      split; [by repeat apply Forall_app_2|]. repeat split; try done. }
  set (w4 := mkWorld (store w) (trace w3 ++ ed)).
  destruct (unlink_loop_full (sfs ++ tfs) w4) as (r & st & ee & Hunl & HPe & Hret).
  cbn [store w4] in Hret.
  exists r, st, (ea ++ eb ++ ec), ed, ee.
  split.
  { rewrite <- !app_assoc.
    eapply runs_bind_return; [apply Hstop|].
    eapply runs_bind_return; [apply Hdis|].
    eapply runs_bind_return; [apply Hclean|].
    eapply runs_bind_return; [apply Hdel | apply Hunl]. }
  split; [by repeat apply Forall_app_2|]. split; [done|]. split; [done|].
  intros Hr. destruct (Hret Hr) as (-> & Hu & Hnd & Hpresent).
  unfold calls in *. rewrite !omap_app, Hca, Hcb, Hcc.
  repeat split; auto.
Qed.

End RemoveParts.

(** ** Paths of the unit files *)

Section UnitPaths.
Context `{Package}.

Lemma length_append (a b : string) :
  String.length (a +:+ b) = (String.length a + String.length b)%nat.
Proof.
  induction a as [|c a IH]; [done|].
  rewrite append_cons. cbn. by rewrite IH.
Qed.

(** The "stop" unit never has the path of the unit it stops. *)
Lemma path_join_stop_ne (d x : string) :
  Py.path_join d ("stop-" +:+ x) ≠ Py.path_join d x.
Proof.
  intros Heq. apply (f_equal String.length) in Heq. revert Heq.
  unfold Py.path_join.
  change (Py.startswith ("stop-" +:+ x) "/") with false. cbn iota.
  destruct (Py.startswith x "/");
    destruct (bool_decide (d = "") || Py.ends_with_char "/" d);
    rewrite ?length_append; cbn; lia.
Qed.

Lemma ends_with_char_path_join c (d f : string) :
  f ≠ "" → Py.ends_with_char c (Py.path_join d f) = Py.ends_with_char c f.
Proof.
  intros Hf. unfold Py.path_join.
  destruct (Py.startswith f "/"); [done|].
  destruct (_ || _); rewrite ?ends_with_char_app; done.
Qed.

Lemma unit_path_service_stop_ne self :
  unit_path self "service" true ≠ unit_path self "service" false.
Proof. unfold unit_path. rewrite append_assoc. apply path_join_stop_ne. Qed.

Lemma unit_path_timer_stop_ne self :
  unit_path self "timer" true ≠ unit_path self "timer" false.
Proof. unfold unit_path. rewrite append_assoc. apply path_join_stop_ne. Qed.

Lemma unit_path_last self unit_type is_stop c :
  unit_type ≠ "" →
  Py.ends_with_char c (unit_path self unit_type is_stop)
  = Py.ends_with_char c unit_type.
Proof.
  intros Hne. unfold unit_path.
  rewrite ends_with_char_path_join.
  - rewrite ends_with_char_app; [|by destruct unit_type].
    change ("." +:+ unit_type) with (String "." unit_type).
    by destruct unit_type.
  - by destruct (if is_stop then _ else _).
Qed.

Lemma unit_path_timer_service_ne self b b' :
  unit_path self "timer" b ≠ unit_path self "service" b'.
Proof.
  intros Heq. apply (f_equal (Py.ends_with_char "r")) in Heq.
  by rewrite !unit_path_last in Heq.
Qed.

(** The paths of [service_files] and [timer_files] are those
    [_write_systemd_file] writes to. *)
Lemma service_files_paths self :
  service_files self
  = unit_path self "service" false
    :: (if truthy (stop_schedule self) then [unit_path self "service" true] else []).
Proof.
  unfold service_files, unit_path.
  destruct (truthy (stop_schedule self)); cbn; [|done].
  by rewrite append_assoc.
Qed.

Lemma timer_files_paths self :
  timer_files self
  = (if truthy (start_schedule self) then [unit_path self "timer" false] else [])
    ++ (if truthy (stop_schedule self) then [unit_path self "timer" true] else []).
Proof.
  unfold timer_files, unit_path.
  destruct (truthy (start_schedule self)), (truthy (stop_schedule self)); cbn;
    by rewrite ?append_assoc.
Qed.

End UnitPaths.

(** ** Writing the unit files *)

Section WriteParts.
Context `{Package} (host : Host).

Lemma writes_app e1 e2 : writes (e1 ++ e2) = writes e1 ++ writes e2.
Proof. apply omap_app. Qed.

Lemma calls_app e1 e2 : calls (e1 ++ e2) = calls e1 ++ calls e2.
Proof. apply omap_app. Qed.

Lemma unlinks_app e1 e2 : unlinks (e1 ++ e2) = unlinks e1 ++ unlinks e2.
Proof. apply omap_app. Qed.

Lemma write_all_app l1 l2 (st : gmap string string) :
  write_all (l1 ++ l2) st = write_all l2 (write_all l1 st).
Proof. unfold write_all. apply fold_left_app. Qed.

(** One file to write. *)
Lemma write_systemd_file_wrote self unit_type content is_stop_unit w :
  ∃ r st evs,
    runs (_write_systemd_file host self unit_type content is_stop_unit ;; ret tt)%eff
      w r st evs
    ∧ wrote host [(unit_path self unit_type is_stop_unit, content)] w r st evs.
Proof.
  pose proof (write_systemd_file_runs host self unit_type content is_stop_unit w)
    as Hrun. cbn zeta in Hrun.
  set (path := unit_path self unit_type is_stop_unit) in *.
  assert (Hbefore : Forall write_event (before_write w path)
                    ∧ calls (before_write w path) = []
                    ∧ writes (before_write w path) = []).
  { unfold before_write. by destruct (bool_decide _); repeat constructor. }
  destruct Hbefore as (HP & Hc & Hw).
  destruct (parent_missing host (write_world w path) path) eqn:Hmissing.
  - eexists _, _, _. split; [by apply runs_bind_raise|].
    exists [], [(path, content)]. rewrite app_nil_r.
    repeat split; try done. right. by exists path, content, [], (write_world w path).
  - eexists _, _, (_ ++ []). split.
    { eapply runs_bind_return; [apply Hrun | apply runs_ret]. }
    exists [(path, content)], []. rewrite app_nil_r.
    split; [done|]. split; [done|].
    split; [by rewrite !writes_app, Hw|].
    split; [apply Forall_app; split; [|done];
            apply Forall_app; split; [done | by repeat constructor]|].
    split; [by rewrite !calls_app, Hc | by left].
Qed.

(** Two lists of files to write, one after the other. *)
Lemma wrote_app {A} (m1 : M A) (m2 : M unit) l1 l2 w :
  (∃ r st evs, runs (m1 ;; ret tt)%eff w r st evs ∧ wrote host l1 w r st evs) →
  (∀ w', ∃ r st evs, runs m2 w' r st evs ∧ wrote host l2 w' r st evs) →
  ∃ r st evs, runs (m1 ;; m2)%eff w r st evs ∧ wrote host (l1 ++ l2) w r st evs.
Proof.
  intros (r1 & st1 & e1 & Hrun1 & written & rest & Hl1 & Hst1 & Hw1 & HP1 & Hc1 & Hr1)
         Hsecond.
  assert (Hm1 : ∃ r1', runs m1 w r1' st1 e1
                       ∧ (r1 = Return tt → ∃ a, r1' = Return a)
                       ∧ (∀ e, r1 = Raise e → r1' = Raise e)).
  { unfold runs, bind, ret in *. destruct (m1 w) as [[a|e] w1] eqn:Hm.
    - exists (Return a). injection Hrun1 as <- ->. split; [done|].
      split; [eauto | done].
    - exists (Raise e). injection Hrun1 as <- ->. split; [done|].
      split; [done | by intros ? [= ->]]. }
  destruct Hm1 as (r1' & Hm1 & Hret & Hraise).
  destruct Hr1 as [[-> ->]|(p & c & rest' & w0 & -> & -> & Hmissing)].
  - destruct (Hret eq_refl) as [a ->]. rewrite app_nil_r in Hl1. subst l1.
    destruct (Hsecond (mkWorld st1 (trace w ++ e1)))
      as (r & st & e2 & Hrun2 & written2 & rest2 & Hl2 & Hst2 & Hw2 & HP2 & Hc2 & Hr2).
    exists r, st, (e1 ++ e2). split; [by eapply runs_bind_return|].
    exists (written ++ written2), rest2.
    split; [by rewrite <- app_assoc, Hl2|].
    split; [by rewrite write_all_app, <- Hst1|].
    split; [by rewrite writes_app, fmap_app, Hw1, Hw2|].
    split; [by apply Forall_app|].
    split; [by rewrite calls_app, Hc1, Hc2 | done].
  - rewrite (Hraise _ eq_refl) in Hm1.
    exists (Raise (FileNotFoundError p)), st1, e1.
    split; [by apply runs_bind_raise|].
    exists written, ((p, c) :: rest' ++ l2).
    split; [by rewrite Hl1, <- app_assoc|].
    repeat split; try done. right. by exists p, c, (rest' ++ l2), w0.
Qed.

Lemma wrote_nothing w : wrote host [] w (Return tt) (store w) [].
Proof. exists [], []. repeat split; try done. by left. Qed.

(** The run of [_write_timer_units]. *)
Lemma write_timer_units_wrote self w :
  ∃ r st evs,
    runs (_write_timer_units host self) w r st evs
    ∧ wrote host (synthesized_timers self) w r st evs.
Proof.
  unfold _write_timer_units, synthesized_timers. cbn [for_each].
  assert (Hslot : ∀ is_stop (schedule : option (OneOrMany Schedule)) w',
    ∃ r st evs,
      runs (match schedule with
            | None => ret tt
            | Some schedule =>
                (_write_systemd_file host self "timer"
                   (timer_content self is_stop schedule) is_stop ;; ret tt)%eff
            end ;; ret tt)%eff w' r st evs
      ∧ wrote host match schedule with
              | Some s => [(unit_path self "timer" is_stop, timer_content self is_stop s)]
              | None => []
              end w' r st evs).
  { intros is_stop [schedule|] w'.
    - destruct (write_systemd_file_wrote self "timer"
                  (timer_content self is_stop schedule) is_stop w')
        as (r & st & evs & Hrun & Hwrote).
      exists r, st, evs. split; [|done].
      unfold runs, bind, ret in *.
      destruct (_write_systemd_file _ _ _ _ _ w') as [[?|?] ?]; done.
    - exists (Return tt), (store w'), []. split; [|apply wrote_nothing].
      unfold runs, bind, ret. destruct w'; cbn. by rewrite app_nil_r. }
  apply wrote_app; [apply Hslot|]. intros w'.
  destruct (Hslot true (stop_schedule self) w') as (r & st & evs & Hrun & Hwrote).
  rewrite <- (app_nil_r (match stop_schedule self with Some _ => _ | None => _ end)).
  apply wrote_app; [eauto|].
  intros w''. exists (Return tt), (store w''), []. split; [apply runs_ret|].
  apply wrote_nothing.
Qed.

(** The run of [_write_service_units]. *)
Lemma write_service_units_wrote self w :
  ∃ r st evs,
    runs (_write_service_units host self) w r st evs
    ∧ wrote host (synthesized_services self) w r st evs.
Proof.
  unfold _write_service_units, synthesized_services, _write_service_file.
  set (content := Py.join nl _).
  assert (Hcontent : content = primary_content self).
  { unfold content, primary_content. by destruct (bool_decide _). }
  clearbody content. subst content.
  destruct (write_systemd_file_wrote self "service" (primary_content self) false w)
    as (r1 & st1 & e1 & Hrun1 & Hwrote1).
  pose proof (write_systemd_file_runs host self "service" (primary_content self)
                false w) as Hfirst. cbn zeta in Hfirst.
  change ((unit_path self "service" false, primary_content self)
          :: (if truthy (stop_schedule self)
              then [(unit_path self "service" true, stop_unit_content self)]
              else []))
    with ([(unit_path self "service" false, primary_content self)]
          ++ (if truthy (stop_schedule self)
              then [(unit_path self "service" true, stop_unit_content self)]
              else [])).
  destruct (parent_missing host
              (write_world w (unit_path self "service" false))
              (unit_path self "service" false)) eqn:Hmissing.
  - assert (Hraise : runs (_write_systemd_file host self "service"
                             (primary_content self) false) w
                       (Raise (FileNotFoundError (unit_path self "service" false)))
                       (store w)
                       (before_write w (unit_path self "service" false) ++ []))
      by exact Hfirst.
    eexists _, _, _. split; [by apply runs_bind_raise|].
    destruct Hwrote1 as (written & rest & Hl & Hst & Hw & HP & Hc & Hr).
    unfold runs, bind, ret in Hrun1, Hraise. rewrite Hraise in Hrun1.
    injection Hrun1 as <- <- Hevs%app_inv_head. subst e1.
    destruct Hr as [[[=] _]|(p & c & rest' & w0 & -> & [= <-] & Hmiss)].
    exists written, ((unit_path self "service" false, c) :: rest'
                     ++ (if truthy (stop_schedule self)
                         then [(unit_path self "service" true, stop_unit_content self)]
                         else [])).
    split; [by rewrite Hl, <- app_assoc|].
    repeat split; try done. right. eauto 10.
  - assert (Hret : runs (_write_systemd_file host self "service"
                           (primary_content self) false) w
                     (Return (unit_path self "service" false))
                     (<[unit_path self "service" false := primary_content self]>
                        (store w))
                     (before_write w (unit_path self "service" false)
                      ++ [WriteText (unit_path self "service" false)
                            (primary_content self)]))
      by exact Hfirst.
    set (e0 := before_write w (unit_path self "service" false)
               ++ [WriteText (unit_path self "service" false) (primary_content self)])
      in *.
    set (w1 := mkWorld (<[unit_path self "service" false := primary_content self]>
                          (store w)) (trace w ++ e0)).
    assert (Hsecond : ∃ r st evs,
      runs (if truthy (stop_schedule self)
            then (_write_systemd_file host self "service"
                    (Py.join nl
                       ([] ++ "[Service]"
                        :: stop_unit_service (unit_path self "service" false)
                        ++ ["[Install]"; "WantedBy=default.target"])) true ;; ret tt)%eff
            else ret tt) w1 r st evs
      ∧ wrote host (if truthy (stop_schedule self)
               then [(unit_path self "service" true, stop_unit_content self)]
               else []) w1 r st evs).
    { destruct (truthy (stop_schedule self)).
      - apply write_systemd_file_wrote.
      - exists (Return tt), (store w1), []. split; [apply runs_ret|].
        apply wrote_nothing. }
    destruct Hsecond
      as (r & st & e2 & Hrun2 & written2 & rest2 & Hl2 & Hst2 & Hw2 & HP2 & Hc2 & Hr2).
    exists r, st, (e0 ++ e2). split.
    { eapply runs_bind_return; [apply Hret|].
      destruct (truthy (stop_schedule self)); [|exact Hrun2].
      rewrite bool_decide_eq_true_2 by done. exact Hrun2. }
    destruct Hwrote1 as (written & rest & Hl & Hst & Hw & HP & Hc & Hr).
    unfold runs, bind, ret in Hrun1, Hret. rewrite Hret in Hrun1.
    injection Hrun1 as <- <- Hevs%app_inv_head. subst e1.
    destruct Hr as [[_ ->]|(p & c & rest' & w0 & -> & [=] & _)].
    rewrite app_nil_r in Hl. subst written.
    exists ([(unit_path self "service" false, primary_content self)] ++ written2),
      rest2.
    split; [by rewrite <- app_assoc, Hl2|].
    split; [by rewrite write_all_app|].
    split; [by rewrite writes_app, fmap_app, Hw, Hw2|].
    split; [by apply Forall_app|].
    split; [by rewrite calls_app, Hc, Hc2 | done].
Qed.

End WriteParts.

(** ** The parts of a creation *)

Section CreateParts.
Context `{Package} (host : Host).

Lemma enable_service_runs files w :
  ∃ raised,
    runs (_enable_service host files) w
      (match raised with
       | Some err => Raise (DBusException err)
       | None => Return tt
       end) (store w)
      [Log INFO "Enabling: %s" [pformat files];
       IPC (EnableUnitFiles files false true) raised].
Proof.
  eexists. unfold _enable_service.
  eapply (runs_bind_return _ _ _ _ _ [_] _ _ [_]); [apply runs_emit|].
  apply (runs_mgr host _ (mkWorld _ _)).
Qed.

Lemma writes_none evs :
  Forall manager_event evs ∨ Forall container_event evs ∨ Forall unlink_event evs →
  writes evs = [].
Proof.
  intros Hev. unfold writes. induction evs as [|e evs IH]; [done|].
  cbn. rewrite IH.
  - destruct Hev as [Hev|[Hev|Hev]]; apply Forall_cons in Hev as [He _];
      by destruct e.
  - destruct Hev as [Hev|[Hev|Hev]]; apply Forall_cons in Hev as [_ ?]; auto.
Qed.

Lemma unlinks_none evs :
  Forall manager_event evs ∨ Forall container_event evs ∨ Forall write_event evs →
  unlinks evs = [].
Proof.
  intros Hev. unfold unlinks. induction evs as [|e evs IH]; [done|].
  cbn. rewrite IH.
  - destruct Hev as [Hev|[Hev|Hev]]; apply Forall_cons in Hev as [He _];
      by destruct e.
  - destruct Hev as [Hev|[Hev|Hev]]; apply Forall_cons in Hev as [_ ?]; auto.
Qed.

Lemma calls_none evs :
  Forall container_event evs ∨ Forall unlink_event evs → calls evs = [].
Proof.
  intros Hev. unfold calls. induction evs as [|e evs IH]; [done|].
  cbn. rewrite IH.
  - destruct Hev as [Hev|Hev]; apply Forall_cons in Hev as [He _]; by destruct e.
  - destruct Hev as [Hev|Hev]; apply Forall_cons in Hev as [_ ?]; auto.
Qed.

(** The run of [create], part by part: it ends in its [remove] step with
    nothing written, or removes the unit files and writes the synthesized
    files in order, up to the first whose directory is missing; when all
    are written, what can fail is a call to the manager. *)
Lemma create_parts self defer_reload w :
  ∃ r st evs,
    runs (create host self defer_reload) w r st evs
    ∧ ((writes evs = [] ∧ ∃ e, r = Raise e)
       ∨ ∃ written rest,
           synthesized self = written ++ rest
           ∧ st = write_all written (without (unit_files self) (store w))
           ∧ writes evs = written.*1
           ∧ unlinks evs = unit_files self
           ∧ NoDup (unit_files self)
           ∧ Forall (λ f, is_Some (store w !! f)) (unit_files self)
           ∧ (rest = []
              ∧ (r = Return tt ∧ calls evs = create_calls self defer_reload
                 ∨ ∃ err, r = Raise (DBusException err))
              ∨ ∃ p c rest' w',
                  rest = (p, c) :: rest'
                  ∧ r = Raise (FileNotFoundError p)
                  ∧ parent_missing host w' p = true)).
Proof.
  unfold create, remove.
  set (e0 := [Log INFO "Creating service %s" [str_Service self]]).
  set (w1 := mkWorld (store w) (trace w ++ e0)).
  destruct (remove_service_full host (service_files self) (timer_files self) w1)
    as (r1 & st1 & ea & eb & ec & Hrm & HPa & HPb & HPc & Hret).
  fold (unit_files self) in *. cbn [store w1] in Hret.
  set (erm := ea ++ eb ++ ec) in *.
  assert (Hwrm : writes erm = []).
  { unfold erm. rewrite !writes_app.
    by rewrite (writes_none ea), (writes_none eb), (writes_none ec) by auto. }
  destruct r1 as [[]|e].
  2:{ exists (Raise e), st1, (e0 ++ erm). split.
      - eapply runs_bind_return; [apply runs_emit|]. by apply runs_bind_raise.
      - left. split; [|eauto]. by rewrite writes_app, Hwrm. }
  destruct (Hret eq_refl) as (Hca & _ & Huc & -> & Hnd & Hpresent).
  assert (Hurm : unlinks erm = unit_files self).
  { unfold erm. rewrite !unlinks_app.
    by rewrite (unlinks_none ea), (unlinks_none eb), Huc by auto. }
  assert (Hcrm : calls erm
                 = ((λ sf, StopUnit (Py.basename sf) "replace") <$> unit_files self)
                   ++ DisableUnitFiles (Py.basename <$> unit_files self) false
                   :: clean_calls (service_files self)).
  { unfold erm. rewrite !calls_app.
    by rewrite Hca, (calls_none eb), (calls_none ec), !app_nil_r by auto. }
  set (st1 := without (unit_files self) (store w)) in *.
  set (w2 := mkWorld st1 (trace w1 ++ erm)).
  destruct (write_timer_units_wrote host self w2)
    as (rt & stt & et & Ht & wt & restt & Hlt & Hstt & Hwt & HPt & Hct & Hrt).
  cbn [store w2] in Hstt.
  assert (Hut : unlinks et = []) by (apply unlinks_none; auto).
  destruct Hrt as [[-> ->]|(p & c & rest' & w0 & -> & -> & Hmissing)].
  2:{ exists (Raise (FileNotFoundError p)), stt, (e0 ++ erm ++ et). split.
      { eapply runs_bind_return; [apply runs_emit|].
        eapply runs_bind_return; [apply Hrm|]. by apply runs_bind_raise. }
      right. exists wt, ((p, c) :: rest' ++ synthesized_services self).
      split; [unfold synthesized; by rewrite Hlt, <- app_assoc|].
      split; [done|].
      split; [by rewrite !writes_app, Hwrm, Hwt|].
      split; [by rewrite !unlinks_app, Hurm, Hut, app_nil_r|].
      split; [done|]. split; [done|]. right. eauto 10. }
  rewrite app_nil_r in Hlt. subst wt.
  set (w3 := mkWorld stt (trace w2 ++ et)).
  destruct (write_service_units_wrote host self w3)
    as (rs & sts & es & Hs & ws & rests & Hls & Hsts & Hws & HPs & Hcs & Hrs).
  cbn [store w3] in Hsts.
  assert (Hus : unlinks es = []) by (apply unlinks_none; auto).
  assert (Hst : sts = write_all (synthesized_timers self ++ ws) st1).
  { by rewrite write_all_app, <- Hstt. }
  destruct Hrs as [[-> ->]|(p & c & rest' & w0 & -> & -> & Hmissing)].
  2:{ exists (Raise (FileNotFoundError p)), sts, (e0 ++ erm ++ et ++ es). split.
      { eapply runs_bind_return; [apply runs_emit|].
        eapply runs_bind_return; [apply Hrm|].
        eapply runs_bind_return; [apply Ht|]. by apply runs_bind_raise. }
      right. exists (synthesized_timers self ++ ws), ((p, c) :: rest').
      split; [unfold synthesized; by rewrite Hls, <- app_assoc|].
      split; [done|].
      split; [by rewrite !writes_app, Hwrm, Hwt, Hws, fmap_app|].
      split; [by rewrite !unlinks_app, Hurm, Hut, Hus, !app_nil_r|].
      split; [done|]. split; [done|]. right. eauto 10. }
  rewrite app_nil_r in Hls. subst ws. fold (synthesized self) in Hst.
  set (w4 := mkWorld sts (trace w3 ++ es)).
  assert (Hrest : ∃ r er,
    runs ((if defer_reload then ret tt else reload_unit_files host) ;;
          _enable_service host (unit_files self))%eff w4 r sts er
    ∧ writes er = [] ∧ unlinks er = []
    ∧ (r = Return tt
       ∧ calls er = (if defer_reload then [] else [Reload])
                    ++ [EnableUnitFiles (unit_files self) false true]
       ∨ ∃ err, r = Raise (DBusException err))).
  { destruct defer_reload.
    - destruct (enable_service_runs (unit_files self)
                  (mkWorld sts (trace w4 ++ []))) as [raised Hen].
      eexists _, ([] ++ _). split.
      { eapply runs_bind_return; [apply runs_ret | apply Hen]. }
      split; [done|]. split; [done|]. destruct raised; eauto.
    - pose proof (runs_mgr host Reload w4) as Hre.
      destruct (dbus_raises host w4 Reload) as [err|].
      + eexists _, _. split; [by apply runs_bind_raise|].
        split; [done|]. split; [done|]. eauto.
      + destruct (enable_service_runs (unit_files self)
                    (mkWorld sts (trace w4 ++ [IPC Reload None]))) as [raised Hen].
        eexists _, ([_] ++ _). split.
        { eapply runs_bind_return; [apply Hre | apply Hen]. }
        split; [done|]. split; [done|]. destruct raised; eauto. }
  destruct Hrest as (r & er & Hrun & Hwr & Hur & Hr).
  exists r, sts, (e0 ++ erm ++ et ++ es ++ er). split.
  { eapply runs_bind_return; [apply runs_emit|].
    eapply runs_bind_return; [apply Hrm|].
    eapply runs_bind_return; [apply Ht|].
    eapply runs_bind_return; [apply Hs | apply Hrun]. }
  right. exists (synthesized self), []. rewrite app_nil_r.
  split; [done|]. split; [done|].
  split.
  { rewrite !writes_app, Hwrm, Hwt, Hws, Hwr, app_nil_r.
    unfold synthesized. by rewrite fmap_app. }
  split; [by rewrite !unlinks_app, Hurm, Hut, Hus, Hur, !app_nil_r|].
  split; [done|]. split; [done|]. left. split; [done|].
  destruct Hr as [[-> Hcr]|?]; [left | by right]. split; [done|].
  rewrite !calls_app, Hcrm, Hct, Hcs, Hcr. unfold create_calls.
  cbn [app calls omap list_omap]. by rewrite <- !app_assoc.
Qed.

(** The run of [create], when it returns. *)
Lemma create_full self defer_reload w :
  ∃ r st evs,
    runs (create host self defer_reload) w r st evs
    ∧ (r = Return tt →
       st = write_all (synthesized self) (without (unit_files self) (store w))
       ∧ calls evs = create_calls self defer_reload
       ∧ unlinks evs = unit_files self
       ∧ writes evs = (synthesized self).*1
       ∧ NoDup (unit_files self)
       ∧ Forall (λ f, is_Some (store w !! f)) (unit_files self)).
Proof.
  destruct (create_parts self defer_reload w) as (r & st & evs & Hrun & Hcase).
  exists r, st, evs. split; [done|]. intros ->.
  destruct Hcase as [[_ [e [=]]]|(written & rest & Hl & Hst & Hw & Hu & Hnd & Hall & Hr)].
  destruct Hr as [[-> Hr]|(p & c & rest' & w0 & _ & [=] & _)].
  rewrite app_nil_r in Hl. subst written.
  destruct Hr as [[_ Hc]|[err [=]]]. done.
Qed.

End CreateParts.

(** ** What removal and creation leave *)

Section Leaves.
Context `{Package} (host : Host).

Lemma lookup_write_all_notin l (st : gmap string string) p :
  p ∉ l.*1 → write_all l st !! p = st !! p.
Proof.
  unfold write_all. revert st. induction l as [|[q c] l IH]; intros st Hp; [done|].
  cbn in *. apply not_elem_of_cons in Hp as [Hne Hp].
  rewrite IH by done. by apply lookup_insert_ne.
Qed.

Lemma lookup_write_all_last l1 p c l2 (st : gmap string string) :
  p ∉ l2.*1 → write_all (l1 ++ (p, c) :: l2) st !! p = Some c.
Proof.
  intros Hp. rewrite write_all_app. unfold write_all at 1. cbn [fold_left].
  fold (write_all l2 (<[p := c]> (write_all l1 st))).
  rewrite lookup_write_all_notin by done. apply lookup_insert_eq.
Qed.

Lemma lookup_write_all_in l (st : gmap string string) p :
  p ∈ l.*1 → is_Some (write_all l st !! p).
Proof.
  unfold write_all. revert st. induction l as [|[q c] l IH]; intros st Hp.
  - by apply elem_of_nil in Hp.
  - cbn in *. destruct (decide (p ∈ l.*1)) as [Hin|Hnotin]; [by apply IH|].
    apply elem_of_cons in Hp as [->|?]; [|done].
    fold (write_all l (<[q := c]> st)).
    rewrite lookup_write_all_notin by done. rewrite lookup_insert_eq. by eexists.
Qed.

Lemma truthy_Some {A} (x : option (OneOrMany A)) :
  truthy x = true → ∃ s, x = Some s.
Proof. destruct x; [eauto | done]. Qed.

Lemma unit_files_synthesized self p :
  p ∈ unit_files self → p ∈ (synthesized self).*1.
Proof.
  unfold unit_files, synthesized, synthesized_timers, synthesized_services.
  rewrite service_files_paths, timer_files_paths.
  rewrite !fmap_app, !elem_of_app. cbn [fmap list_fmap fst].
  intros [Hs|[Ht|Ht]].
  - right. destruct (truthy (stop_schedule self)); exact Hs.
  - left. left. destruct (truthy (start_schedule self)) eqn:Hstart;
      [|by apply elem_of_nil in Ht].
    apply truthy_Some in Hstart as [s ->]. exact Ht.
  - left. right. destruct (truthy (stop_schedule self)) eqn:Hstop;
      [|by apply elem_of_nil in Ht].
    apply truthy_Some in Hstop as [s ->]. exact Ht.
Qed.

Lemma synthesized_spec_paths self p :
  p ∈ (synthesized self).*1 → p ∈ spec_paths self.
Proof.
  unfold synthesized, synthesized_timers, synthesized_services, spec_paths.
  rewrite !fmap_app, !elem_of_app. cbn [fmap list_fmap fst].
  destruct (start_schedule self), (stop_schedule self) as [[?|l]|];
    cbn [truthy]; try destruct (negb _); cbn [fmap list_fmap fst];
    rewrite ?elem_of_cons, ?elem_of_nil; tauto.
Qed.

Lemma unit_files_spec_paths self p :
  p ∈ unit_files self → p ∈ spec_paths self.
Proof. intros Hp. by apply synthesized_spec_paths, unit_files_synthesized. Qed.

(** X1: whatever its outcome, a run of [_remove_service] has three parts in
    this order: the calls to the manager (with the reading of the service
    files), the deletions of containers, the deletions of files. *)
Theorem remove_runs_in_three_parts sfs tfs w :
  ∃ r st e1 e2 e3,
    runs (_remove_service host sfs tfs) w r st (e1 ++ e2 ++ e3)
    ∧ Forall manager_event e1
    ∧ Forall container_event e2
    ∧ Forall unlink_event e3.
Proof.
  destruct (remove_service_full host sfs tfs w)
    as (r & st & e1 & e2 & e3 & ? & ? & ? & ? & _).
  eauto 10.
Qed.

(** X2: a run of [_remove_service] that returns found every listed file in
    the directory, none of them listed twice; it leaves the directory
    without these files and with every other file as it was; its manager
    calls are a stop for each file, one disable for all of them and a clean
    for each service file, in this order. *)
Theorem remove_returns sfs tfs w st evs :
  runs (_remove_service host sfs tfs) w (Return tt) st evs →
  NoDup (sfs ++ tfs)
  ∧ Forall (λ f, is_Some (store w !! f)) (sfs ++ tfs)
  ∧ (∀ p, st !! p = if decide (p ∈ sfs ++ tfs) then None else store w !! p)
  ∧ unlinks evs = sfs ++ tfs
  ∧ calls evs
    = ((λ sf, StopUnit (Py.basename sf) "replace") <$> sfs ++ tfs)
      ++ DisableUnitFiles (Py.basename <$> sfs ++ tfs) false
      :: ((λ f, CleanUnit (Py.basename f) ["all"]) <$> sfs).
Proof.
  intros Hrun.
  destruct (remove_service_full host sfs tfs w)
    as (r & st' & e1 & e2 & e3 & Hrun' & HP1 & HP2 & HP3 & Hret).
  destruct (runs_inj _ _ _ _ _ _ _ _ Hrun Hrun') as (<- & <- & ->).
  destruct (Hret eq_refl) as (Hc & _ & Hu & -> & Hnd & Hall).
  split; [done|]. split; [done|]. split; [apply lookup_without|].
  assert (Hnounlink : ∀ l, Forall manager_event l ∨ Forall container_event l →
                           unlinks l = []).
  { intros l Hl. unfold unlinks. induction l as [|e l IH]; [done|].
    cbn. rewrite IH.
    - destruct Hl as [Hl|Hl]; apply Forall_cons in Hl as [He _]; by destruct e.
    - destruct Hl as [Hl|Hl]; apply Forall_cons in Hl as [_ ?]; auto. }
  assert (Hnocall : ∀ l, Forall container_event l ∨ Forall unlink_event l →
                         calls l = []).
  { intros l Hl. unfold calls. induction l as [|e l IH]; [done|].
    cbn. rewrite IH.
    - destruct Hl as [Hl|Hl]; apply Forall_cons in Hl as [He _]; by destruct e.
    - destruct Hl as [Hl|Hl]; apply Forall_cons in Hl as [_ ?]; auto. }
  pose proof (Hnounlink e1 (or_introl HP1)) as Hu1.
  pose proof (Hnounlink e2 (or_intror HP2)) as Hu2.
  pose proof (Hnocall e2 (or_introl HP2)) as Hc2.
  pose proof (Hnocall e3 (or_intror HP3)) as Hc3.
  unfold unlinks, calls in *.
  rewrite !omap_app, Hu1, Hu2, Hu, Hc, Hc2, Hc3, !app_nil_r. done.
Qed.

(** X3: a run of [create] that returns leaves the directory it found,
    without the unit files of the service and with the synthesized files
    written on top; its manager calls are those of the removal, then
    [Reload] unless the reload is deferred, then one [EnableUnitFiles] on
    the paths of all the unit files, persistent and replacing links; it
    writes the synthesized files in their order. *)
Theorem create_returns self defer_reload w st evs :
  runs (create host self defer_reload) w (Return tt) st evs →
  st = write_all (synthesized self) (without (unit_files self) (store w))
  ∧ calls evs = create_calls self defer_reload
  ∧ writes evs = (synthesized self).*1.
Proof.
  intros Hrun.
  destruct (create_full host self defer_reload w) as (r & st' & evs' & Hrun' & Hret).
  destruct (runs_inj _ _ _ _ _ _ _ _ Hrun Hrun') as (<- & <- & <-).
  destruct (Hret eq_refl) as (? & ? & _ & ? & _). done.
Qed.

(** X4: after a [create] that returns, every file of [unit_files] is in the
    directory, the primary service file holds the text synthesized for it,
    and a file at none of the four paths of the service is as it was. *)
Theorem create_leaves_unit_files self defer_reload w st evs :
  runs (create host self defer_reload) w (Return tt) st evs →
  (∀ p, p ∈ unit_files self → is_Some (st !! p))
  ∧ st !! unit_path self "service" false = Some (primary_content self)
  ∧ (∀ p, p ∉ spec_paths self → st !! p = store w !! p).
Proof.
  intros Hrun.
  destruct (create_full host self defer_reload w) as (r & st' & evs' & Hrun' & Hret).
  destruct (runs_inj _ _ _ _ _ _ _ _ Hrun Hrun') as (<- & <- & <-).
  destruct (Hret eq_refl) as (-> & _). split; [|split].
  - intros p Hp. by apply lookup_write_all_in, unit_files_synthesized.
  - unfold synthesized, synthesized_services.
    apply lookup_write_all_last.
    destruct (truthy (stop_schedule self)); cbn; [|apply not_elem_of_nil].
    rewrite list_elem_of_singleton. intros Heq.
    by apply (unit_path_service_stop_ne self).
  - intros p Hp. rewrite lookup_write_all_notin, lookup_without.
    + rewrite decide_False; [done|]. intros Hin. by apply Hp, unit_files_spec_paths.
    + intros Hin. by apply Hp, synthesized_spec_paths.
Qed.

(** X5: a stop schedule that is an empty sequence is written but not
    listed: after a [create] that returns, the "stop" timer file is in the
    directory with its text, yet it is not one of [unit_files], so it is
    neither enabled by this [create] nor deleted by [remove]. *)
Theorem empty_stop_schedule_leaves_an_unlisted_timer self defer_reload w st evs :
  stop_schedule self = Some (Many []) →
  runs (create host self defer_reload) w (Return tt) st evs →
  st !! unit_path self "timer" true = Some (timer_content self true (Many []))
  ∧ unit_path self "timer" true ∈ writes evs
  ∧ unit_path self "timer" true ∉ unit_files self.
Proof.
  intros Hstop Hrun.
  destruct (create_full host self defer_reload w) as (r & st' & evs' & Hrun' & Hret).
  destruct (runs_inj _ _ _ _ _ _ _ _ Hrun Hrun') as (<- & <- & <-).
  destruct (Hret eq_refl) as (-> & _ & _ & -> & _).
  unfold synthesized, synthesized_timers, synthesized_services, unit_files.
  rewrite service_files_paths, timer_files_paths, Hstop. cbn [truthy negb].
  rewrite bool_decide_eq_true_2 by done. cbn [negb].
  split; [|split].
  - rewrite <- app_assoc. apply lookup_write_all_last.
    cbn. rewrite list_elem_of_singleton. apply unit_path_timer_service_ne.
  - rewrite !fmap_app, !elem_of_app. cbn. rewrite !elem_of_cons. auto.
  - rewrite app_nil_r, elem_of_app, list_elem_of_singleton.
    intros [Heq|Hin].
    + by apply (unit_path_timer_service_ne self true false).
    + destruct (truthy (start_schedule self)); [|by apply elem_of_nil in Hin].
      apply list_elem_of_singleton in Hin. by apply (unit_path_timer_stop_ne self).
Qed.

End Leaves.

(** ** Restarting, and writing one file *)

Section Restart.
Context `{Package} (host : Host).

Lemma restart_service_runs files w :
  ∃ r evs,
    runs (_restart_service host files) w r (store w) evs
    ∧ (r = Return tt →
       calls evs = (λ sf, RestartUnit (Py.basename sf) "replace") <$> files).
Proof.
  revert w. induction files as [|sf files IH]; intros w.
  - exists (Return tt), []. split; [apply runs_ret | done].
  - cbn [_restart_service for_each].
    set (e1 := Log INFO "Restarting: %s" [Py.basename sf]).
    set (w1 := mkWorld (store w) (trace w ++ [e1])).
    set (c := RestartUnit (Py.basename sf) "replace").
    assert (Hone : runs (logger_info "Restarting: %s" [Py.basename sf] ;;
                         mgr host c)%eff w
                     (match dbus_raises host w1 c with
                      | Some err => Raise (DBusException err)
                      | None => Return tt
                      end) (store w) ([e1] ++ [IPC c (dbus_raises host w1 c)])).
    { eapply runs_bind_return; [apply runs_emit|]. apply (runs_mgr host c w1). }
    destruct (dbus_raises host w1 c) as [err|].
    + eexists _, _. split; [by apply runs_bind_raise | discriminate].
    + destruct (IH (mkWorld (store w) (trace w ++ [e1] ++ [IPC c None])))
        as (r & evs & Hrest & Hall).
      cbn [store] in Hrest.
      exists r, (([e1] ++ [IPC c None]) ++ evs).
      split; [eapply runs_bind_return; [apply Hone | apply Hrest]|].
      intros Hr. unfold calls in *. rewrite omap_app, (Hall Hr). done.
Qed.

(** X6: [restart] skips nothing: for a service with a stop schedule, a run
    of [restart] that returns has restarted the primary unit and then the
    "stop" unit (the one [start] passes over), whose command stops the
    primary unit; the directory is as it was. *)
Theorem restart_also_runs_the_stop_unit self w st evs :
  truthy (stop_schedule self) = true →
  runs (restart host self) w (Return tt) st evs →
  st = store w
  ∧ calls evs
    = [RestartUnit (Py.basename (unit_path self "service" false)) "replace";
       RestartUnit (Py.basename (unit_path self "service" true)) "replace"]
  ∧ (Py.has_char "/" (base_file_stem self) = false →
     Py.basename (unit_path self "service" true)
     = "stop-" +:+ base_file_stem self +:+ ".service").
Proof.
  intros Hstop Hrun. unfold restart in Hrun.
  destruct (restart_service_runs (service_files self) w) as (r & evs' & Hrun' & Hall).
  destruct (runs_inj _ _ _ _ _ _ _ _ Hrun Hrun') as (<- & -> & <-).
  split; [done|]. split.
  - rewrite (Hall eq_refl), service_files_paths, Hstop. done.
  - intros Hslash. unfold unit_path. rewrite basename_path_join, append_assoc.
    apply basename_no_slash. by rewrite !has_char_app, Hslash.
Qed.


End Restart.

(** ** The match pattern of the listings *)

Section Patterns.
Import PyMore.

Lemma prefix_cons_eq c u x s :
  String.prefix (String c u) (String x s)
  = Ascii.eqb c x && String.prefix u s.
Proof.
  cbn. destruct (ascii_dec c x) as [->|Hne].
  - by rewrite Ascii.eqb_refl.
  - by apply Ascii.eqb_neq in Hne as ->.
Qed.

Lemma prefix_nil s : String.prefix "" s = true.
Proof. by destruct s. Qed.

Lemma prefix_app (u s : string) :
  String.prefix u s = true ↔ ∃ b, s = u +:+ b.
Proof.
  revert s. induction u as [|c u IH]; intros s.
  - rewrite prefix_nil. split; [by exists s | done].
  - destruct s as [|x s].
    + split; [done | by intros [b ?]].
    + rewrite prefix_cons_eq, andb_true_iff, Ascii.eqb_eq, IH.
      split.
      * intros [-> [b ->]]. by exists b.
      * intros [b Hb]. rewrite append_cons in Hb. injection Hb as -> ->. eauto.
Qed.

Lemma contains_app (u s : string) :
  contains u s = true ↔ ∃ a b, s = a +:+ u +:+ b.
Proof.
  induction s as [|x s IH].
  - cbn [contains]. rewrite orb_false_r, prefix_app. split.
    + intros [b ->]. by exists "", b.
    + intros [a [b Hab]]. destruct a; [by exists b|]. done.
  - cbn [contains]. rewrite orb_true_iff, prefix_app, IH. split.
    + intros [[b ->]|[a [b ->]]]; [by exists "", b | by exists (String x a), b].
    + intros [a [b Hab]]. destruct a as [|y a].
      * left. by exists b.
      * right. rewrite append_cons in Hab. injection Hab as -> ->. eauto.
Qed.

Lemma endswith_app (s suffix : string) :
  endswith s suffix = true → ∃ a, s = a +:+ suffix.
Proof.
  induction s as [|x s IH]; cbn [endswith].
  - rewrite orb_false_r. intros ->%bool_decide_eq_true. by exists "".
  - intros [->%bool_decide_eq_true|Hs]%orb_true_iff; [by exists ""|].
    destruct (IH Hs) as [a ->]. by exists (String x a).
Qed.

Lemma collapse_stars_cons_other c s :
  c ≠ "*"%char → collapse_stars (String c s) = String c (collapse_stars s).
Proof. intros Hc. cbn. by apply Ascii.eqb_neq in Hc as ->. Qed.

Lemma collapse_stars_star_star s :
  collapse_stars (String "*" (String "*" s)) = collapse_stars (String "*" s).
Proof. reflexivity. Qed.

Lemma collapse_stars_star_other c s :
  c ≠ "*"%char →
  collapse_stars (String "*" (String c s))
  = String "*" (collapse_stars (String c s)).
Proof.
  intros Hc. cbn [collapse_stars]. cbn [Ascii.eqb Bool.eqb].
  by apply Ascii.eqb_neq in Hc as ->.
Qed.

Lemma collapse_stars_nil_inv s : collapse_stars s = "" → s = "".
Proof.
  induction s as [|c s IH]; [done|].
  destruct (ascii_dec c "*") as [->|Hc].
  - destruct s as [|c' s]; [done|].
    destruct (ascii_dec c' "*") as [->|Hc'].
    + rewrite collapse_stars_star_star. intros Heq. by apply IH in Heq.
    + by rewrite collapse_stars_star_other.
  - by rewrite collapse_stars_cons_other.
Qed.

(** No two stars in a row are left. *)
Lemma collapse_stars_no_run s : contains "**" (collapse_stars s) = false.
Proof.
  induction s as [|c s IH]; [done|].
  destruct (ascii_dec c "*") as [->|Hc].
  - destruct s as [|c' s]; [done|].
    destruct (ascii_dec c' "*") as [->|Hc'].
    + by rewrite collapse_stars_star_star.
    + rewrite collapse_stars_star_other by done.
      cbn [contains]. rewrite IH, orb_false_r.
      rewrite collapse_stars_cons_other by done.
      rewrite !prefix_cons_eq.
      apply Ascii.eqb_neq in Hc'. rewrite (Ascii.eqb_sym "*" c'), Hc'.
      by rewrite andb_false_r.
  - rewrite collapse_stars_cons_other by done.
    cbn [contains]. rewrite IH, orb_false_r.
    rewrite prefix_cons_eq.
    apply Ascii.eqb_neq in Hc. by rewrite (Ascii.eqb_sym "*" c), Hc.
Qed.

Lemma ends_with_char_cons c x s :
  s ≠ "" → Py.ends_with_char c (String x s) = Py.ends_with_char c s.
Proof. by destruct s. Qed.

Lemma collapse_stars_cons_ne c s : collapse_stars (String c s) ≠ "".
Proof. intros Heq. by apply collapse_stars_nil_inv in Heq. Qed.

(** The last character is kept. *)
Lemma collapse_stars_last c s :
  Py.ends_with_char c (collapse_stars s) = Py.ends_with_char c s.
Proof.
  induction s as [|x s IH]; [done|].
  destruct s as [|c' s].
  { destruct (ascii_dec x "*") as [->|Hx]; [done|].
    by rewrite collapse_stars_cons_other. }
  rewrite (ends_with_char_cons c x (String c' s)) by done. rewrite <- IH.
  destruct (ascii_dec x "*") as [->|Hx].
  - destruct (ascii_dec c' "*") as [->|Hc'].
    + by rewrite collapse_stars_star_star.
    + rewrite collapse_stars_star_other by done.
      apply ends_with_char_cons, collapse_stars_cons_ne.
  - rewrite collapse_stars_cons_other by done.
    apply ends_with_char_cons, collapse_stars_cons_ne.
Qed.

Lemma collapse_stars_app_other a c r :
  c ≠ "*"%char →
  collapse_stars (a +:+ String c r)
  = collapse_stars a +:+ collapse_stars (String c r).
Proof.
  intros Hc. induction a as [|x a IH]; [done|].
  rewrite append_cons.
  destruct (ascii_dec x "*") as [->|Hx].
  - destruct a as [|c' a].
    + change ("" +:+ String c r) with (String c r).
      by rewrite collapse_stars_star_other.
    + rewrite append_cons in *.
      destruct (ascii_dec c' "*") as [->|Hc'].
      * rewrite !collapse_stars_star_star. exact IH.
      * rewrite !collapse_stars_star_other by done. rewrite IH. reflexivity.
  - rewrite !(collapse_stars_cons_other x) by done. rewrite IH. reflexivity.
Qed.

Lemma collapse_stars_other_app u b :
  Py.has_char "*" u = false → collapse_stars (u +:+ b) = u +:+ collapse_stars b.
Proof.
  induction u as [|c u IH]; [done|]. cbn [Py.has_char].
  intros [Hc Hu]%orb_false_iff. apply Ascii.eqb_neq in Hc.
  rewrite !append_cons, collapse_stars_cons_other by done. by rewrite IH.
Qed.


(** A piece of text without a star is still there after the collapse. *)
Lemma collapse_stars_contains u s :
  Py.has_char "*" u = false →
  contains u s = true → contains u (collapse_stars s) = true.
Proof.
  intros Hu [a [b ->]]%contains_app. apply contains_app.
  destruct u as [|c u].
  - by exists "", (collapse_stars (a +:+ b)).
  - assert (Hc : c ≠ "*"%char).
    { cbn in Hu. apply orb_false_iff in Hu as [Hc _]. by apply Ascii.eqb_neq. }
    rewrite append_cons, collapse_stars_app_other by done.
    rewrite <- append_cons, collapse_stars_other_app by done.
    eauto.
Qed.

Lemma contains_app_r u s b : contains u s = true → contains u (s +:+ b) = true.
Proof.
  intros [a [b' ->]]%contains_app. apply contains_app.
  exists a, (b' +:+ b). by rewrite !append_assoc.
Qed.

Lemma contains_app_l u a s : contains u s = true → contains u (a +:+ s) = true.
Proof.
  intros [a' [b ->]]%contains_app. apply contains_app.
  exists (a +:+ a'), b. by rewrite !append_assoc.
Qed.

Lemma contains_refl u : contains u u = true.
Proof.
  apply contains_app. exists "", "". induction u as [|c u IH]; [done|].
  change ("" +:+ String c u +:+ "") with (String c (u +:+ "")).
  f_equal. exact IH.
Qed.

End Patterns.

Section PatternTheorems.
Context `{Package}.
Import PyMore.

(** X8: the pattern [_make_unit_match_pattern] builds ends with a star and
    never has two stars in a row. *)
Theorem unit_match_pattern_shape unit_type match_ :
  Py.ends_with_char "*" (_make_unit_match_pattern unit_type match_) = true
  ∧ contains "**" (_make_unit_match_pattern unit_type match_) = false.
Proof.
  unfold _make_unit_match_pattern. split; [|apply collapse_stars_no_run].
  rewrite collapse_stars_last. by apply ends_with_char_app.
Qed.

(** X9: when the prefix of the package has no star, the pattern contains
    the prefix as a substring (not necessarily at its start); and it
    contains the dotted unit type that was asked for, when that type is not
    empty and has no star. *)
Theorem unit_match_pattern_contains unit_type match_ :
  Py.has_char "*" SYSTEMD_FILE_PREFIX = false →
  contains SYSTEMD_FILE_PREFIX (_make_unit_match_pattern unit_type match_) = true
  ∧ (∀ t, unit_type = Some t → t ≠ "" → Py.has_char "*" t = false →
       contains ("." +:+ t) (_make_unit_match_pattern unit_type match_) = true).
Proof.
  intros Hprefix. unfold _make_unit_match_pattern.
  set (p0 := default "" match_).
  set (p1 := match unit_type with
             | Some t =>
                 if Py.truthy_str unit_type && negb (endswith p0 ("." +:+ t))
                 then p0 +:+ "." +:+ t else p0
             | None => p0
             end).
  set (p2 := if contains SYSTEMD_FILE_PREFIX p1 then p1
             else "*" +:+ SYSTEMD_FILE_PREFIX +:+ "*" +:+ p1).
  split.
  - apply collapse_stars_contains; [done|]. apply contains_app_r.
    unfold p2. destruct (contains SYSTEMD_FILE_PREFIX p1) eqn:Hin; [done|].
    apply contains_app. by exists "*", ("*" +:+ p1).
  - intros t -> Ht Hstar.
    assert (H1 : contains ("." +:+ t) p1 = true).
    { unfold p1. cbn [Py.truthy_str]. rewrite bool_decide_eq_false_2 by done.
      cbn [negb andb].
      destruct (endswith p0 ("." +:+ t)) eqn:Hend; cbn [negb].
      - apply endswith_app in Hend as [a ->].
        apply contains_app_l, contains_refl.
      - apply contains_app_l, contains_refl. }
    apply collapse_stars_contains;
      [change (Py.has_char "*" (String "." t) = false); cbn; exact Hstar|].
    apply contains_app_r. unfold p2.
    destruct (contains SYSTEMD_FILE_PREFIX p1); [done|].
    rewrite <- !append_assoc. by apply contains_app_l.
Qed.

End PatternTheorems.

(** ** One call after another *)

Section Compositions.
Context `{Package} (host : Host).

Lemma lookup_write_all_same l (st st' : gmap string string) p :
  p ∈ l.*1 → write_all l st !! p = write_all l st' !! p.
Proof.
  unfold write_all. revert st st'. induction l as [|[q c] l IH]; intros st st' Hp.
  - by apply elem_of_nil in Hp.
  - cbn in *. destruct (decide (p ∈ l.*1)) as [Hin|Hnotin]; [by apply IH|].
    apply elem_of_cons in Hp as [->|?]; [|done].
    fold (write_all l (<[q := c]> st)). fold (write_all l (<[q := c]> st')).
    rewrite !lookup_write_all_notin by done. by rewrite !lookup_insert_eq.
Qed.

(** When no schedule is an empty sequence, the files written are the files
    listed. *)
Lemma synthesized_unit_files self p :
  start_schedule self ≠ Some (Many []) →
  stop_schedule self ≠ Some (Many []) →
  p ∈ (synthesized self).*1 → p ∈ unit_files self.
Proof.
  intros Hstart Hstop.
  unfold unit_files, synthesized, synthesized_timers, synthesized_services.
  rewrite service_files_paths, timer_files_paths.
  rewrite !fmap_app, !elem_of_app. cbn [fmap list_fmap fst].
  assert (Ht : ∀ x : option (OneOrMany Schedule),
             x ≠ Some (Many []) → truthy x = bool_decide (is_Some x)).
  { intros [[?|[|??]]|] Hx; try done. }
  rewrite (Ht _ Hstart), (Ht _ Hstop).
  destruct (start_schedule self), (stop_schedule self); cbn;
    rewrite ?elem_of_cons, ?elem_of_nil; tauto.
Qed.

(** X10: [remove] goes through at most once.  After a run of [remove] that
    returns, the service file is gone, so a second [remove] ends in an
    exception and leaves the directory as the first one left it. *)
Theorem remove_is_not_repeatable self w st evs :
  runs (remove host self) w (Return tt) st evs →
  ∃ e evs', runs (remove host self) (mkWorld st (trace w ++ evs)) (Raise e) st evs'.
Proof.
  unfold remove. intros Hrun.
  destruct (remove_returns host _ _ _ _ _ Hrun) as (_ & _ & Hst & _).
  set (w' := mkWorld st (trace w ++ evs)).
  destruct (remove_service_runs host (service_files self) (timer_files self) w')
    as (r & st' & evs' & Hrun' & _ & _ & _ & _ & _ & Hmissing).
  destruct (Hmissing _ _ (service_files_paths self)) as ([e ->] & ->).
  - cbn [store w']. rewrite Hst, decide_True; [done|].
    rewrite service_files_paths. apply elem_of_app. left. apply elem_of_cons. auto.
  - by exists e, evs'.
Qed.

(** X11: [remove] undoes [create].  When no schedule of the service is an
    empty sequence, a [create] that returns followed by a [remove] that
    returns leaves none of the unit files of the service and every other
    file as it was before the [create]. *)
Theorem remove_undoes_create self defer_reload w st1 evs1 st2 evs2 :
  start_schedule self ≠ Some (Many []) →
  stop_schedule self ≠ Some (Many []) →
  runs (create host self defer_reload) w (Return tt) st1 evs1 →
  runs (remove host self) (mkWorld st1 (trace w ++ evs1)) (Return tt) st2 evs2 →
  ∀ p, st2 !! p = if decide (p ∈ unit_files self) then None else store w !! p.
Proof.
  intros Hstart Hstop Hcreate Hremove p.
  destruct (create_returns host _ _ _ _ _ Hcreate) as (-> & _).
  unfold remove in Hremove.
  destruct (remove_returns host _ _ _ _ _ Hremove) as (_ & _ & Hst & _).
  fold (unit_files self) in Hst. cbn [store] in Hst. rewrite Hst.
  destruct (decide (p ∈ unit_files self)) as [Hin|Hnotin]; [done|].
  rewrite lookup_write_all_notin, lookup_without.
  - by rewrite decide_False.
  - intros Hin. by apply Hnotin, synthesized_unit_files.
Qed.

(** The paths [create] writes at depend on the name and the schedules of
    the service only. *)
Lemma synthesized_paths_same self self' :
  name self' = name self →
  start_schedule self' = start_schedule self →
  stop_schedule self' = stop_schedule self →
  (synthesized self').*1 = (synthesized self).*1
  ∧ unit_files self' = unit_files self.
Proof.
  intros Hname Hstart Hstop.
  unfold unit_files, service_files, timer_files, synthesized, synthesized_timers,
    synthesized_services, unit_path, base_file_stem.
  rewrite Hname, Hstart, Hstop. split; [|done].
  rewrite !fmap_app.
  destruct (start_schedule self), (stop_schedule self) as [[?|l]|];
    cbn [truthy]; try destruct (negb _); done.
Qed.

(** X12: deploying again rewrites the same files.  Take a [create] that
    returns, run on the directory that a [create] of a service with the
    same name and schedules left (the other fields, and the text written,
    may differ: the text of a unit file lists sets in the order the
    interpreter iterates them, which is not the same in every process).
    Then files are at the same paths as before, every file that [create]
    does not write is as it was, each file it writes holds what the second
    run wrote, and when both runs write the same text the directory is
    exactly as the first run left it. *)
Theorem create_again_rewrites_the_same_paths self self' d1 d2 w st1 evs1 st2 evs2 :
  name self' = name self →
  start_schedule self' = start_schedule self →
  stop_schedule self' = stop_schedule self →
  runs (create host self d1) w (Return tt) st1 evs1 →
  runs (create host self' d2) (mkWorld st1 (trace w ++ evs1)) (Return tt) st2 evs2 →
  dom st2 = dom st1
  ∧ (∀ p, p ∉ (synthesized self).*1 → st2 !! p = st1 !! p)
  ∧ (∀ p, p ∈ (synthesized self).*1 →
       st2 !! p = write_all (synthesized self') ∅ !! p)
  ∧ (synthesized self' = synthesized self → st2 = st1).
Proof.
  intros Hname Hstart Hstop H1 H2.
  destruct (synthesized_paths_same _ _ Hname Hstart Hstop) as [Hpaths Hfiles].
  destruct (create_returns host _ _ _ _ _ H1) as (-> & _).
  destruct (create_returns host _ _ _ _ _ H2) as (-> & _).
  cbn [store]. rewrite Hfiles.
  set (st0 := without (unit_files self) (store w)).
  assert (Hout : ∀ p, p ∉ (synthesized self).*1 →
            write_all (synthesized self')
              (without (unit_files self) (write_all (synthesized self) st0)) !! p
            = write_all (synthesized self) st0 !! p).
  { intros p Hnotin.
    rewrite !lookup_write_all_notin by (by rewrite ?Hpaths).
    rewrite lookup_without.
    destruct (decide (p ∈ unit_files self)) as [Hin|?].
    - unfold st0. by rewrite lookup_without, decide_True.
    - by rewrite lookup_write_all_notin. }
  assert (Hin : ∀ p st, p ∈ (synthesized self).*1 →
            is_Some (write_all (synthesized self) st !! p)
            ∧ is_Some (write_all (synthesized self') st !! p)).
  { intros p st Hp. split; apply lookup_write_all_in; by rewrite ?Hpaths. }
  split; [|split; [|split]].
  - apply set_eq. intros p. rewrite !elem_of_dom.
    destruct (decide (p ∈ (synthesized self).*1)) as [Hp|Hp].
    + split; intros _; by apply Hin.
    + by rewrite Hout.
  - exact Hout.
  - intros p Hp. apply lookup_write_all_same. by rewrite Hpaths.
  - intros Hsame. apply map_eq. intros p.
    destruct (decide (p ∈ (synthesized self).*1)) as [Hp|Hp]; [|by apply Hout].
    rewrite Hsame. by apply lookup_write_all_same.
Qed.

End Compositions.

(** ** More on the schedule of a unit *)

Section MoreTimestamps.
Import ScheduleInfo.

(** From the year 10000 on. *)
Lemma civil_year_late (days : Z) :
  3335000 <= days <= 2 ^ 28 →
  10000 <= (civil_from_days days).1.1 <= 1000000.
Proof.
  intros Hdays. split; [|apply civil_year_bounds; lia].
  unfold civil_from_days. cbn zeta.
  change (2 ^ 28) with 268435456 in Hdays.
  set (z := days + 719468).
  set (era := z / 146097).
  set (doe := z - era * 146097).
  set (yoe := (doe - doe / 1460 + doe / 36524 - doe / 146096) / 365).
  assert (Hera : 27 <= era).
  { unfold era, z. Z.to_euclidean_division_equations. lia. }
  assert (Hdoe : 0 <= doe <= 146096).
  { unfold doe, era. Z.to_euclidean_division_equations. lia. }
  assert (Hyoe : -1 <= yoe).
  { unfold yoe. Z.to_euclidean_division_equations. lia. }
  destruct (_ <? 10); destruct (_ <=? 2); cbn [fst]; lia.
Qed.

(** X13: what lies beyond the years of [datetime] is unknown.  A timestamp
    from [2^58] microseconds on, the largest 64-bit value with which the
    manager says "never" among them, is decoded to [None] in every time
    zone: the [ValueError] of [fromtimestamp] is caught. *)
Theorem far_future_timestamp_is_unknown (utcoffset : Z → Z) (timestamp : Z) :
  within_a_day utcoffset →
  2 ^ 58 <= timestamp < 2 ^ 64 →
  timestamp_to_dt utcoffset timestamp = inr None.
Proof.
  intros Hoff Hts. unfold timestamp_to_dt, fromtimestamp. cbn zeta.
  change (2 ^ 64) with 18446744073709551616 in Hts.
  change (2 ^ 58) with 288230376151711744 in Hts.
  set (secs := timestamp / 1000000).
  assert (Hsecs : 288230376151 <= secs < 18446744073710).
  { unfold secs. Z.to_euclidean_division_equations. lia. }
  pose proof (Hoff secs) as Hoff'.
  assert (Hrange : (- 2 ^ 63 <=? secs) && (secs <? 2 ^ 63) = true).
  { change (2 ^ 63) with 9223372036854775808.
    apply andb_true_intro. split; [apply Z.leb_le | apply Z.ltb_lt]; lia. }
  rewrite Hrange. cbn [negb].
  set (days := (secs + utcoffset secs) / 86400).
  assert (Hdays : 3335000 <= days <= 2 ^ 28).
  { change (2 ^ 28) with 268435456. unfold days.
    Z.to_euclidean_division_equations. lia. }
  pose proof (civil_year_late days Hdays) as Hyear.
  destruct (civil_from_days days) as [[y m] d]. cbn [fst] in Hyear.
  assert (Hint : (- 2 ^ 31 <=? y - 1900) && (y - 1900 <? 2 ^ 31) = true).
  { change (2 ^ 31) with 2147483648 in *.
    apply andb_true_intro. split; [apply Z.leb_le | apply Z.ltb_lt]; lia. }
  rewrite Hint. cbn [negb].
  assert (Hyr : (1 <=? y) && (y <=? 9999) = false).
  { apply andb_false_intro2. apply Z.leb_gt. lia. }
  by rewrite Hyr.
Qed.

Lemma decode_timers_returns {A} utcoffset (timers : list (string * A * Z)) :
  within_a_day utcoffset →
  Forall (λ t, uint64 t.2) timers →
  ∃ l, decode_timers utcoffset timers = inr l ∧ l.*1 = timers.*1.
Proof.
  intros Hoff. induction 1 as [|[[base x] ts] timers Hts _ IH].
  - by exists [].
  - destruct IH as (l & Hl & Heq).
    destruct (timestamp_to_dt_returns utcoffset ts Hts Hoff) as [dt Hdt].
    exists ((base, x, dt) :: l). cbn. rewrite Hdt. cbn. rewrite Hl. cbn.
    by rewrite Heq.
Qed.

(** X14: [get_schedule_info] returns.  The timestamps being unsigned 64-bit
    integers and local time within a day of UTC, no timestamp makes it
    raise; the timers it reports are those of the manager, in their order,
    each with its base and its specification (or offset). *)
Theorem get_schedule_info_returns prefix utcoffset bus unit :
  within_a_day utcoffset →
  uint64_props bus →
  ∃ info,
    get_schedule_info prefix utcoffset bus unit = inr info
    ∧ (Timers_Calendar info).*1
      = (TimersCalendar (timer_props bus (unit_stem prefix unit +:+ ".timer"))).*1
    ∧ (Timers_Monotonic info).*1
      = (TimersMonotonic (timer_props bus (unit_stem prefix unit +:+ ".timer"))).*1.
Proof.
  intros Hoff Hbus. unfold get_schedule_info. cbn zeta.
  set (stem := unit_stem prefix unit).
  destruct (Hbus (stem +:+ ".service")) as (Henter & Hexit & _).
  destruct (Hbus (stem +:+ ".timer")) as (_ & _ & Hnext & Hcal & Hmono).
  destruct (timestamp_to_dt_returns utcoffset _ Henter Hoff) as [d1 ->].
  destruct (timestamp_to_dt_returns utcoffset _ Hexit Hoff) as [d2 ->].
  destruct (timestamp_to_dt_returns utcoffset _ Hnext Hoff) as [d3 ->].
  destruct (decode_timers_returns utcoffset _ Hoff Hcal) as (lc & -> & Hlc).
  destruct (decode_timers_returns utcoffset _ Hoff Hmono) as (lm & -> & Hlm).
  cbn. eexists. split; [reflexivity|]. by cbn.
Qed.

(** The order of naive datetimes. *)
Lemma lex_ltb_trans a b c :
  lex_ltb a b = true → lex_ltb b c = true → lex_ltb a c = true.
Proof.
  revert b c. induction a as [|x a IH]; intros [|y b] [|z c]; cbn; try done.
  rewrite !orb_true_iff, !andb_true_iff, !Z.ltb_lt, !Z.eqb_eq.
  intros [?|[-> ?]] [?|[-> ?]]; eauto with lia.
Qed.

Lemma lex_ltb_irrefl a : lex_ltb a a = false.
Proof.
  induction a as [|x a IH]; [done|]. cbn.
  by rewrite Z.ltb_irrefl, Z.eqb_refl, IH.
Qed.

Lemma lex_ltb_before a b c :
  length a = length b → length b = length c →
  lex_ltb a c = true → lex_ltb b c = false → lex_ltb a b = true.
Proof.
  revert b c. induction a as [|x a IH]; intros [|y b] [|z c]; cbn; try done.
  intros [= Hab] [= Hbc].
  rewrite !orb_false_iff, !orb_true_iff, !andb_false_iff, !andb_true_iff,
    !Z.ltb_ge, !Z.ltb_lt, !Z.eqb_eq, !Z.eqb_neq.
  intros [?|[-> Hac]] [? Hbc']; [lia|].
  destruct Hbc' as [?|Hbc']; [lia|].
  destruct (decide (z = y)) as [->|]; [|lia]. right. split; [done|]. eauto.
Qed.

(** [min]: an element of the list, and none is earlier. *)
Lemma dt_min_spec d l :
  dt_min d l ∈ d :: l ∧ ∀ x, x ∈ d :: l → dt_ltb x (dt_min d l) = false.
Proof.
  unfold dt_min. revert d. induction l as [|y l IH]; intros d.
  - cbn [fold_left]. split; [apply elem_of_cons; auto|].
    intros x ->%list_elem_of_singleton. apply lex_ltb_irrefl.
  - cbn [fold_left].
    destruct (IH (if dt_ltb y d then y else d)) as [Hin Hmin].
    set (m := fold_left _ _ _) in *.
    split.
    + apply elem_of_cons in Hin as [Heq|Hin].
      * rewrite Heq. destruct (dt_ltb y d); rewrite !elem_of_cons; auto.
      * rewrite !elem_of_cons. auto.
    + intros x Hx.
      destruct (decide (x ∈ l)) as [Hl|Hl]; [apply Hmin, elem_of_cons; auto|].
      assert (Hm := Hmin _ (proj2 (elem_of_cons _ _ _) (or_introl eq_refl))).
      apply elem_of_cons in Hx as [->|Hx];
        [|apply elem_of_cons in Hx as [->|?]; [|done]].
      * destruct (dt_ltb y d) eqn:Hyd; [|done].
        destruct (dt_ltb d m) eqn:Hd; [|done].
        unfold dt_ltb in *. by rewrite (lex_ltb_trans _ _ _ Hyd Hd) in Hm.
      * destruct (dt_ltb y d) eqn:Hyd; [done|].
        destruct (dt_ltb y m) eqn:Hy; [|done].
        unfold dt_ltb in *.
        by rewrite (lex_ltb_before (fields y) (fields d) (fields m) eq_refl eq_refl Hy Hm) in Hyd.
Qed.

(** X15: "Next Start".  When the manager reports a next elapse of the
    timer unit that decodes to a date, that date is "Next Start".  When it
    decodes to [None], "Next Start" is the earliest of the dates of the
    calendar timers: one of them, with none of them before it; it is
    [None] only when no calendar timer has a date. *)
Theorem next_start_falls_back_to_the_earliest_timer
    prefix utcoffset bus unit info :
  get_schedule_info prefix utcoffset bus unit = inr info →
  let reported :=
    timestamp_to_dt utcoffset
      (NextElapseUSecRealtime (timer_props bus (unit_stem prefix unit +:+ ".timer"))) in
  let known := omap snd (Timers_Calendar info) in
  (∀ d, reported = inr (Some d) → Next_Start info = Some d)
  ∧ (reported = inr None →
     match Next_Start info with
     | Some d => d ∈ known ∧ ∀ d', d' ∈ known → dt_ltb d' d = false
     | None => known = []
     end).
Proof.
  unfold get_schedule_info. cbn zeta.
  set (stem := unit_stem prefix unit).
  destruct (timestamp_to_dt utcoffset (ActiveEnterTimestamp _)) as [?|d1]; [done|].
  destruct (timestamp_to_dt utcoffset (ActiveExitTimestamp _)) as [?|d2]; [done|].
  destruct (timestamp_to_dt utcoffset (NextElapseUSecRealtime _)) as [?|d3]; [done|].
  destruct (decode_timers utcoffset (TimersCalendar _)) as [?|lc]; [done|].
  destruct (decode_timers utcoffset (TimersMonotonic _)) as [?|lm]; [done|].
  cbn. intros [= <-]. cbn. split.
  - intros d [= ->]. done.
  - intros [= ->]. destruct (omap snd lc) as [|d ds]; [done|].
    apply dt_min_spec.
Qed.

(** [unit.replace(".service", "")] and [unit.replace(".timer", "")] on a
    text that begins with characters other than the dot. *)
Lemma replace_app_no_dot ext new (n s : string) :
  Py.has_char "." n = false →
  Py.replace (String "." ext) new (n +:+ s) = n +:+ Py.replace (String "." ext) new s.
Proof.
  unfold Py.replace. induction n as [|c n IH]; [done|].
  cbn [Py.has_char]. intros [Hc Hn]%orb_false_iff.
  rewrite !append_cons. cbn [Py.replace_go].
  rewrite prefix_cons_eq.
  rewrite Ascii.eqb_sym, Hc. cbn [andb]. by rewrite IH.
Qed.

Lemma startswith_app (p s : string) : Py.startswith (p +:+ s) p = true.
Proof. unfold Py.startswith. apply prefix_app. by exists s. Qed.

Lemma append_empty_r (s : string) : s +:+ "" = s.
Proof. induction s as [|c s IH]; [done|]. by rewrite append_cons, IH. Qed.

Lemma replaces_no_dot (n suffix : string) :
  Py.has_char "." n = false →
  Py.replace ".timer" "" (Py.replace ".service" "" (n +:+ suffix))
  = n +:+ Py.replace ".timer" "" (Py.replace ".service" "" suffix).
Proof. intros Hn. by rewrite !replace_app_no_dot. Qed.

(** X16: the spellings of a unit.  For a name without a dot,
    [get_schedule_info] looks up the same two units whether it is given the
    name, the name with [.service] or the name with [.timer]; the stem it
    uses always carries the prefix of the package, and a name that carries
    it already is used as it is. *)
Theorem unit_stem_spellings prefix (n : string) :
  Py.has_char "." n = false →
  unit_stem prefix (n +:+ ".service") = unit_stem prefix n
  ∧ unit_stem prefix (n +:+ ".timer") = unit_stem prefix n
  ∧ Py.startswith (unit_stem prefix n) prefix = true
  ∧ (Py.startswith n prefix = true → unit_stem prefix n = n)
  ∧ ∀ utcoffset bus,
      get_schedule_info prefix utcoffset bus (n +:+ ".service")
      = get_schedule_info prefix utcoffset bus n
      ∧ get_schedule_info prefix utcoffset bus (n +:+ ".timer")
        = get_schedule_info prefix utcoffset bus n.
Proof.
  intros Hn.
  assert (Hplain : Py.replace ".timer" "" (Py.replace ".service" "" n) = n).
  { rewrite <- (append_empty_r n) at 1. rewrite replaces_no_dot by done.
    apply append_empty_r. }
  assert (Hservice : unit_stem prefix (n +:+ ".service") = unit_stem prefix n).
  { unfold unit_stem. rewrite replaces_no_dot, Hplain by done.
    change (Py.replace ".timer" "" (Py.replace ".service" "" ".service")) with "".
    by rewrite append_empty_r. }
  assert (Htimer : unit_stem prefix (n +:+ ".timer") = unit_stem prefix n).
  { unfold unit_stem. rewrite replaces_no_dot, Hplain by done.
    change (Py.replace ".timer" "" (Py.replace ".service" "" ".timer")) with "".
    by rewrite append_empty_r. }
  split; [done|]. split; [done|]. split; [|split].
  - unfold unit_stem. rewrite Hplain.
    destruct (Py.startswith n prefix) eqn:Hp; [done | apply startswith_app].
  - intros Hp. unfold unit_stem. by rewrite Hplain, Hp.
  - intros utcoffset bus. unfold get_schedule_info.
    by rewrite Hservice, Htimer.
Qed.

End MoreTimestamps.

(** ** The text of the units *)

Section UnitText.
Context `{Package}.

Lemma elem_of_add_if cond line entries x :
  x ∈ add_if cond line entries ↔ x ∈ entries ∨ (cond = true ∧ x = line).
Proof.
  unfold add_if. destruct cond.
  - rewrite elem_of_union, elem_of_singleton. intuition.
  - intuition. discriminate.
Qed.



Lemma service_line_in_text self line :
  line ∈ service_section self →
  ∃ before between after,
    primary_content self
    = Py.join nl (before ++ "[Service]" :: between ++ line
                  :: after ++ ["[Install]"; "WantedBy=default.target"]).
Proof.
  intros Hin. unfold primary_content.
  apply elem_of_iter_set, list_elem_of_split in Hin as (between & after & ->).
  eexists _, between, after. by rewrite <- app_assoc.
Qed.



(** X18: one [ExecStart].  The set [service] always holds the line
    [ExecStart=<start_command>], it stands between the headers [[Service]]
    and [[Install]] of the text of the primary unit, and the set holds no
    other line that begins with [ExecStart=], whatever the other fields. *)
Theorem one_exec_start_line self :
  (∃ before between after,
     primary_content self
     = Py.join nl (before ++ "[Service]" :: between
                   ++ ("ExecStart=" +:+ start_command self)
                   :: after ++ ["[Install]"; "WantedBy=default.target"]))
  ∧ ∀ line, line ∈ service_section self →
            Py.startswith line "ExecStart=" = true →
            line = "ExecStart=" +:+ start_command self.
Proof.
  split.
  - apply service_line_in_text. unfold service_section. cbn zeta.
    destruct (resolved_restart_policy self); rewrite ?elem_of_union; [left|].
    all: destruct (timeout self), (env self); rewrite !elem_of_add_if.
    all: repeat left; apply elem_of_union; left; by apply elem_of_singleton.
  - intros line. unfold service_section. cbn zeta.
    assert (Hrestart : ∀ p, line ∈ Restart.service_entries p →
                            Py.startswith line "ExecStart=" = false).
    { intros [k|k d|k n period];
        unfold Restart.service_entries, Restart.base_service_entries;
        rewrite ?elem_of_union, !elem_of_singleton; intros Hl;
        repeat destruct Hl as [Hl|Hl]; by subst line. }
    intros Hin Hstart.
    assert (Hbase : line ∈ ({[ "ExecStart=" +:+ start_command self;
                               "KillSignal=" +:+ kill_signal self ]} : gset string)
                    → line = "ExecStart=" +:+ start_command self).
    { rewrite elem_of_union, !elem_of_singleton. intros [?|Hl]; [done|].
      by rewrite Hl in Hstart. }
    destruct (resolved_restart_policy self).
    { apply elem_of_union in Hin as [Hin|Hin];
        [|by rewrite (Hrestart _ Hin) in Hstart].
      destruct (timeout self), (env self); rewrite !elem_of_add_if in Hin.
      all: repeat destruct Hin as [Hin|[_ Hin]]; auto.
      all: by rewrite Hin in Hstart. }
    destruct (timeout self), (env self); rewrite !elem_of_add_if in Hin.
    all: repeat destruct Hin as [Hin|[_ Hin]]; auto.
    all: by rewrite Hin in Hstart.
Qed.

Lemma basename_app_no_slash (s ext : string) :
  Py.has_char "/" ext = false → Py.basename (s +:+ ext) = Py.basename s +:+ ext.
Proof.
  intros Hext. induction s as [|c s IH].
  - by apply basename_no_slash.
  - rewrite append_cons. cbn [Py.basename].
    rewrite <- append_cons, has_char_app, Hext, orb_false_r.
    destruct (Py.has_char "/" (String c s)); [done|]. by rewrite append_cons.
Qed.

(** X19: each timer has its service.  For every file of [timer_files]
    there is a file of [service_files] with the same unit name up to the
    suffix, [<u>.timer] and [<u>.service]: the unit a timer without a
    [Unit=] line activates is one this service lists. *)
Theorem each_timer_has_its_service self t :
  t ∈ timer_files self →
  ∃ s u,
    s ∈ service_files self
    ∧ Py.basename t = u +:+ ".timer"
    ∧ Py.basename s = u +:+ ".service".
Proof.
  rewrite timer_files_paths, service_files_paths, elem_of_app.
  assert (Hname : ∀ b,
    ∃ u, Py.basename (unit_path self "timer" b) = u +:+ ".timer"
         ∧ Py.basename (unit_path self "service" b) = u +:+ ".service").
  { intros b. unfold unit_path. rewrite !basename_path_join.
    rewrite !basename_app_no_slash by done. eauto. }
  intros [Ht|Ht].
  - destruct (truthy (start_schedule self)); [|by apply elem_of_nil in Ht].
    apply list_elem_of_singleton in Ht as ->.
    destruct (Hname false) as (u & ? & ?).
    exists (unit_path self "service" false), u.
    split; [apply elem_of_cons; auto | done].
  - destruct (truthy (stop_schedule self)); [|by apply elem_of_nil in Ht].
    apply list_elem_of_singleton in Ht as ->.
    destruct (Hname true) as (u & ? & ?).
    exists (unit_path self "service" true), u.
    split; [rewrite !elem_of_cons; auto | done].
Qed.

End UnitText.

(** ** The container a unit names *)

Section ContainerNames.
Import PyMore.

Lemma match_docker_at_here verb c rest b :
  verb = "start" ∨ verb = "stop" →
  Py.is_name_char c = true →
  is_Some (Py.match_docker_at (("docker " +:+ verb +:+ " " +:+ String c rest) +:+ b)).
Proof.
  intros Hverb Hc. unfold Py.match_docker_at.
  rewrite !append_assoc, strip_prefix_app. cbn [mbind option_bind].
  assert (match Py.strip_prefix "start" (verb +:+ " " +:+ String c rest +:+ b) with
          | Some r' => Some r'
          | None => Py.strip_prefix "stop" (verb +:+ " " +:+ String c rest +:+ b)
          end = Some (" " +:+ String c rest +:+ b)) as ->.
  { destruct Hverb as [-> | ->]; [by rewrite strip_prefix_app|].
    change (Py.strip_prefix "start" ("stop" +:+ " " +:+ String c rest +:+ b))
      with (@None string).
    by rewrite strip_prefix_app. }
  cbn [mbind option_bind]. rewrite strip_prefix_app. cbn [mbind option_bind].
  rewrite append_cons. cbn [Py.take_name]. rewrite Hc.
  rewrite bool_decide_eq_false_2 by done. by eexists.
Qed.

(** X20: the container a unit names, for a unit file in ASCII (where the
    class [\w] of the pattern is letters, digits and the underscore).  The
    name [_remove_service] finds in a text is the first reference of the
    text to a container: it is not empty, is made of letters, digits,
    underscores and hyphens, and stands in the text behind [docker start ]
    or [docker stop ]; and a text that holds one of these two commands
    followed by such a character always yields a name. *)
Theorem search_docker_finds_what_the_unit_names (s : string) :
  isascii s = true →
  (∀ n, Py.search_docker s = Some n →
        container_name n
        ∧ (in_text ("docker start " +:+ n) s ∨ in_text ("docker stop " +:+ n) s)
        ∧ first_reference s n)
  ∧ (∀ verb c rest,
       verb = "start" ∨ verb = "stop" →
       name_char c →
       in_text ("docker " +:+ verb +:+ " " +:+ String c rest) s →
       is_Some (Py.search_docker s)).
Proof.
  intros _. split.
  - intros n Hfound. apply search_docker_first_reference in Hfound as Hfirst.
    destruct Hfirst as (before & (verb & after & Hverb & Hs & Hname & _) & _).
    split; [done|]. split; [|by apply search_docker_first_reference].
    destruct Hverb as [-> | ->]; [left|right];
      exists before, after; rewrite Hs; by rewrite !append_assoc.
  - intros verb c rest Hverb Hc%name_char_iff (a & b & ->).
    induction a as [|x a IH].
    + rewrite append_nil_l.
      destruct (match_docker_at_here verb c rest b Hverb Hc) as [n Hn].
      destruct ((_ +:+ _) +:+ b) eqn:Heq; cbn [Py.search_docker];
        rewrite Hn; by eexists.
    + rewrite append_cons. cbn [Py.search_docker].
      destruct (Py.match_docker_at _); [by eexists | exact IH].
Qed.

End ContainerNames.

(** ** The unit files the manager lists *)

Section Dictionaries.
Import PyMore.
Context {V : Type}.
Implicit Types (d pairs : list (string * V)).






End Dictionaries.

Section QueryTheorems.
Import PyMore.
Context `{Package} (mgr_lists : Listings).


End QueryTheorems.

(** ** What the lifecycle calls leave alone *)

Section Quiet.
Context `{Package} (host : Host).

Lemma talk_start_service files : emits talk_event (_start_service host files).
Proof.
  apply emits_for_each. intros sf. unfold start_one.
  destruct (Py.match_stop_service _); [apply emits_ret|].
  apply emits_bind; [by apply emits_emit|]. intros _. by apply emits_mgr.
Qed.

Lemma talk_stop_service files : emits talk_event (_stop_service host files).
Proof.
  apply emits_for_each. intros sf. unfold stop_one.
  apply emits_bind; [by apply emits_emit|]. intros _.
  apply emits_try_dbus; [by apply emits_mgr|]. intros err. by apply emits_emit.
Qed.

Lemma talk_restart_service files : emits talk_event (_restart_service host files).
Proof.
  apply emits_for_each. intros sf.
  apply emits_bind; [by apply emits_emit|]. intros _. by apply emits_mgr.
Qed.

Lemma talk_disable_service files : emits talk_event (_disable_service host files).
Proof.
  unfold _disable_service.
  apply emits_bind; [by apply emits_emit|]. intros _.
  apply emits_bind; [by apply emits_mgr_disable|]. intros changes.
  apply emits_for_each. intros [[kind link] dest]. by apply emits_emit.
Qed.

(** X22: what the lifecycle calls leave alone.  [start], [stop], [restart],
    [enable] and [disable] end from every state, only log and call the
    manager, and leave the unit directory as it is, whatever the manager
    answers: no file is read, written or deleted and no container is
    deleted; [stop] always returns. *)
Theorem lifecycle_calls_leave_the_files self w :
  (∃ r evs, runs (start host self) w r (store w) evs ∧ Forall talk_event evs)
  ∧ (∃ evs, runs (stop host self) w (Return tt) (store w) evs
            ∧ Forall talk_event evs)
  ∧ (∃ r evs, runs (restart host self) w r (store w) evs ∧ Forall talk_event evs)
  ∧ (∃ r evs, runs (enable host self) w r (store w) evs ∧ Forall talk_event evs)
  ∧ (∃ r evs, runs (disable host self) w r (store w) evs ∧ Forall talk_event evs).
Proof.
  unfold start, stop, restart, enable, disable.
  split; [|split; [|split; [|split]]].
  - destruct (talk_start_service (unit_files self) w) as (r & st & evs & Hrun & HP).
    destruct (start_service_runs host (unit_files self) w) as (r' & evs' & Hrun' & _).
    destruct (runs_inj _ _ _ _ _ _ _ _ Hrun Hrun') as (_ & -> & _). eauto.
  - destruct (talk_stop_service (unit_files self) w) as (r & st & evs & Hrun & HP).
    destruct (stop_service_runs host (unit_files self) w) as (evs' & Hrun' & _).
    destruct (runs_inj _ _ _ _ _ _ _ _ Hrun Hrun') as (-> & -> & _). eauto.
  - destruct (talk_restart_service (service_files self) w)
      as (r & st & evs & Hrun & HP).
    destruct (restart_service_runs host (service_files self) w)
      as (r' & evs' & Hrun' & _).
    destruct (runs_inj _ _ _ _ _ _ _ _ Hrun Hrun') as (_ & -> & _). eauto.
  - destruct (enable_service_runs host (unit_files self) w) as [raised Hrun].
    eexists _, _. split; [exact Hrun|]. by repeat constructor.
  - destruct (talk_disable_service (unit_files self) w) as (r & st & evs & Hrun & HP).
    destruct (disable_service_runs host (unit_files self) w)
      as (raised & evs' & Hrun' & _).
    destruct (runs_inj _ _ _ _ _ _ _ _ Hrun Hrun') as (_ & -> & _). eauto.
Qed.

End Quiet.

(** ** The timers *)

Section Timers.
Context `{Package} (host : Host).

(** X24: the timers hold every schedule.  After a [create] that returns,
    the timer file of a schedule that is set holds the text made for it,
    and in that text every entry of every schedule of the sequence stands
    between the headers [[Timer]] and [[Install]]. *)
Theorem timers_hold_every_schedule self defer_reload w st evs is_stop schedule :
  runs (create host self defer_reload) w (Return tt) st evs →
  (if is_stop : bool then stop_schedule self else start_schedule self)
  = Some schedule →
  st !! unit_path self "timer" is_stop = Some (timer_content self is_stop schedule)
  ∧ ∀ sched line,
      sched ∈ to_list schedule → line ∈ schedule_unit_entries sched →
      ∃ before after,
        timer_content self is_stop schedule
        = Py.join nl
            ("[Unit]"
             :: ("Description=" +:+ (if is_stop then "stop " else "")
                 +:+ "timer for " +:+ name self)
             :: "[Timer]" :: before ++ line
             :: after ++ ["[Install]"; "WantedBy=timers.target"]).
Proof.
  intros Hrun Hsched.
  destruct (create_returns host _ _ _ _ _ Hrun) as (-> & _). split.
  - unfold synthesized, synthesized_timers.
    assert (Hservices : ∀ b, unit_path self "timer" b
                             ∉ (synthesized_services self).*1).
    { intros b. unfold synthesized_services. cbn [fmap list_fmap fst].
      destruct (truthy (stop_schedule self)); cbn [fmap list_fmap fst];
        rewrite !elem_of_cons, elem_of_nil;
        intros Hin; repeat destruct Hin as [Hin|Hin]; try done;
        by apply unit_path_timer_service_ne in Hin. }
    destruct is_stop.
    + rewrite Hsched, <- app_assoc. cbn [app].
      apply lookup_write_all_last. apply Hservices.
    + rewrite Hsched. cbn [app].
      apply (lookup_write_all_last []).
      rewrite fmap_app, elem_of_app. intros [Hin|Hin]; [|by apply Hservices in Hin].
      destruct (stop_schedule self); cbn in Hin;
        [|by apply elem_of_nil in Hin].
      apply list_elem_of_singleton in Hin.
      symmetry in Hin. by apply unit_path_timer_stop_ne in Hin.
  - intros sched line Hs Hl.
    assert (Hin : line ∈ iter_set (timer_entries schedule)).
    { apply elem_of_iter_set. unfold timer_entries.
      apply elem_of_union_list. exists (schedule_unit_entries sched).
      split; [|done]. apply list_elem_of_fmap. by exists sched. }
    apply list_elem_of_split in Hin as (before & after & Heq).
    exists before, after. unfold timer_content. rewrite Heq.
    by rewrite <- app_assoc.
Qed.

End Timers.

(** ** A removal that stops half-way *)

Section HalfWay.
Context `{Package} (host : Host).

Lemma elem_of_unlinks t evs : Unlink t ∈ evs ↔ t ∈ unlinks evs.
Proof.
  unfold unlinks. rewrite list_elem_of_omap. split.
  - intros Hin. by exists (Unlink t).
  - intros (e & Hin & He). destruct e; try done. by injection He as ->.
Qed.

(** The last loop of [_remove_service], whatever its outcome: the files
    listed before the one it fails on are deleted. *)
Lemma unlink_loop_parts (files : list string) w :
  ∃ r st evs deleted,
    runs (for_each files unlink_one) w r st evs
    ∧ st = without deleted (store w)
    ∧ Forall (λ f, is_Some (store w !! f)) deleted
    ∧ ((r = Return tt ∧ deleted = files ∧ unlinks evs = files)
       ∨ ∃ t rest,
           files = deleted ++ t :: rest
           ∧ r = Raise (FileNotFoundError t)
           ∧ unlinks evs = deleted ++ [t]).
Proof.
  revert w. induction files as [|f files IH]; intros w.
  - exists (Return tt), (store w), [], []. split; [apply runs_ret|].
    split; [done|]. split; [done|]. by left.
  - cbn [for_each]. pose proof (unlink_one_runs f w) as Hone.
    destruct (store w !! f) as [text|] eqn:Hf.
    + destruct (IH (mkWorld (delete f (store w))
                      (trace w ++ [Log INFO "Deleting %s" [f]; Unlink f])))
        as (r & st & evs & deleted & Hrest & Hst & Hall & Hcase).
      cbn [store] in Hst, Hall.
      exists r, st, ([Log INFO "Deleting %s" [f]; Unlink f] ++ evs), (f :: deleted).
      split; [eapply runs_bind_return; [apply Hone | apply Hrest]|].
      split; [done|]. split.
      { constructor; [by eexists|].
        eapply Forall_impl; [apply Hall|]. intros f' [v Hv].
        exists v. by apply lookup_delete_Some in Hv as [_ ?]. }
      destruct Hcase as [(-> & -> & Hu)|(t & rest & -> & -> & Hu)].
      * left. split; [done|]. split; [done|]. unfold unlinks in *. cbn.
        by rewrite Hu.
      * right. exists t, rest. split; [done|]. split; [done|].
        unfold unlinks in *. cbn. by rewrite Hu.
    + exists (Raise (FileNotFoundError f)), (store w),
        [Log INFO "Deleting %s" [f]; Unlink f], [].
      split; [by apply runs_bind_raise|]. split; [done|]. split; [done|].
      right. by exists f, files.
Qed.

(** A run of [_remove_service] either ends before its last loop, with
    every file in its place, or ends with the run of that loop. *)
Lemma remove_service_ends sfs tfs w :
  ∃ r st e1 e3,
    runs (_remove_service host sfs tfs) w r st (e1 ++ e3)
    ∧ unlinks e1 = []
    ∧ ((e3 = [] ∧ st = store w)
       ∨ runs (for_each (sfs ++ tfs) unlink_one)
           (mkWorld (store w) (trace w ++ e1)) r st e3).
Proof.
  unfold _remove_service.
  destruct (stop_service_runs host (sfs ++ tfs) w) as (ea & Hstop & _).
  destruct (emits_stop_service host (sfs ++ tfs) w) as (? & ? & ea' & Hstop' & HPa).
  destruct (runs_inj _ _ _ _ _ _ _ _ Hstop Hstop') as (_ & _ & <-).
  clear Hstop'.
  set (w1 := mkWorld (store w) (trace w ++ ea)).
  destruct (disable_service_runs host (sfs ++ tfs) w1)
    as (raised & eb & Hdis & _).
  destruct (emits_disable_service host (sfs ++ tfs) w1)
    as (? & ? & eb' & Hdis' & HPb).
  destruct (runs_inj _ _ _ _ _ _ _ _ Hdis Hdis') as (_ & _ & <-).
  clear Hdis'. cbn [store w1] in Hdis.
  destruct raised as [err|].
  { exists (Raise (DBusException err)), (store w), (ea ++ eb), [].
    split.
    { rewrite !app_nil_r.
      eapply runs_bind_return; [apply Hstop|]. by apply runs_bind_raise. }
    split; [|by left].
    apply unlinks_none. left. by apply Forall_app. }
  set (w2 := mkWorld (store w) (trace w1 ++ eb)).
  destruct (clean_units_runs host sfs ∅ w2) as (r3 & ec & Hclean & _).
  destruct (emits_clean_units host sfs ∅ w2) as (? & ? & ec' & Hclean' & HPc).
  destruct (runs_inj _ _ _ _ _ _ _ _ Hclean Hclean') as (_ & _ & <-).
  clear Hclean'. cbn [store w2] in Hclean.
  destruct r3 as [names|e].
  2:{ exists (Raise e), (store w), (ea ++ eb ++ ec), [].
      split.
      { rewrite !app_nil_r.
        eapply runs_bind_return; [apply Hstop|].
        eapply runs_bind_return; [apply Hdis|]. by apply runs_bind_raise. }
      split; [|by left].
      apply unlinks_none. left. by repeat apply Forall_app_2. }
  set (w3 := mkWorld (store w) (trace w2 ++ ec)).
  destruct (delete_loop_runs host (iter_set names) w3) as (r4 & ed & Hdel & _).
  destruct (emits_delete_loop host (iter_set names) w3)
    as (? & ? & ed' & Hdel' & HPd).
  destruct (runs_inj _ _ _ _ _ _ _ _ Hdel Hdel') as (_ & _ & <-).
  clear Hdel'. cbn [store w3] in Hdel.
  assert (Hnone : unlinks (ea ++ eb ++ ec ++ ed) = []).
  { rewrite !unlinks_app.
    rewrite (unlinks_none ea), (unlinks_none eb), (unlinks_none ec),
      (unlinks_none ed); auto. }
  destruct r4 as [[]|e].
  2:{ exists (Raise e), (store w), (ea ++ eb ++ ec ++ ed), [].
      split.
      { rewrite !app_nil_r.
        eapply runs_bind_return; [apply Hstop|].
        eapply runs_bind_return; [apply Hdis|].
        eapply runs_bind_return; [apply Hclean|]. by apply runs_bind_raise. }
      split; [done | by left]. }
  set (w4 := mkWorld (store w) (trace w3 ++ ed)).
  destruct (unlink_loop_parts (sfs ++ tfs) w4) as (r & st & ee & _ & Hunl & _).
  exists r, st, (ea ++ eb ++ ec ++ ed), ee.
  split.
  { rewrite <- !app_assoc.
    eapply runs_bind_return; [apply Hstop|].
    eapply runs_bind_return; [apply Hdis|].
    eapply runs_bind_return; [apply Hclean|].
    eapply runs_bind_return; [apply Hdel | apply Hunl]. }
  split; [done|]. right.
  unfold w4, w3, w2, w1 in Hunl. cbn [trace] in Hunl.
  by rewrite <- !app_assoc in Hunl.
Qed.

(** X25: a removal that stops half-way.  When a run of [_remove_service]
    comes to unlink a file that is not in the directory, it ends in
    [FileNotFoundError] on that file, with the files listed before it
    already deleted: they were all in the directory, and everything else
    is as it was.  The removal is not undone. *)
Theorem remove_stops_half_way sfs tfs w r st evs t :
  runs (_remove_service host sfs tfs) w r st evs →
  Unlink t ∈ evs →
  store w !! t = None →
  r = Raise (FileNotFoundError t)
  ∧ ∃ deleted rest,
      sfs ++ tfs = deleted ++ t :: rest
      ∧ Forall (λ f, is_Some (store w !! f)) deleted
      ∧ unlinks evs = deleted ++ [t]
      ∧ ∀ p, st !! p = if decide (p ∈ deleted) then None else store w !! p.
Proof.
  intros Hrun Hin Hmissing.
  destruct (remove_service_ends sfs tfs w) as (r' & st' & e1 & e3 & Hrun' & Hu1 & Hend).
  destruct (runs_inj _ _ _ _ _ _ _ _ Hrun Hrun') as (<- & <- & ->).
  apply elem_of_unlinks in Hin. rewrite unlinks_app, Hu1 in Hin. cbn [app] in Hin.
  destruct Hend as [[-> _]|Hloop]; [by apply elem_of_nil in Hin|].
  destruct (unlink_loop_parts (sfs ++ tfs) (mkWorld (store w) (trace w ++ e1)))
    as (r' & st' & e3' & deleted & Hloop' & Hst & Hall & Hcase).
  destruct (runs_inj _ _ _ _ _ _ _ _ Hloop Hloop') as (<- & <- & <-).
  cbn [store] in Hst, Hall.
  assert (Hnot : t ∉ deleted).
  { intros Hd. rewrite Forall_forall in Hall. destruct (Hall t Hd) as [v Hv].
    by rewrite Hmissing in Hv. }
  destruct Hcase as [(_ & -> & Hu)|(t' & rest & Hfiles & -> & Hu)].
  - by rewrite Hu in Hin.
  - rewrite Hu in Hin. apply elem_of_app in Hin as [?|Hin]; [done|].
    apply list_elem_of_singleton in Hin as <-.
    split; [done|]. exists deleted, rest.
    split; [done|]. split; [done|]. split.
    + by rewrite unlinks_app, Hu1, Hu.
    + intros p. rewrite Hst. apply lookup_without.
Qed.

End HalfWay.

(** ** Failures that are passed over *)

Section PassedOver.
Context `{Package} (host : Host).

(** X27: the failures that are passed over.  [_stop_service] always
    returns, calls [StopUnit] for every file of its list, in order, and
    logs every call that failed, with the unit name and the error, as a
    warning; the clean loop of [_remove_service], when every service file
    can be read, returns, calls [CleanUnit] for every file, in order, and
    logs every call that failed, with the file and the error, as a warning.
    Neither changes the directory. *)
Theorem stop_and_clean_failures_are_isolated files sfs names w :
  (∃ evs,
     runs (_stop_service host files) w (Return tt) (store w) evs
     ∧ calls evs = (λ sf, StopUnit (Py.basename sf) "replace") <$> files
     ∧ (∀ c err, IPC c (Some err) ∈ evs →
          ∃ u, c = StopUnit u "replace"
               ∧ Log WARNING "Could not stop %s: (%s) %s"
                   [u; err_class err; err_text err] ∈ evs))
  ∧ (Forall (λ f, is_Some (store w !! f)) sfs →
     ∃ names' evs,
       runs (clean_units host sfs names) w (Return names') (store w) evs
       ∧ calls evs = (λ f, CleanUnit (Py.basename f) ["all"]) <$> sfs
       ∧ (∀ c err, IPC c (Some err) ∈ evs →
            ∃ f, f ∈ sfs ∧ c = CleanUnit (Py.basename f) ["all"]
                 ∧ Log WARNING "Could not clean %s: (%s) %s"
                     [f; err_class err; err_text err] ∈ evs)).
Proof.
  split.
  - destruct (stop_service_runs host files w) as (evs & ? & ? & _ & _ & ?).
    eauto.
  - intros Hall.
    destruct (clean_units_runs host sfs names w)
      as (r & evs & Hrun & _ & _ & _ & Hlog & Hr).
    destruct r as [names'|e].
    + destruct Hr as (_ & _ & Hcalls). eauto 6.
    + destruct Hr as (f & Hin & Hnone & _).
      rewrite Forall_forall in Hall. destruct (Hall f Hin) as [? ?].
      congruence.
Qed.

End PassedOver.

(** ** A creation that fails after it has begun to write *)

Section LateFailure.
Context `{Package} (host : Host).

(** X26: a creation that fails after it has begun to write.  When a run of
    [create] ends in an exception after it has written a unit file, the old
    unit files are removed and the files written are the first of those it
    writes, in order, with their new text; either they are all written and
    the exception is an error of the manager (on [Reload] or
    [EnableUnitFiles]), or the exception is the [FileNotFoundError] of the
    next file, the directory of which was missing, and the files after it
    are not written.  Nothing is rolled back. *)
Theorem create_can_fail_after_the_writes self defer_reload w e st evs :
  runs (create host self defer_reload) w (Raise e) st evs →
  writes evs ≠ [] →
  ∃ written rest,
    synthesized self = written ++ rest
    ∧ written ≠ []
    ∧ writes evs = written.*1
    ∧ unlinks evs = unit_files self
    ∧ st = write_all written (without (unit_files self) (store w))
    ∧ (rest = [] ∧ (∃ err, e = DBusException err)
       ∨ ∃ p c rest' w',
           rest = (p, c) :: rest'
           ∧ e = FileNotFoundError p
           ∧ parent_missing host w' p = true).
Proof.
  intros Hrun Hwrote.
  destruct (create_parts host self defer_reload w) as (r & st' & evs' & Hrun' & Hcase).
  destruct (runs_inj _ _ _ _ _ _ _ _ Hrun Hrun') as (<- & <- & <-).
  destruct Hcase as [[Hnone _]|(written & rest & Hl & Hst & Hw & Hu & _ & _ & Hr)];
    [done|].
  exists written, rest. split; [done|].
  split; [intros ->; by rewrite Hw in Hwrote|].
  split; [done|]. split; [done|]. split; [done|].
  destruct Hr as [[-> [[[=] _]|[err [= ->]]]]|(p & c & rest' & w0 & -> & [= ->] & Hm)].
  - left. eauto.
  - right. eauto 10.
Qed.

End LateFailure.

(** ** The further properties at concrete inputs *)

(** X2 at a deployed service without schedules and a manager that never
    fails. *)
Lemma remove_returns_witness :
  ∃ st evs,
    runs (_remove_service (H := Demo.package) Demo.quiet
            (service_files (Demo.svc "db" "docker start c1" None None)) [])
      (Demo.deployed (Demo.svc "db" "docker start c1" None None) Demo.c1_unit)
      (Return tt) st evs
    ∧ unlinks evs = service_files (Demo.svc "db" "docker start c1" None None).
Proof.
  destruct (remove_service_full (H := Demo.package) Demo.quiet
              (service_files (Demo.svc "db" "docker start c1" None None)) []
              (Demo.deployed (Demo.svc "db" "docker start c1" None None) Demo.c1_unit))
    as (r & st & e1 & e2 & e3 & Hrun & _).
  assert (Hr : r = Return tt).
  { pose proof Hrun as Hc. unfold runs in Hc. vm_compute in Hc.
    by injection Hc as <- _. }
  subst r. exists st, (e1 ++ e2 ++ e3). split; [exact Hrun|].
  destruct (remove_returns (H := Demo.package) Demo.quiet _ _ _ _ _ Hrun)
    as (_ & _ & _ & Hu & _).
  rewrite Hu. apply app_nil_r.
Defined.

(** X3 at a deployed service without schedules, with the reload deferred. *)
Lemma create_returns_witness :
  ∃ st evs,
    runs (create Demo.quiet (Demo.svc "db" "docker start c1" None None) true)
      (Demo.deployed (Demo.svc "db" "docker start c1" None None) Demo.c1_unit)
      (Return tt) st evs
    ∧ calls evs = create_calls (Demo.svc "db" "docker start c1" None None) true.
Proof.
  destruct (create_full Demo.quiet (Demo.svc "db" "docker start c1" None None) true
              (Demo.deployed (Demo.svc "db" "docker start c1" None None) Demo.c1_unit))
    as (r & st & evs & Hrun & _).
  assert (Hr : r = Return tt).
  { pose proof Hrun as Hc. unfold runs in Hc. vm_compute in Hc.
    by injection Hc as <- _. }
  subst r. exists st, evs. split; [exact Hrun|].
  exact (proj1 (proj2 (create_returns Demo.quiet _ _ _ _ _ Hrun))).
Defined.

(** X4 at the same input. *)
Lemma create_leaves_unit_files_witness :
  ∃ st evs,
    runs (create Demo.quiet (Demo.svc "db" "docker start c1" None None) false)
      (Demo.deployed (Demo.svc "db" "docker start c1" None None) Demo.c1_unit)
      (Return tt) st evs
    ∧ st !! unit_path (Demo.svc "db" "docker start c1" None None) "service" false
      = Some (primary_content (Demo.svc "db" "docker start c1" None None)).
Proof.
  destruct (create_full Demo.quiet (Demo.svc "db" "docker start c1" None None) false
              (Demo.deployed (Demo.svc "db" "docker start c1" None None) Demo.c1_unit))
    as (r & st & evs & Hrun & _).
  assert (Hr : r = Return tt).
  { pose proof Hrun as Hc. unfold runs in Hc. vm_compute in Hc.
    by injection Hc as <- _. }
  subst r. exists st, evs. split; [exact Hrun|].
  exact (proj1 (proj2 (create_leaves_unit_files Demo.quiet _ _ _ _ _ Hrun))).
Defined.

(** X5 at a deployed service whose stop schedule is the empty list. *)
Lemma empty_stop_schedule_leaves_an_unlisted_timer_witness :
  ∃ st evs,
    runs (create Demo.quiet (Demo.svc "job" "true" None (Some (Many []))) false)
      (Demo.deployed (Demo.svc "job" "true" None (Some (Many []))) "old text")
      (Return tt) st evs
    ∧ is_Some (st !! "/home/u/.config/systemd/user/stop-taskflow-job.timer")
    ∧ "/home/u/.config/systemd/user/stop-taskflow-job.timer"
      ∉ unit_files (Demo.svc "job" "true" None (Some (Many []))).
Proof.
  destruct (create_full Demo.quiet (Demo.svc "job" "true" None (Some (Many []))) false
              (Demo.deployed (Demo.svc "job" "true" None (Some (Many []))) "old text"))
    as (r & st & evs & Hrun & _).
  assert (Hr : r = Return tt).
  { pose proof Hrun as Hc. unfold runs in Hc. vm_compute in Hc.
    by injection Hc as <- _. }
  subst r. exists st, evs. split; [exact Hrun|].
  destruct (empty_stop_schedule_leaves_an_unlisted_timer Demo.quiet
              (Demo.svc "job" "true" None (Some (Many []))) false _ _ _
              eq_refl Hrun) as (Hst & _ & Hnotin).
  split; [by eexists | exact Hnotin].
Defined.

(** X6 at a service with a stop schedule and a manager that never fails. *)
Lemma restart_also_runs_the_stop_unit_witness :
  ∃ st evs,
    runs (restart Demo.quiet (Demo.svc "job" "true" None (Some (One "23:00"))))
      Demo.w0 (Return tt) st evs
    ∧ calls evs
      = [RestartUnit "taskflow-job.service" "replace";
         RestartUnit "stop-taskflow-job.service" "replace"].
Proof.
  destruct (restart_service_runs Demo.quiet
              (service_files (Demo.svc "job" "true" None (Some (One "23:00"))))
              Demo.w0) as (r & evs & Hrun & _).
  assert (Hr : r = Return tt).
  { pose proof Hrun as Hc. unfold runs in Hc. vm_compute in Hc.
    by injection Hc as <- _. }
  subst r. exists (store Demo.w0), evs. split; [exact Hrun|].
  exact (proj1 (proj2 (restart_also_runs_the_stop_unit Demo.quiet
                         (Demo.svc "job" "true" None (Some (One "23:00")))
                         Demo.w0 _ _ eq_refl Hrun))).
Defined.


(** X9 at the prefix "taskflow-": asking for the timers named like "back". *)
Lemma unit_match_pattern_contains_witness :
  PyMore.contains "taskflow-"
    (_make_unit_match_pattern (H := Demo.package) (Some "timer") (Some "back"))
  = true.
Proof.
  exact (proj1 (unit_match_pattern_contains (H := Demo.package)
                  (Some "timer") (Some "back") eq_refl)).
Defined.

(** X10 at a deployed service without schedules and a manager that never
    fails. *)
Lemma remove_is_not_repeatable_witness :
  ∃ st evs e evs',
    runs (remove Demo.quiet (Demo.svc "db" "docker start c1" None None))
      (Demo.deployed (Demo.svc "db" "docker start c1" None None) Demo.c1_unit)
      (Return tt) st evs
    ∧ runs (remove Demo.quiet (Demo.svc "db" "docker start c1" None None))
        (mkWorld st
           (trace (Demo.deployed (Demo.svc "db" "docker start c1" None None)
                     Demo.c1_unit) ++ evs))
        (Raise e) st evs'.
Proof.
  destruct (remove_service_full (H := Demo.package) Demo.quiet
              (service_files (Demo.svc "db" "docker start c1" None None))
              (timer_files (Demo.svc "db" "docker start c1" None None))
              (Demo.deployed (Demo.svc "db" "docker start c1" None None) Demo.c1_unit))
    as (r & st & e1 & e2 & e3 & Hrun & _).
  assert (Hr : r = Return tt).
  { pose proof Hrun as Hc. unfold runs in Hc. vm_compute in Hc.
    by injection Hc as <- _. }
  subst r.
  destruct (remove_is_not_repeatable Demo.quiet
              (Demo.svc "db" "docker start c1" None None) _ _ _ Hrun)
    as (e & evs' & Hagain).
  exists st, (e1 ++ e2 ++ e3), e, evs'. split; [exact Hrun | exact Hagain].
Defined.

(** X11 at the same service: deployed again, then removed. *)
Lemma remove_undoes_create_witness :
  ∃ st1 evs1 st2 evs2,
    runs (create Demo.quiet (Demo.svc "db" "docker start c1" None None) false)
      (Demo.deployed (Demo.svc "db" "docker start c1" None None) Demo.c1_unit)
      (Return tt) st1 evs1
    ∧ runs (remove Demo.quiet (Demo.svc "db" "docker start c1" None None))
        (mkWorld st1
           (trace (Demo.deployed (Demo.svc "db" "docker start c1" None None)
                     Demo.c1_unit) ++ evs1))
        (Return tt) st2 evs2
    ∧ st2 !! "/home/u/.config/systemd/user/taskflow-db.service" = None
    ∧ st2 !! "/home/u/.config/systemd/user/other.service" = None.
Proof.
  set (self := Demo.svc "db" "docker start c1" None None).
  set (w := Demo.deployed self Demo.c1_unit).
  destruct (create_full Demo.quiet self false w) as (r1 & st1 & evs1 & Hrun1 & _).
  assert (Hr1 : r1 = Return tt).
  { pose proof Hrun1 as Hc. unfold runs in Hc. vm_compute in Hc.
    by injection Hc as <- _. }
  subst r1.
  destruct (remove_service_full (H := Demo.package) Demo.quiet
              (service_files self) (timer_files self)
              (mkWorld st1 (trace w ++ evs1)))
    as (r2 & st2 & e1 & e2 & e3 & Hrun2 & _).
  assert (Hr2 : r2 = Return tt).
  { pose proof Hrun1 as Hc1. unfold runs in Hc1.
    assert (Hw : mkWorld st1 (trace w ++ evs1)
                 = (create Demo.quiet self false w).2) by (by rewrite Hc1).
    pose proof Hrun2 as Hc2. unfold runs in Hc2. rewrite Hw in Hc2.
    vm_compute in Hc2. by injection Hc2 as <- _. }
  subst r2.
  pose proof (remove_undoes_create Demo.quiet self false w st1 evs1 st2
                (e1 ++ e2 ++ e3)
                ltac:(discriminate) ltac:(discriminate) Hrun1 Hrun2) as Hst.
  exists st1, evs1, st2, (e1 ++ e2 ++ e3).
  split; [exact Hrun1|]. split; [exact Hrun2|]. split.
  - exact (Hst "/home/u/.config/systemd/user/taskflow-db.service").
  - exact (Hst "/home/u/.config/systemd/user/other.service").
Defined.

(** X12 at the same service, deployed again with another command. *)
Lemma create_again_rewrites_the_same_paths_witness :
  ∃ st1 evs1 st2 evs2,
    runs (create Demo.quiet (Demo.svc "db" "docker start c1" None None) false)
      (Demo.deployed (Demo.svc "db" "docker start c1" None None) Demo.c1_unit)
      (Return tt) st1 evs1
    ∧ runs (create Demo.quiet (Demo.svc "db" "docker start c2" None None) true)
        (mkWorld st1
           (trace (Demo.deployed (Demo.svc "db" "docker start c1" None None)
                     Demo.c1_unit) ++ evs1))
        (Return tt) st2 evs2
    ∧ dom st2 = dom st1
    ∧ st2 !! "/home/u/.config/systemd/user/other.service"
      = st1 !! "/home/u/.config/systemd/user/other.service".
Proof.
  set (self := Demo.svc "db" "docker start c1" None None).
  set (self' := Demo.svc "db" "docker start c2" None None).
  set (w := Demo.deployed self Demo.c1_unit).
  destruct (create_full Demo.quiet self false w) as (r1 & st1 & evs1 & Hrun1 & _).
  assert (Hr1 : r1 = Return tt).
  { pose proof Hrun1 as Hc. unfold runs in Hc. vm_compute in Hc.
    by injection Hc as <- _. }
  subst r1.
  destruct (create_full Demo.quiet self' true (mkWorld st1 (trace w ++ evs1)))
    as (r2 & st2 & evs2 & Hrun2 & _).
  assert (Hr2 : r2 = Return tt).
  { pose proof Hrun1 as Hc1. unfold runs in Hc1.
    assert (Hw : mkWorld st1 (trace w ++ evs1)
                 = (create Demo.quiet self false w).2) by (by rewrite Hc1).
    pose proof Hrun2 as Hc2. unfold runs in Hc2. rewrite Hw in Hc2.
    vm_compute in Hc2. by injection Hc2 as <- _. }
  subst r2.
  destruct (create_again_rewrites_the_same_paths Demo.quiet self self' false true
              w st1 evs1 st2 evs2 eq_refl eq_refl eq_refl Hrun1 Hrun2)
    as (Hdom & Hout & _).
  exists st1, evs1, st2, evs2.
  split; [exact Hrun1|]. split; [exact Hrun2|]. split; [exact Hdom|].
  apply Hout. vm_compute. intros Hin.
  repeat (apply elem_of_cons in Hin as [Hin|Hin]; [discriminate Hin|]).
  by apply elem_of_nil in Hin.
Defined.

Lemma utc_minus_5_within_a_day : within_a_day Demo.utc_minus_5.
Proof. intros s. unfold Demo.utc_minus_5. lia. Defined.

Lemma nightly_bus_uint64 : uint64_props nightly_bus.
Proof.
  intros u. unfold uint64. cbn.
  repeat split; repeat constructor; cbn; lia.
Defined.

(** X13 at the largest 64-bit value, five hours behind UTC. *)
Lemma far_future_timestamp_is_unknown_witness :
  ScheduleInfo.timestamp_to_dt Demo.utc_minus_5 (2 ^ 64 - 1) = inr None.
Proof.
  apply far_future_timestamp_is_unknown.
  - exact utc_minus_5_within_a_day.
  - lia.
Defined.

(** X14 at a unit with two calendar timers and one monotonic timer. *)
Lemma get_schedule_info_returns_witness :
  ∃ info,
    ScheduleInfo.get_schedule_info "taskflow-" Demo.utc_minus_5 nightly_bus "job"
    = inr info
    ∧ (ScheduleInfo.Timers_Calendar info).*1
      = [("OnCalendar", "*-*-* 23:00:00"); ("OnCalendar", "*-*-* 06:00:00")].
Proof.
  destruct (get_schedule_info_returns "taskflow-" Demo.utc_minus_5 nightly_bus "job"
              utc_minus_5_within_a_day nightly_bus_uint64)
    as (info & Hinfo & Hcal & _).
  exists info. split; [exact Hinfo | exact Hcal].
Defined.

(** X15 at the same unit: the timer unit reports no next elapse, and the
    second calendar timer is the earlier one. *)
Lemma next_start_falls_back_to_the_earliest_timer_witness :
  match ScheduleInfo.get_schedule_info "taskflow-" Demo.utc_minus_5 nightly_bus
          "job" with
  | inr info =>
      match ScheduleInfo.Next_Start info with
      | Some d => d ∈ omap snd (ScheduleInfo.Timers_Calendar info)
      | None => False
      end
  | inl _ => False
  end.
Proof.
  destruct (ScheduleInfo.get_schedule_info "taskflow-" Demo.utc_minus_5
              nightly_bus "job") as [e|info] eqn:Heq.
  - by vm_compute in Heq.
  - pose proof (proj2 (next_start_falls_back_to_the_earliest_timer
                         "taskflow-" Demo.utc_minus_5 nightly_bus "job" info Heq)
                  eq_refl) as Hnext.
    vm_compute in Heq. injection Heq as <-. exact (proj1 Hnext).
Defined.

(** X16 at the name "job". *)
Lemma unit_stem_spellings_witness :
  ScheduleInfo.unit_stem "taskflow-" "job.timer" = "taskflow-job"
  ∧ ScheduleInfo.unit_stem "taskflow-" "job.service" = "taskflow-job".
Proof.
  destruct (unit_stem_spellings "taskflow-" "job" eq_refl) as (Hs & Ht & _).
  split; [exact Ht | exact Hs].
Defined.


(** X19 at a service with a start schedule. *)
Lemma each_timer_has_its_service_witness :
  ∃ s u,
    s ∈ service_files (Demo.svc "job" "true" (Some (One "daily")) None)
    ∧ Py.basename "/home/u/.config/systemd/user/taskflow-job.timer" = u +:+ ".timer"
    ∧ Py.basename s = u +:+ ".service".
Proof.
  exact (each_timer_has_its_service (H := Demo.package)
           (Demo.svc "job" "true" (Some (One "daily")) None)
           "/home/u/.config/systemd/user/taskflow-job.timer"
           (list_elem_of_here _ _)).
Defined.

(** X24 at a deployed service with a start schedule. *)
Lemma timers_hold_every_schedule_witness :
  ∃ st evs,
    runs (create Demo.quiet (Demo.svc "job" "true" (Some (One "daily")) None) false)
      (deployed_with_timer (Demo.svc "job" "true" (Some (One "daily")) None)
         "old text" "old timer")
      (Return tt) st evs
    ∧ st !! "/home/u/.config/systemd/user/taskflow-job.timer"
      = Some (timer_content (Demo.svc "job" "true" (Some (One "daily")) None)
                false (One "daily")).
Proof.
  destruct (create_full Demo.quiet (Demo.svc "job" "true" (Some (One "daily")) None)
              false
              (deployed_with_timer (Demo.svc "job" "true" (Some (One "daily")) None)
                 "old text" "old timer"))
    as (r & st & evs & Hrun & _).
  assert (Hr : r = Return tt).
  { pose proof Hrun as Hc. unfold runs in Hc. vm_compute in Hc.
    by injection Hc as <- _. }
  subst r. exists st, evs. split; [exact Hrun|].
  exact (proj1 (timers_hold_every_schedule Demo.quiet
                  (Demo.svc "job" "true" (Some (One "daily")) None)
                  false _ _ _ false (One "daily") Hrun eq_refl)).
Defined.

(** X20 at a unit that starts and stops the container [c1]. *)
Lemma search_docker_finds_what_the_unit_names_witness :
  Py.search_docker Demo.c1_unit = Some "c1"
  ∧ container_name "c1"
  ∧ first_reference Demo.c1_unit "c1".
Proof.
  destruct (proj1 (search_docker_finds_what_the_unit_names Demo.c1_unit eq_refl)
              "c1" eq_refl) as (Hname & _ & Hfirst).
  split; [reflexivity|]. split; [exact Hname | exact Hfirst].
Defined.

(** X25 at a service with a start schedule of which only the service file
    is in the directory, and a manager that never fails. *)
Lemma remove_stops_half_way_witness :
  ∃ st evs,
    runs (remove Demo.quiet (Demo.svc "job" "true" (Some (One "daily")) None))
      (Demo.deployed (Demo.svc "job" "true" (Some (One "daily")) None) "old text")
      (Raise (FileNotFoundError "/home/u/.config/systemd/user/taskflow-job.timer"))
      st evs
    ∧ st !! "/home/u/.config/systemd/user/taskflow-job.service" = None.
Proof.
  set (self := Demo.svc "job" "true" (Some (One "daily")) None).
  set (w := Demo.deployed self "old text").
  set (t := "/home/u/.config/systemd/user/taskflow-job.timer").
  destruct (remove_service_ends (H := Demo.package) Demo.quiet (service_files self) (timer_files self) w)
    as (r & st & e1 & e3 & Hrun & _).
  remember (e1 ++ e3) as evs eqn:Hevs. clear Hevs.
  assert (Hin : Unlink t ∈ evs).
  { pose proof Hrun as Hc. unfold runs in Hc. vm_compute in Hc.
    injection Hc as _ _ Hevs. rewrite <- Hevs.
    repeat first [apply list_elem_of_here | apply list_elem_of_further]. }
  destruct (remove_stops_half_way (H := Demo.package) Demo.quiet _ _ _ _ _ _ t Hrun Hin eq_refl)
    as (-> & deleted & rest & Hfiles & _ & _ & Hst).
  exists st, evs. split; [exact Hrun|].
  destruct deleted as [|f [|f' deleted]].
  - by vm_compute in Hfiles.
  - injection Hfiles as <- _. rewrite Hst. apply decide_True, list_elem_of_here.
  - destruct deleted; vm_compute in Hfiles; discriminate Hfiles.
Defined.

(** X26 at a deployed service with a slash in its name, a start schedule
    and an empty list as stop schedule, where the directory of the "stop"
    units is missing: the old service file is removed, the start timer is
    written, the write of the stop timer fails and the service file is not
    written. *)
Lemma create_can_fail_after_the_writes_witness :
  ∃ st evs,
    runs (create no_stop_directory
            (Demo.svc "a/b" "true" (Some (One "daily")) (Some (Many []))) false)
      (deployed_with_timer
         (Demo.svc "a/b" "true" (Some (One "daily")) (Some (Many [])))
         "old text" "old timer")
      (Raise (FileNotFoundError
                "/home/u/.config/systemd/user/stop-taskflow-a/b.timer"))
      st evs
    ∧ writes evs = ["/home/u/.config/systemd/user/taskflow-a/b.timer"]
    ∧ st !! "/home/u/.config/systemd/user/taskflow-a/b.timer"
      = Some (timer_content
                (Demo.svc "a/b" "true" (Some (One "daily")) (Some (Many [])))
                false (One "daily"))
    ∧ st !! "/home/u/.config/systemd/user/taskflow-a/b.service" = None.
Proof.
  set (self := Demo.svc "a/b" "true" (Some (One "daily")) (Some (Many []))).
  set (w := deployed_with_timer self "old text" "old timer").
  destruct (create_parts no_stop_directory self false w)
    as (r & st & evs & Hrun & _).
  pose proof Hrun as Hc. unfold runs in Hc. vm_compute in Hc.
  injection Hc as Hr _ Hevs. subst r.
  assert (Hwc : writes evs = ["/home/u/.config/systemd/user/taskflow-a/b.timer"])
    by (by rewrite <- Hevs).
  assert (Hwrote : writes evs ≠ []) by (by rewrite Hwc).
  destruct (create_can_fail_after_the_writes no_stop_directory self false w _ st evs
              Hrun Hwrote) as (written & rest & Hl & _ & Hw & _ & Hst & _).
  exists st, evs. split; [exact Hrun|]. split; [exact Hwc|].
  rewrite Hwc in Hw.
  destruct written as [|[p c] [|? ?]]; try discriminate Hw.
  injection Hw as <-.
  assert (Hhead : head (synthesized self)
                  = Some ("/home/u/.config/systemd/user/taskflow-a/b.timer",
                          timer_content self false (One "daily")))
    by reflexivity.
  rewrite Hl in Hhead. injection Hhead as <-.
  rewrite Hst. split.
  - apply (lookup_write_all_last []). apply not_elem_of_nil.
  - rewrite lookup_write_all_notin.
    + rewrite lookup_without. apply decide_True. apply list_elem_of_here.
    + intros Hin%list_elem_of_singleton. discriminate Hin.
Defined.

(** X27 at two service files that are in the directory, with a manager
    that fails every call: both units are asked to stop and to clean, and
    every failure is logged. *)
Lemma stop_and_clean_failures_are_isolated_witness :
  let w := mkWorld (<["/d/a.service" := "ExecStart=true"]>
                      {["/d/stop-a.service" := "ExecStart=true"]}) [] in
  (∃ evs,
     runs (_stop_service Demo.failing ["/d/a.service"; "/d/stop-a.service"])
       w (Return tt) (store w) evs
     ∧ calls evs = [StopUnit "a.service" "replace";
                    StopUnit "stop-a.service" "replace"]
     ∧ Log WARNING "Could not stop %s: (%s) %s"
         ["a.service"; err_class Demo.no_such_unit; err_text Demo.no_such_unit]
       ∈ evs
     ∧ Log WARNING "Could not stop %s: (%s) %s"
         ["stop-a.service"; err_class Demo.no_such_unit;
          err_text Demo.no_such_unit] ∈ evs)
  ∧ (∃ names' evs,
       runs (clean_units Demo.failing ["/d/a.service"; "/d/stop-a.service"] ∅)
         w (Return names') (store w) evs
       ∧ calls evs = [CleanUnit "a.service" ["all"];
                      CleanUnit "stop-a.service" ["all"]]
       ∧ Log WARNING "Could not clean %s: (%s) %s"
           ["/d/a.service"; err_class Demo.no_such_unit;
            err_text Demo.no_such_unit] ∈ evs
       ∧ Log WARNING "Could not clean %s: (%s) %s"
           ["/d/stop-a.service"; err_class Demo.no_such_unit;
            err_text Demo.no_such_unit] ∈ evs).
Proof.
  intros w.
  destruct (stop_and_clean_failures_are_isolated Demo.failing
              ["/d/a.service"; "/d/stop-a.service"]
              ["/d/a.service"; "/d/stop-a.service"] ∅ w)
    as ((evs & Hrun & Hcalls & Hlog) & Hclean).
  split.
  - exists evs. split; [exact Hrun|]. split; [exact Hcalls|].
    assert (Hfailed : ∀ u, u = "a.service" ∨ u = "stop-a.service" →
              IPC (StopUnit u "replace") (Some Demo.no_such_unit) ∈ evs).
    { pose proof Hrun as Hc. unfold runs in Hc. vm_compute in Hc.
      injection Hc as Hevs. rewrite <- Hevs.
      intros u [-> | ->];
        repeat first [apply list_elem_of_here | apply list_elem_of_further]. }
    split.
    + destruct (Hlog _ _ (Hfailed "a.service" (or_introl eq_refl)))
        as (u & [= <-] & Hin). exact Hin.
    + destruct (Hlog _ _ (Hfailed "stop-a.service" (or_intror eq_refl)))
        as (u & [= <-] & Hin). exact Hin.
  - destruct Hclean as (names' & evs' & Hrun' & Hcalls' & Hlog').
    { repeat constructor; by eexists. }
    exists names', evs'. split; [exact Hrun'|]. split; [exact Hcalls'|].
    assert (Hfailed : ∀ u, u = "a.service" ∨ u = "stop-a.service" →
              IPC (CleanUnit u ["all"]) (Some Demo.no_such_unit) ∈ evs').
    { pose proof Hrun' as Hc. unfold runs in Hc. vm_compute in Hc.
      injection Hc as _ Hevs. rewrite <- Hevs.
      intros u [-> | ->];
        repeat first [apply list_elem_of_here | apply list_elem_of_further]. }
    split.
    + destruct (Hlog' _ _ (Hfailed "a.service" (or_introl eq_refl)))
        as (f & Hf & Hc & Hin).
      apply elem_of_cons in Hf as [->|Hf]; [exact Hin|].
      apply list_elem_of_singleton in Hf as ->. discriminate Hc.
    + destruct (Hlog' _ _ (Hfailed "stop-a.service" (or_intror eq_refl)))
        as (f & Hf & Hc & Hin).
      apply elem_of_cons in Hf as [->|Hf]; [discriminate Hc|].
      apply list_elem_of_singleton in Hf as ->. exact Hin.
Defined.
